(** * feedback-bot: a shallow embedding of [bot.py]

    The bot is a set of handlers called by a dispatcher on every inbound
    update.  Each handler reads and writes four stores (the admin
    configuration file, the feedback table, the per-user session dictionary
    and the conversation tables) and talks to the messaging gateway.  The
    handlers are embedded below as computations in a small state-and-error
    monad over a record of these stores; the dispatcher of [main] is
    embedded as a function on the table of handlers.

    What is modelled, and how:
    - Python strings are Rocq strings holding their UTF-8 encoding; [int]
      and the class [\d] of a regular expression work on the code points
      and read the decimal digits of every digit system of Unicode.
    - The feedback table is a finite map from the primary key to the row;
      [context.user_data] is a record of the five keys the handlers use, one
      record per user id; a conversation table maps (chat id, user id) to
      the state.
    - [admin_config.json] is a finite map from strings to strings, the shape
      [save_admin_config] writes; a missing or unreadable file is [None].
      A write succeeds, is refused when the file is opened, or fails after
      the file was opened and emptied, as the surroundings say.
    - The queries are answered as SQLite answers them: rows ordered by time
      come latest first and, for one time, in the order of their ids; the
      distinct user ids and the groups of a column come in ascending order;
      a new row gets the largest id plus one.  The table holds 64-bit
      integers: a statement about a number that is written to or looked up
      in the table takes it to be in that range ([storable]).
    - The messaging gateway is an outbox: the list of calls made, each with
      its outcome.  A call inside [try ... except] succeeds or fails as the
      surroundings ([Env]) say, which also give the error of a call that
      fails; a call outside any [try] is taken to succeed.  The commit of a
      new row, guarded by [except
      SQLAlchemyError], succeeds or fails as the surroundings say; the other
      store operations are taken to succeed.
    - An exception a handler raises itself ([KeyError], [ValueError],
      [IndexError], an attribute of [None]) ends the handler; what it did
      before stays.
    - The dispatcher follows python-telegram-bot: one group of handlers, the
      first handler that takes the update handles it, a conversation asks
      the handlers of its state before its fallbacks. *)

From Stdlib Require Import Ascii String.
From stdpp Require Import gmap strings list fin_maps pretty sorting.

Open Scope string_scope.
Open Scope list_scope.
Open Scope Z_scope.

(** ** Python string primitives used by the handlers *)

Module Py.

(** [s.split(sep)] and [s.split(sep, maxsplit)] for a non-empty [sep].
    [skip] counts the characters of a separator still to be dropped and
    [acc] holds the current piece, last character first. *)
Fixpoint split_go (sep : string) (maxsplit : option nat) (skip : nat)
    (acc : list ascii) (s : string) : list string :=
  match s with
  | EmptyString => [string_of_list_ascii (rev acc)]
  | String a s' =>
      match skip with
      | S k => split_go sep maxsplit k acc s'
      | O =>
          if bool_decide (maxsplit ≠ Some O) && String.prefix sep s
          then string_of_list_ascii (rev acc)
                 :: split_go sep (Nat.pred <$> maxsplit)
                      (Nat.pred (String.length sep)) [] s'
          else split_go sep maxsplit O (a :: acc) s'
      end
  end.

Definition split (sep : string) (s : string) : list string :=
  split_go sep None O [] s.

Definition split_max (sep : string) (maxsplit : nat) (s : string) : list string :=
  split_go sep (Some maxsplit) O [] s.

(** [s * n]: repetition; a negative count gives the empty string. *)
Fixpoint repeat_nat (s : string) (n : nat) : string :=
  match n with
  | O => EmptyString
  | S k => s +:+ repeat_nat s k
  end.

Definition repeat (s : string) (n : Z) : string := repeat_nat s (Z.to_nat n).

(** [str(n)] for an integer. *)
Definition str (n : Z) : string := pretty n.

(** *** Code points

    A Python string is a sequence of code points; the model holds its
    UTF-8 encoding.  [code_points] reads the code points back; a list of
    bytes that is not UTF-8 stands for no Python string and gives [None]. *)
Definition continuation (a : ascii) : option N :=
  let n := N_of_ascii a in
  if (128 <=? n)%N && (n <? 192)%N then Some (n - 128)%N else None.

Fixpoint code_points (l : list ascii) : option (list N) :=
  match l with
  | [] => Some []
  | a :: l1 =>
      let n := N_of_ascii a in
      if (n <? 128)%N then cons n <$> code_points l1
      else if (n <? 192)%N then None
      else if (n <? 224)%N then
        match l1 with
        | b :: l2 =>
            x ← continuation b;
            cons ((n - 192) * 64 + x)%N <$> code_points l2
        | _ => None
        end
      else if (n <? 240)%N then
        match l1 with
        | b :: c :: l3 =>
            x ← continuation b; y ← continuation c;
            cons (((n - 224) * 64 + x) * 64 + y)%N <$> code_points l3
        | _ => None
        end
      else if (n <? 248)%N then
        match l1 with
        | b :: c :: d :: l4 =>
            x ← continuation b; y ← continuation c; z ← continuation d;
            cons ((((n - 240) * 64 + x) * 64 + y) * 64 + z)%N
              <$> code_points l4
        | _ => None
        end
      else None
  end.

(** The code points of the digit zero of every decimal digit system of
    Unicode 14.0; the nine code points after each are its digits 1 to 9.
    These are the characters [int] reads as digits and [\d] matches. *)
Definition decimal_zeros : list N :=
  [
    48; 1632; 1776; 1984; 2406; 2534; 2662; 2790; 2918; 3046; 3174; 3302;
    3430; 3558; 3664; 3792; 3872; 4160; 4240; 6112; 6160; 6470; 6608; 6784;
    6800; 6992; 7088; 7232; 7248; 42528; 43216; 43264; 43472; 43504; 43600;
    44016; 65296; 66720; 68912; 69734; 69872; 69942; 70096; 70384; 70736;
    70864; 71248; 71360; 71472; 71904; 72016; 72784; 73040; 73120; 92768;
    92864; 93008; 120782; 120792; 120802; 120812; 120822; 123200; 123632;
    125264; 130032
  ]%N.

Fixpoint decimal_in (zeros : list N) (c : N) : option N :=
  match zeros with
  | [] => None
  | z :: zeros' =>
      if (z <=? c)%N && (c <? z + 10)%N then Some (c - z)%N
      else decimal_in zeros' c
  end.

(** The value of a decimal digit, [None] for any other code point. *)
Definition decimal (c : N) : option N := decimal_in decimal_zeros c.

(** White space beyond ASCII, as [str.isspace] has it. *)
Definition is_unicode_space (c : N) : bool :=
  bool_decide (c ∈ [133; 160; 5760; 8232; 8233; 8239; 8287; 12288]%N)
  || ((8192 <=? c)%N && (c <=? 8202)%N).

(** What [int] makes of a code point before it parses: ASCII stays, other
    white space becomes a space, other decimal digits the ASCII digit of
    the same value; anything else is an error. *)
Definition to_ascii (c : N) : option ascii :=
  if (c <? 127)%N then Some (ascii_of_N c)
  else if is_unicode_space c then Some " "%char
  else (λ d, ascii_of_N (48 + d)) <$> decimal c.

(** *** [int]

    The parser of [int] on the ASCII form: white space here is space,
    tab, line feed, vertical tab, form feed and carriage return. *)
Definition is_space (a : ascii) : bool :=
  let n := nat_of_ascii a in
  bool_decide (n = 32%nat) || (bool_decide (9 ≤ n)%nat && bool_decide (n ≤ 13)%nat).

Definition digit_of (a : ascii) : option Z :=
  let n := nat_of_ascii a in
  if bool_decide (48 ≤ n)%nat && bool_decide (n ≤ 57)%nat
  then Some (Z.of_nat (n - 48)) else None.

(** Digits with single underscores between them, as [int] accepts. *)
Fixpoint digits_go (acc : Z) (after_digit : bool) (l : list ascii) : option Z :=
  match l with
  | [] => if after_digit then Some acc else None
  | a :: l' =>
      match digit_of a with
      | Some d => digits_go (10 * acc + d) true l'
      | None =>
          if bool_decide (a = "_"%char) && after_digit
          then digits_go acc false l' else None
      end
  end.

Fixpoint lstrip (l : list ascii) : list ascii :=
  match l with
  | a :: l' => if is_space a then lstrip l' else l
  | [] => []
  end.

Definition strip (l : list ascii) : list ascii :=
  rev (lstrip (rev (lstrip l))).

Definition int_ascii (l : list ascii) : option Z :=
  match strip l with
  | "-"%char :: l => Z.opp <$> digits_go 0 false l
  | "+"%char :: l => digits_go 0 false l
  | l => digits_go 0 false l
  end.

(** [int(s)]: [None] stands for [ValueError].  White space around the
    number, an optional sign, and decimal digits of any digit system with
    single underscores between them are read. *)
Definition int (s : string) : option Z :=
  cps ← code_points (list_ascii_of_string s);
  l ← mapM to_ascii cps;
  int_ascii l.

(** [p in s] on strings. *)
Fixpoint contains (p s : string) : bool :=
  String.prefix p s
  || match s with
     | String _ s' => contains p s'
     | EmptyString => false
     end.

(** A byte that starts a UTF-8 encoded code point. *)
Definition is_lead (a : ascii) : bool :=
  let n := nat_of_ascii a in
  bool_decide (n < 128)%nat || bool_decide (192 ≤ n)%nat.

(** [s[:n]], counted in code points. *)
Fixpoint take_go (n : nat) (s : string) : string :=
  match s with
  | EmptyString => EmptyString
  | String a s' =>
      if is_lead a
      then match n with
           | O => EmptyString
           | S k => String a (take_go k s')
           end
      else String a (take_go n s')
  end.

Definition take (n : nat) (s : string) : string := take_go n s.

(** Truth value of a string and of an optional string: [None] and the
    empty string are false. *)
Definition truthy (o : option string) : option string :=
  match o with
  | Some EmptyString => None
  | _ => o
  end.

(** [a or b] on strings. *)
Definition or_else (o : option string) (d : string) : string :=
  default d (truthy o).

(** Lower and upper case of an ASCII letter; other characters stay. *)
Definition lower_char (a : ascii) : ascii :=
  let n := nat_of_ascii a in
  if bool_decide (65 ≤ n)%nat && bool_decide (n ≤ 90)%nat
  then ascii_of_nat (n + 32) else a.

Definition upper_char (a : ascii) : ascii :=
  let n := nat_of_ascii a in
  if bool_decide (97 ≤ n)%nat && bool_decide (n ≤ 122)%nat
  then ascii_of_nat (n - 32) else a.

Fixpoint lower (s : string) : string :=
  match s with
  | EmptyString => EmptyString
  | String a s' => String (lower_char a) (lower s')
  end.

(** [s.capitalize()], on ASCII letters. *)
Definition capitalize (s : string) : string :=
  match s with
  | EmptyString => EmptyString
  | String a s' => String (upper_char a) (lower s')
  end.

(** [sep.join(l)]. *)
Fixpoint join (sep : string) (l : list string) : string :=
  match l with
  | [] => EmptyString
  | x :: l' =>
      match l' with
      | [] => x
      | _ :: _ => x +:+ sep +:+ join sep l'
      end
  end.

End Py.

(** ** Configuration *)

Definition FEEDBACK_CATEGORIES : list string :=
  ["🐛 Bug Report"; "💡 Feature Request"; "🤔 General Query"; "⭐ Other"].

Definition FEEDBACK_PER_PAGE : Z := 5.

(** ** Data model *)

(** A [datetime.datetime] value, as [utcnow] returns it. *)
Record datetime := {
  year : Z; month : Z; day : Z; hour : Z; minute : Z; second : Z;
  microsecond : Z
}.

(** The key the store orders timestamps by. *)
Definition datetime_key (d : datetime) : Z :=
  (((((year d * 13 + month d) * 32 + day d) * 24 + hour d) * 60 + minute d)
     * 60 + second d) * 1000000 + microsecond d.

Definition month_abbr (m : Z) : string :=
  nth (Z.to_nat (m - 1))
    ["Jan"; "Feb"; "Mar"; "Apr"; "May"; "Jun";
     "Jul"; "Aug"; "Sep"; "Oct"; "Nov"; "Dec"] "?".

Definition pad2 (n : Z) : string :=
  if bool_decide (n < 10) then "0" +:+ Py.str n else Py.str n.

(** [strftime('%b %d, %Y')] and [strftime('%b %d, %Y %H:%M')]. *)
Definition strftime_date (d : datetime) : string :=
  month_abbr (month d) +:+ " " +:+ pad2 (day d) +:+ ", " +:+ Py.str (year d).

Definition strftime_date_time (d : datetime) : string :=
  strftime_date d +:+ " " +:+ pad2 (hour d) +:+ ":" +:+ pad2 (minute d).

(** A row of the [feedback] table.  The primary key [id] is the key of
    the row in the table (see [World]), so it is not repeated here. *)
Record Feedback := {
  user_id : Z;
  username : string;
  category : string;
  message : string;
  rating : Z;
  status : string;
  timestamp : datetime;
  photo_file_id : option string
}.

(** The keys of [context.user_data] the handlers write.  A key that is
    not in the dictionary is [None]; [clear()] is [no_user_data]. *)
Record UserData := {
  feedback_category : option string;
  feedback_photo_id : option string;
  feedback_message : option string;
  feedback_rating : option Z;
  admin_reply_to_fb_id : option Z
}.

Definition no_user_data : UserData :=
  {| feedback_category := None; feedback_photo_id := None;
     feedback_message := None; feedback_rating := None;
     admin_reply_to_fb_id := None |}.

(** Conversation states: [range(6)] and [ConversationHandler.END]. *)
Definition SELECT_CATEGORY : Z := 0.
Definition GET_FEEDBACK_CONTENT : Z := 1.
Definition GET_RATING : Z := 2.
Definition CONFIRM_SUBMISSION : Z := 3.
Definition ADMIN_REPLY : Z := 4.
Definition ADMIN_BROADCAST : Z := 5.
Definition END : Z := -1.

(** *** Inbound updates *)

Record User := {
  id : Z;
  user_name : option string;
  full_name : string
}.

Record Message := {
  text : option string;
  photo : list string;          (* file ids of the sizes, largest last *)
  caption : option string
}.

Record CallbackQuery := {
  data : string;
  message_photo : bool          (* the message of the button shows a photo *)
}.

Inductive Content :=
  | OfMessage (m : Message)
  | OfCallbackQuery (q : CallbackQuery).

Record Update := {
  effective_user : User;
  chat_id : Z;
  content : Content
}.

(** *** Calls to the messaging gateway *)

Record InlineKeyboardButton := { label : string; callback_data : string }.

Definition InlineKeyboardMarkup := list (list InlineKeyboardButton).

(** A [chat_id] argument: the handlers pass an integer, or the string kept
    in the admin configuration. *)
Inductive chat_ref :=
  | chat_int (n : Z)
  | chat_str (s : string).
Coercion chat_int : Z >-> chat_ref.

(** The calls the handlers make; [parse_mode] and
    [disable_web_page_preview] are left out. *)
Inductive Call :=
  | answer
  | send_message (chat : chat_ref) (text : string)
      (reply_markup : option InlineKeyboardMarkup)
  | send_photo (chat : chat_ref) (photo : string) (caption : string)
      (reply_markup : option InlineKeyboardMarkup)
  | edit_message_text (text : string) (reply_markup : option InlineKeyboardMarkup)
  | edit_message_caption (caption : string) (reply_markup : option InlineKeyboardMarkup)
  | delete_message.

(** *** The stores *)

Record World := {
  admin_config_file : option (gmap string string);  (* admin_config.json *)
  db : gmap Z Feedback;                             (* table feedback, by id *)
  user_data : gmap Z UserData;                      (* by user id *)
  feedback_conv : gmap (Z * Z) Z;                   (* by (chat id, user id) *)
  admin_reply_conv : gmap (Z * Z) Z;
  admin_broadcast_conv : gmap (Z * Z) Z;
  outbox : list (Call * bool)     (* gateway calls so far, with their success *)
}.

(** An error of the gateway: [telegram.error.BadRequest], or any other
    exception a call raises; [message] is what [str] makes of it. *)
Inductive GatewayError :=
  | BadRequest (message : string)
  | OtherError (message : string).

Definition error_message (e : GatewayError) : string :=
  match e with
  | BadRequest m | OtherError m => m
  end.

(** What becomes of a write to the configuration file: it is written; or
    the file cannot be opened and stays as it is; or it is opened, which
    empties it, and the write fails after that. *)
Inductive WriteOutcome :=
  | written
  | refused
  | truncated.

(** What the surroundings decide during one update: the clock, whether the
    gateway accepts a call and the error it raises when it does not,
    whether the commit of a new row succeeds, what becomes of a write to
    the configuration file, and the average rating as the store computes it
    in floating point and [:.2f] prints it. *)
Record Env := {
  utcnow : datetime;
  gateway : Call → bool;
  gateway_error : Call → GatewayError;
  commit_ok : bool;
  config_write : WriteOutcome;
  avg_rating_text : string
}.

Definition set_admin_config_file (c : option (gmap string string)) (w : World) : World :=
  {| admin_config_file := c; db := db w; user_data := user_data w;
     feedback_conv := feedback_conv w; admin_reply_conv := admin_reply_conv w;
     admin_broadcast_conv := admin_broadcast_conv w; outbox := outbox w |}.

Definition set_db (d : gmap Z Feedback) (w : World) : World :=
  {| admin_config_file := admin_config_file w; db := d; user_data := user_data w;
     feedback_conv := feedback_conv w; admin_reply_conv := admin_reply_conv w;
     admin_broadcast_conv := admin_broadcast_conv w; outbox := outbox w |}.

Definition set_user_data (u : gmap Z UserData) (w : World) : World :=
  {| admin_config_file := admin_config_file w; db := db w; user_data := u;
     feedback_conv := feedback_conv w; admin_reply_conv := admin_reply_conv w;
     admin_broadcast_conv := admin_broadcast_conv w; outbox := outbox w |}.

Definition set_outbox (o : list (Call * bool)) (w : World) : World :=
  {| admin_config_file := admin_config_file w; db := db w; user_data := user_data w;
     feedback_conv := feedback_conv w; admin_reply_conv := admin_reply_conv w;
     admin_broadcast_conv := admin_broadcast_conv w; outbox := o |}.

(** ** The handler monad: state, exceptions *)

Inductive exn :=
  | KeyError (key : string)
  | ValueError
  | IndexError
  | AttributeError
  | Gateway (e : GatewayError).

Inductive outcome (A : Type) :=
  | Ret (a : A)
  | Raise (e : exn).
Arguments Ret {A} a.
Arguments Raise {A} e.

Definition M (A : Type) : Type := World → outcome A * World.

#[global] Instance M_ret : MRet M := λ A a w, (Ret a, w).

#[global] Instance M_bind : MBind M := λ A B f m w,
  match m w with
  | (Ret a, w') => f a w'
  | (Raise e, w') => (Raise e, w')
  end.

Definition raise {A} (e : exn) : M A := λ w, (Raise e, w).

Definition get {A} (f : World → A) : M A := λ w, (Ret (f w), w).

Definition modify (f : World → World) : M unit := λ w, (Ret (), f w).

Definition pass : M unit := mret ().

(** [o] or raise [e]. *)
Definition expect {A} (o : option A) (e : exn) : M A :=
  match o with
  | Some a => mret a
  | None => raise e
  end.

(** A gateway call outside any [try]: the gateway is taken to accept it. *)
Definition call (c : Call) : M unit :=
  modify (λ w, set_outbox (outbox w ++ [(c, true)]) w).

(** A gateway call inside [try ... except Exception]: [env] decides whether
    it succeeds; the result tells the handler which branch to take. *)
Definition try_call (env : Env) (c : Call) : M bool :=
  modify (λ w, set_outbox (outbox w ++ [(c, gateway env c)]) w);;
  mret (gateway env c).

(** The session of a user: the dictionary of [user_data], empty when the
    user has none yet. *)
Definition session (w : World) (user : Z) : UserData :=
  default no_user_data (user_data w !! user).

(** [context.user_data] of the acting user. *)
Definition get_user_data (u : Update) : M UserData :=
  get (λ w, session w (id (effective_user u))).

Definition put_user_data (u : Update) (d : UserData) : M unit :=
  modify (λ w, set_user_data (<[id (effective_user u) := d]> (user_data w)) w).

(** [reply_text] on the message of the update. *)
Definition reply_text (u : Update) (t : string)
    (markup : option InlineKeyboardMarkup) : M unit :=
  call (send_message (chat_id u) t markup).

(** [update.callback_query] and [update.message], for a handler that uses
    them without a test: on an update of the other kind they are [None] and
    the first attribute access fails. *)
Definition callback_query (u : Update) : M CallbackQuery :=
  match content u with
  | OfCallbackQuery q => mret q
  | OfMessage _ => raise AttributeError
  end.

Definition message_of (u : Update) : M Message :=
  match content u with
  | OfMessage m => mret m
  | OfCallbackQuery _ => raise AttributeError
  end.

Definition is_callback_query (u : Update) : bool :=
  match content u with
  | OfCallbackQuery _ => true
  | OfMessage _ => false
  end.

Definition nl : string := String "010" EmptyString.

(** ** Utility functions and decorators *)

Definition load_admin_config : M (gmap string string) :=
  get (λ w, default ∅ (admin_config_file w)).

(** [open(ADMIN_CONFIG_FILE, 'w')] empties the file before [json.dump]
    writes it: a write that fails after the open leaves a file that
    [load_admin_config] cannot read. *)
Definition save_admin_config (env : Env) (config : gmap string string) : M unit :=
  match config_write env with
  | written => modify (set_admin_config_file (Some config))
  | refused => pass
  | truncated => modify (set_admin_config_file None)
  end.

Definition Callback : Type := Env → Update → M (option Z).

Definition access_denied : string :=
  "⛔️ Access denied. This command is for admins only.".

Definition admin_only (func : Callback) : Callback := λ env update,
  admin_config ← load_admin_config;
  let user_id := id (effective_user update) in
  if bool_decide (admin_config = ∅)
     || bool_decide (Some (Py.str user_id) ≠ admin_config !! "admin_id")
  then reply_text update access_denied None;; mret None
  else func env update.

(** ** Keyboard layouts *)

Definition button (l d : string) : InlineKeyboardButton :=
  {| label := l; callback_data := d |}.

Definition get_category_keyboard : InlineKeyboardMarkup :=
  (λ category, [button category ("category_" +:+ category)])
    <$> FEEDBACK_CATEGORIES.

Definition get_rating_keyboard : InlineKeyboardMarkup :=
  [(λ i, button (Py.repeat "⭐" i) ("rating_" +:+ Py.str i)) <$> [1; 2; 3; 4; 5]].

Definition get_confirmation_keyboard : InlineKeyboardMarkup :=
  [[button "✅ Submit" "confirm_yes"; button "❌ Cancel" "confirm_no"]].

Definition get_admin_feedback_actions_keyboard (feedback_id : Z)
    (status : string) : InlineKeyboardMarkup :=
  let reply := button "💬 Reply" ("admin_reply_" +:+ Py.str feedback_id) in
  let remove := button "🗑️ Delete" ("admin_delete_" +:+ Py.str feedback_id) in
  let resolve :=
    button "✅ Mark Resolved" ("admin_resolve_" +:+ Py.str feedback_id) in
  let buttons :=
    if bool_decide (status ≠ "resolved")
    then [reply; resolve; remove] else [reply; remove] in
  [buttons; [button "« Back to List" "admin_list_0"]].

(** ** The feedback table *)

(** The id the store gives a new row: one more than the largest id in the
    table, 1 for an empty table (SQLite's rule for an [INTEGER PRIMARY KEY]). *)
Definition next_id (d : gmap Z Feedback) : Z :=
  1 + foldr Z.max 0 (map_to_list d).*1.

(** Sorting by insertion: [x] goes in front of the first element it comes
    before. *)
Fixpoint insert_by {A} (before : A → A → bool) (x : A) (l : list A) : list A :=
  match l with
  | [] => [x]
  | y :: l' => if before x y then x :: l else y :: insert_by before x l'
  end.

Definition sort_by {A} (before : A → A → bool) (l : list A) : list A :=
  foldr (insert_by before) [] l.

(** [ORDER BY timestamp DESC] as the store answers it: latest first, and
    rows of one timestamp in the order of their ids. *)
Definition comes_before (r r' : Z * Feedback) : bool :=
  bool_decide (datetime_key (timestamp r'.2) < datetime_key (timestamp r.2))
  || (bool_decide (datetime_key (timestamp r'.2) = datetime_key (timestamp r.2))
      && bool_decide (r.1 < r'.1)).

Definition order_by_timestamp_desc (l : list (Z * Feedback)) : list (Z * Feedback) :=
  sort_by comes_before l.

(** [db.query(Feedback.user_id).distinct().all()]: the store reads the
    ids off the index of the column, smallest first. *)
Definition distinct_user_ids (d : gmap Z Feedback) : list Z :=
  sort_by Z.leb (remove_dups (user_id <$> (map_to_list d).*2)).

Definition set_status (s : string) (f : Feedback) : Feedback :=
  {| user_id := user_id f; username := username f; category := category f;
     message := message f; rating := rating f; status := s;
     timestamp := timestamp f; photo_file_id := photo_file_id f |}.

(** Assignments to single keys of [context.user_data]. *)
Definition with_category (c : string) (d : UserData) : UserData :=
  {| feedback_category := Some c; feedback_photo_id := feedback_photo_id d;
     feedback_message := feedback_message d; feedback_rating := feedback_rating d;
     admin_reply_to_fb_id := admin_reply_to_fb_id d |}.

Definition with_photo_id (p : string) (d : UserData) : UserData :=
  {| feedback_category := feedback_category d; feedback_photo_id := Some p;
     feedback_message := feedback_message d; feedback_rating := feedback_rating d;
     admin_reply_to_fb_id := admin_reply_to_fb_id d |}.

Definition with_message (m : string) (d : UserData) : UserData :=
  {| feedback_category := feedback_category d;
     feedback_photo_id := feedback_photo_id d;
     feedback_message := Some m; feedback_rating := feedback_rating d;
     admin_reply_to_fb_id := admin_reply_to_fb_id d |}.

Definition with_rating (r : Z) (d : UserData) : UserData :=
  {| feedback_category := feedback_category d;
     feedback_photo_id := feedback_photo_id d;
     feedback_message := feedback_message d; feedback_rating := Some r;
     admin_reply_to_fb_id := admin_reply_to_fb_id d |}.

Definition with_reply_to (i : Z) (d : UserData) : UserData :=
  {| feedback_category := feedback_category d;
     feedback_photo_id := feedback_photo_id d;
     feedback_message := feedback_message d; feedback_rating := feedback_rating d;
     admin_reply_to_fb_id := Some i |}.

Definition update_user_data (u : Update) (f : UserData → UserData) : M unit :=
  d ← get_user_data u; put_user_data u (f d).

(** [context.user_data.clear()]. *)
Definition clear_user_data (u : Update) : M unit :=
  put_user_data u no_user_data.

(** ** User conversation handlers *)

Definition admin_menu : string :=
  "👑 <b>Admin Panel</b>" +:+ nl +:+ nl +:+
  "Welcome! Here are your available commands:" +:+ nl +:+ nl +:+
  "/listfb - 📬 View all feedback (paginated)" +:+ nl +:+
  "/stats - 📊 Show feedback statistics" +:+ nl +:+
  "/broadcast - 📢 Send a message to all users" +:+ nl +:+
  "/help - ℹ️ Show this menu again".

Definition start_admin (update : Update) : M unit :=
  reply_text update admin_menu None.

Definition start_command : Callback := λ env update,
  let user_id := id (effective_user update) in
  admin_config ← load_admin_config;
  (if bool_decide (admin_config ≠ ∅)
      && bool_decide (Some (Py.str user_id) = admin_config !! "admin_id")
   then start_admin update
   else reply_text update "Welcome! Click the button below to leave feedback."
          (Some [[button "📝 Start New Feedback" "start_feedback"]]));;
  mret (Some END).

Definition start_user_flow : Callback := λ env update,
  _ ← callback_query update;
  call answer;;
  call (edit_message_text
          ("<b>Welcome to the Feedback Center!</b>" +:+ nl +:+ nl +:+
           "Your insights help us improve. Please select a category to begin.")
          (Some get_category_keyboard));;
  mret (Some SELECT_CATEGORY).

Definition select_category_callback : Callback := λ env update,
  query ← callback_query update;
  call answer;;
  category ← expect (Py.split "category_" (data query) !! 1%nat) IndexError;
  update_user_data update (with_category category);;
  call (edit_message_text
          ("<b>Category: " +:+ category +:+ "</b>" +:+ nl +:+ nl +:+
           "Describe your feedback. You can also attach a photo, using the caption for your text.")
          None);;
  mret (Some GET_FEEDBACK_CONTENT).

Definition no_description_photo : string :=
  "(No description provided with photo)".

Definition get_feedback_content_handler : Callback := λ env update,
  m ← message_of update;
  let ask_rating :=
    reply_text update "Thank you! How would you rate your overall experience?"
      (Some get_rating_keyboard);;
    mret (Some GET_RATING) in
  match last (photo m) with
  | Some file_id =>
      update_user_data update (with_photo_id file_id);;
      update_user_data update
        (with_message (Py.or_else (caption m) no_description_photo));;
      ask_rating
  | None =>
      match Py.truthy (text m) with
      | Some t =>
          update_user_data update (with_message t);;
          ask_rating
      | None =>
          reply_text update
            "Unsupported message type. Please send text or a photo." None;;
          mret (Some GET_FEEDBACK_CONTENT)
      end
  end.

Definition no_description : string := "No description provided.".

Definition get_rating_callback : Callback := λ env update,
  query ← callback_query update;
  call answer;;
  rating_str ← expect (Py.split "rating_" (data query) !! 1%nat) IndexError;
  rating ← expect (Py.int rating_str) ValueError;
  update_user_data update (with_rating rating);;
  user_data ← get_user_data update;
  category ← expect (feedback_category user_data) (KeyError "feedback_category");
  let summary :=
    "<b>📝 Please Confirm Your Feedback</b>" +:+ nl +:+ nl +:+
    "<b>Category:</b> " +:+ category +:+ nl +:+
    "<b>Rating:</b> " +:+ Py.repeat "⭐" rating +:+ Py.repeat "☆" (5 - rating)
      +:+ nl +:+
    match Py.truthy (feedback_photo_id user_data) with
    | Some _ => "<b>Attachment:</b> 🖼️ Image Attached" +:+ nl
    | None => EmptyString
    end +:+
    nl +:+ "<b>Message:</b>" +:+ nl +:+
    "<i>" +:+ default no_description (feedback_message user_data) +:+ "</i>"
      +:+ nl +:+ nl +:+
    "Ready to submit?" in
  call delete_message;;
  match Py.truthy (feedback_photo_id user_data) with
  | Some photo_id =>
      call (send_photo (chat_id update) photo_id summary
              (Some get_confirmation_keyboard))
  | None =>
      call (send_message (chat_id update) summary
              (Some get_confirmation_keyboard))
  end;;
  mret (Some CONFIRM_SUBMISSION).

(** ** Admin notification *)

Definition notify_admin_new_feedback (env : Env) (feedback_id : Z) : M unit :=
  admin_config ← load_admin_config;
  match Py.truthy (admin_config !! "admin_chat_id") with
  | None => pass
  | Some admin_chat_id =>
      fb ← get (λ w, db w !! feedback_id);
      match fb with
      | None => pass
      | Some fb =>
          let user_info :=
            if bool_decide (username fb ≠ EmptyString)
            then "@" +:+ username fb
            else "User ID: " +:+ Py.str (user_id fb) in
          let message_caption :=
            "🚨 <b>New Feedback Received!</b> #" +:+ Py.str feedback_id
              +:+ nl +:+ nl +:+
            "<b>From:</b> " +:+ user_info +:+ nl +:+
            "<b>Category:</b> " +:+ category fb +:+ nl +:+
            "<b>Rating:</b> " +:+ Py.repeat "⭐" (rating fb) +:+ nl +:+ nl +:+
            "<b>Message:</b>" +:+ nl +:+ "<i>" +:+ message fb +:+ "</i>" in
          let keyboard :=
            [[button "View & Manage" ("admin_view_" +:+ Py.str feedback_id)]] in
          match Py.truthy (photo_file_id fb) with
          | Some photo_id =>
              try_call env
                (send_photo (chat_str admin_chat_id) photo_id message_caption
                   (Some keyboard));;
              pass
          | None =>
              try_call env
                (send_message (chat_str admin_chat_id) message_caption
                   (Some keyboard));;
              pass
          end
      end
  end.

(** The row [Feedback(...)] that [confirm_submission_callback] adds; the
    columns [status] and [timestamp] take their defaults. *)
Definition new_feedback (env : Env) (user : User) (category : string)
    (user_data : UserData) (rating : Z) : Feedback :=
  {| user_id := id user;
     username := Py.or_else (user_name user) (full_name user);
     category := category;
     message := default no_description (feedback_message user_data);
     rating := rating;
     status := "new";
     timestamp := utcnow env;
     photo_file_id := feedback_photo_id user_data |}.

Definition thank_you : string :=
  "✅ <b>Thank You!</b>" +:+ nl +:+ nl +:+
  "Your feedback has been successfully submitted. " +:+
  "We appreciate you taking the time to help us improve.".

Definition confirm_submission_callback : Callback := λ env update,
  query ← callback_query update;
  call answer;;
  if bool_decide (data query = "confirm_no")
  then
    call delete_message;;
    call (send_message (chat_id update) "Feedback submission cancelled." None);;
    clear_user_data update;;
    mret (Some END)
  else
    let user := effective_user update in
    user_data ← get_user_data update;
    category ← expect (feedback_category user_data) (KeyError "feedback_category");
    rating ← expect (feedback_rating user_data) (KeyError "feedback_rating");
    if commit_ok env
    then
      feedback_id ← get (λ w, next_id (db w));
      modify (λ w, set_db (<[feedback_id :=
                new_feedback env user category user_data rating]> (db w)) w);;
      (if message_photo query
       then call (edit_message_caption thank_you None)
       else call (edit_message_text thank_you None));;
      notify_admin_new_feedback env feedback_id;;
      clear_user_data update;;
      mret (Some END)
    else
      call delete_message;;
      call (send_message (chat_id update)
              "❌ A database error occurred. Please try again later." None);;
      mret (Some END).

Definition cancel_handler : Callback := λ env update,
  _ ← message_of update;
  reply_text update "Operation cancelled." None;;
  clear_user_data update;;
  mret (Some END).

(** ** Admin handlers *)

Definition help_admin_command : Callback :=
  admin_only (λ env update, start_admin update;; mret None).

Definition register_admin_command : Callback :=
  admin_only (λ env update,
    let user := effective_user update in
    _ ← message_of update;
    admin_config ← load_admin_config;
    let register :=
      let new_config : gmap string string :=
        <["admin_id" := Py.str (id user)]>
          (<["admin_chat_id" := Py.str (chat_id update)]>
             (<["admin_username" :=
                  Py.or_else (user_name user) (full_name user)]> ∅)) in
      save_admin_config env new_config;;
      reply_text update
        ("✅ <b>You are now the admin!</b>" +:+ nl +:+ nl +:+
         "This chat will now receive all feedback notifications and admin commands will be available to you.")
        None;;
      mret None in
    match Py.truthy (admin_config !! "admin_id") with
    | Some admin_id =>
        if bool_decide (Py.str (id user) ≠ admin_id)
        then
          reply_text update
            "❌ An admin is already registered. Only they can change the admin."
            None;;
          mret None
        else register
    | None => register
    end).

Definition status_icon_short (status : string) : string :=
  if bool_decide (status = "new") then "🆕"
  else if bool_decide (status = "replied") then "💬"
  else if bool_decide (status = "resolved") then "✅"
  else "❓".

Definition list_entry (r : Z * Feedback) : string :=
  let fb := r.2 in
  status_icon_short (status fb) +:+ " <b>#" +:+ Py.str r.1 +:+ "</b>: "
    +:+ category fb
    +:+ match Py.truthy (photo_file_id fb) with
        | Some _ => " 🖼️"
        | None => EmptyString
        end
    +:+ " (" +:+ Py.repeat "⭐" (rating fb) +:+ ")" +:+ nl +:+
  "<i>" +:+ Py.take 50 (message fb) +:+ "...</i>" +:+ nl +:+
  "<a href='tg://user?id=" +:+ Py.str (user_id fb) +:+ "'>@"
    +:+ Py.or_else (Some (username fb)) "user" +:+ "</a> - "
    +:+ strftime_date (timestamp fb) +:+ nl +:+
  "➡️ View: /view_" +:+ Py.str r.1 +:+ nl +:+ nl.

(** The buttons of a markup, row after row. *)
Definition buttons_of (markup : option InlineKeyboardMarkup)
    : list InlineKeyboardButton :=
  concat (default [] markup).

Definition prev_button (page : Z) : InlineKeyboardButton :=
  button "« Prev" ("admin_list_" +:+ Py.str (page - 1)).

Definition next_button (page : Z) : InlineKeyboardButton :=
  button "Next »" ("admin_list_" +:+ Py.str (page + 1)).

(** The two queries of [display_feedback_page]: the count, and the slice
    [offset(page * FEEDBACK_PER_PAGE).limit(FEEDBACK_PER_PAGE)] of the rows
    in descending order of time.  A negative offset is read as 0. *)
Definition page_rows (d : gmap Z Feedback) (page : Z) : list (Z * Feedback) :=
  take (Z.to_nat FEEDBACK_PER_PAGE)
    (drop (Z.to_nat (page * FEEDBACK_PER_PAGE))
       (order_by_timestamp_desc (map_to_list d))).

(** The text and the markup [display_feedback_page] renders. *)
Definition feedback_page (d : gmap Z Feedback) (page : Z)
    : string * option InlineKeyboardMarkup :=
  let total_feedback := Z.of_nat (size d) in
  let feedbacks := page_rows d page in
  match feedbacks with
  | [] =>
      if bool_decide (page = 0)
      then ("No feedback has been submitted yet.", None)
      else ("You've reached the end of the feedback list.",
            Some [[button "« Back to Start" "admin_list_0"]])
  | _ :: _ =>
      let text :=
        "📬 <b>Feedback List</b> (Page " +:+ Py.str (page + 1) +:+ ")"
          +:+ nl +:+ nl +:+
        foldr (λ r t, list_entry r +:+ t) EmptyString feedbacks in
      let nav_buttons :=
        ((if bool_decide (page > 0) then [prev_button page] else [])
         ++ (if bool_decide ((page + 1) * FEEDBACK_PER_PAGE < total_feedback)
             then [next_button page] else []))%list in
      (text, Some [nav_buttons])
  end.

Definition display_feedback_page (update : Update) (page : Z) : M unit :=
  d ← get db;
  let '(text, markup) := feedback_page d page in
  if is_callback_query update
  then call (edit_message_text text markup)
  else reply_text update text markup.

Definition list_feedback_command : Callback :=
  admin_only (λ env update, display_feedback_page update 0;; mret None).

Definition admin_list_callback : Callback := λ env update,
  query ← callback_query update;
  call answer;;
  page ← expect (last (Py.split "_" (data query)) ≫= Py.int) ValueError;
  display_feedback_page update page;;
  mret None.

Definition status_icon_long (status : string) : string :=
  if bool_decide (status = "new") then "🆕 New"
  else if bool_decide (status = "replied") then "💬 Replied"
  else if bool_decide (status = "resolved") then "✅ Resolved"
  else "❓".

(** The text [display_single_feedback] renders for a row. *)
Definition details_text (feedback_id : Z) (fb : Feedback) : string :=
  let user_info :=
    "<a href='tg://user?id=" +:+ Py.str (user_id fb) +:+ "'>@"
      +:+ Py.or_else (Some (username fb)) "user" +:+ "</a> (ID: "
      +:+ Py.str (user_id fb) +:+ ")" in
  "<b>Feedback Details: #" +:+ Py.str feedback_id +:+ "</b>"
    +:+ nl +:+ nl +:+
  "<b>Status:</b> " +:+ status_icon_long (status fb) +:+ nl +:+
  "<b>Received:</b> " +:+ strftime_date_time (timestamp fb) +:+ " UTC"
    +:+ nl +:+
  "<b>From:</b> " +:+ user_info +:+ nl +:+
  "<b>Category:</b> " +:+ category fb +:+ nl +:+
  "<b>Rating:</b> " +:+ Py.repeat "⭐" (rating fb)
    +:+ Py.repeat "☆" (5 - rating fb) +:+ nl +:+ nl +:+
  "<b>Message:</b>" +:+ nl +:+ "<i>" +:+ message fb +:+ "</i>".

(** The deletion of the message of the button: a failure is passed over
    only when it is a [BadRequest] that says the message is not found. *)
Definition delete_previous_message (env : Env) : M unit :=
  ok ← try_call env delete_message;
  if (ok : bool) then pass
  else
    match gateway_error env delete_message with
    | BadRequest e =>
        if Py.contains "Message to delete not found" e then pass
        else raise (Gateway (BadRequest e))
    | e => raise (Gateway e)
    end.

(** The picture of an item, sent before its details; a failure is reported
    in the chat. *)
Definition send_attached_photo (env : Env) (chat : Z) (feedback_id : Z)
    (fb : Feedback) : M unit :=
  match Py.truthy (photo_file_id fb) with
  | Some photo_id =>
      let attempt :=
        send_photo chat photo_id
          ("🖼️ Image attached to feedback #" +:+ Py.str feedback_id) None in
      ok ← try_call env attempt;
      if (ok : bool) then pass
      else call (send_message chat
                   ("Could not load image for feedback #"
                      +:+ Py.str feedback_id +:+ ". Error: "
                      +:+ error_message (gateway_error env attempt)) None)
  | None => pass
  end.

Definition display_single_feedback (env : Env) (update : Update)
    (feedback_id : Z) : M unit :=
  fb ← get (λ w, db w !! feedback_id);
  let chat := chat_id update in
  match fb with
  | None =>
      let text := "Feedback with ID #" +:+ Py.str feedback_id +:+ " not found." in
      let markup := Some [[button "« Back to List" "admin_list_0"]] in
      if is_callback_query update
      then call (edit_message_text text markup)
      else call (send_message chat text markup)
  | Some fb =>
      (if is_callback_query update
       then delete_previous_message env
       else pass);;
      send_attached_photo env chat feedback_id fb;;
      let markup := get_admin_feedback_actions_keyboard feedback_id (status fb) in
      call (send_message chat (details_text feedback_id fb) (Some markup))
  end.

Definition invalid_view_format : string :=
  "Invalid format. Use /view_ID, e.g., /view_123".

Definition admin_view_command : Callback := λ env update,
  m ← message_of update;
  text ← expect (text m) AttributeError;
  match Py.split "_" text !! 1%nat ≫= Py.int with
  | Some feedback_id => display_single_feedback env update feedback_id
  | None => reply_text update invalid_view_format None
  end;;
  mret None.

Definition admin_view_callback : Callback := λ env update,
  query ← callback_query update;
  call answer;;
  feedback_id ← expect (last (Py.split "_" (data query)) ≫= Py.int) ValueError;
  display_single_feedback env update feedback_id;;
  mret None.

Definition admin_feedback_action_callback : Callback := λ env update,
  query ← callback_query update;
  call answer;;
  '(action, feedback_id_str) ←
    match drop 1 (Py.split_max "_" 2 (data query)) with
    | [a; b] => mret (a, b)
    | _ => raise ValueError
    end;
  feedback_id ← expect (Py.int feedback_id_str) ValueError;
  if bool_decide (action = "resolve") then
    modify (λ w, set_db (alter (set_status "resolved") feedback_id (db w)) w);;
    reply_text update
      ("✅ Feedback #" +:+ Py.str feedback_id +:+ " has been marked as resolved.")
      None;;
    display_single_feedback env update feedback_id;;
    mret None
  else if bool_decide (action = "delete") then
    modify (λ w, set_db (delete feedback_id (db w)) w);;
    call (edit_message_text
            ("🗑️ Feedback #" +:+ Py.str feedback_id +:+ " has been deleted.")
            None);;
    mret None
  else if bool_decide (action = "reply") then
    update_user_data update (with_reply_to feedback_id);;
    reply_text update
      ("✍️ Please send your reply for feedback #" +:+ Py.str feedback_id
         +:+ "." +:+ nl +:+ nl +:+
       "The user will receive this message directly. To cancel, type /cancel.")
      None;;
    mret (Some ADMIN_REPLY)
  else mret None.

(** The texts of [admin_reply_handler]: the reply as the user gets it, and
    the two notices to the admin. *)
Definition admin_reply_message (reply : string) : string :=
  "📣 <b>A reply from the admin regarding your feedback:</b>"
    +:+ nl +:+ nl +:+ "<i>" +:+ reply +:+ "</i>".

Definition reply_sent_notice (feedback_id : Z) : string :=
  "✅ Your reply has been sent to the user for feedback #"
    +:+ Py.str feedback_id +:+ ".".

Definition reply_failed_notice (feedback_id : Z) : string :=
  "❌ Could not send reply. The user may have blocked the bot. Feedback #"
    +:+ Py.str feedback_id +:+ " is now marked as 'replied'.".

Definition admin_reply_handler : Callback := λ env update,
  user_data ← get_user_data update;
  match admin_reply_to_fb_id user_data with
  | None | Some 0 => mret (Some END)
  | Some feedback_id =>
      m ← message_of update;
      let reply := default "None" (text m) in
      fb ← get (λ w, db w !! feedback_id);
      match fb with
      | None =>
          reply_text update
            "❌ Error: Could not find the original feedback." None;;
          mret (Some END)
      | Some fb =>
          let user_id_to_reply := user_id fb in
          modify (λ w, set_db (<[feedback_id := set_status "replied" fb]> (db w)) w);;
          let user_message := admin_reply_message reply in
          delivered ← try_call env (send_message user_id_to_reply user_message None);
          confirmed ←
            (if (delivered : bool)
             then try_call env
                    (send_message (chat_id update)
                       (reply_sent_notice feedback_id) None)
             else mret false);
          (if (confirmed : bool) then pass
           else reply_text update (reply_failed_notice feedback_id) None);;
          clear_user_data update;;
          mret (Some END)
      end
  end.

(** The pairs [(value, count)] of a [GROUP BY] as the store answers it: in
    the order of the values, compared byte by byte. *)
Definition group_count (l : list string) : list (string * nat) :=
  (λ v, (v, length (filter (λ x, x = v) l)))
    <$> sort_by String.leb (remove_dups l).

Definition stats_command : Callback :=
  admin_only (λ env update,
    _ ← message_of update;
    d ← get db;
    let total := size d in
    if bool_decide (total = O)
    then reply_text update "No feedback yet to generate stats." None;; mret None
    else
      let rows := (map_to_list d).*2 in
      let by_category := group_count (category <$> rows) in
      let by_status := group_count (status <$> rows) in
      let stats_text :=
        "📊 <b>Feedback Statistics</b>" +:+ nl +:+ nl +:+
        "▪️ Total Submissions: <b>" +:+ pretty total +:+ "</b>" +:+ nl +:+
        "▪️ Average Rating: <b>" +:+ avg_rating_text env +:+ " / 5.0</b>" +:+ nl +:+ nl +:+
        "<b>By Category:</b>" +:+ nl +:+
        Py.join nl ((λ p, "  - " +:+ p.1 +:+ ": " +:+ pretty p.2) <$> by_category)
          +:+ nl +:+ nl +:+
        "<b>By Status:</b>" +:+ nl +:+
        Py.join nl ((λ p, "  - " +:+ Py.capitalize p.1 +:+ ": " +:+ pretty p.2)
                      <$> by_status) in
      reply_text update stats_text None;;
      mret None).

Definition broadcast_command : Callback :=
  admin_only (λ env update,
    _ ← message_of update;
    reply_text update
      ("📢 <b>Broadcast Mode</b>" +:+ nl +:+ nl +:+
       "Please send the message you want to broadcast to all users who have submitted feedback. "
       +:+ "Use /cancel to exit.")
      None;;
    mret (Some ADMIN_BROADCAST)).

(** The [for user_id in user_ids] loop of [broadcast_handler]. *)
Fixpoint broadcast_loop (env : Env) (broadcast_message : string)
    (user_ids : list Z) (sent_count failed_count : Z) : M (Z * Z) :=
  match user_ids with
  | [] => mret (sent_count, failed_count)
  | user_id :: rest =>
      ok ← try_call env (send_message user_id broadcast_message None);
      if (ok : bool)
      then broadcast_loop env broadcast_message rest (sent_count + 1) failed_count
      else broadcast_loop env broadcast_message rest sent_count (failed_count + 1)
  end.

Definition broadcast_notice : string := "Sending broadcast... Please wait.".

Definition broadcast_report (sent_count failed_count : Z) : string :=
  "📢 <b>Broadcast Complete!</b>" +:+ nl +:+ nl +:+
  "✅ Messages sent: " +:+ Py.str sent_count +:+ nl +:+
  "❌ Messages failed: " +:+ Py.str failed_count.

(** The handler is registered under a text filter; a message without text
    does not reach it and is an error here. *)
Definition broadcast_handler : Callback := λ env update,
  m ← message_of update;
  broadcast_message ← expect (text m) AttributeError;
  reply_text update broadcast_notice None;;
  user_ids ← get (λ w, distinct_user_ids (db w));
  '(sent_count, failed_count) ← broadcast_loop env broadcast_message user_ids 0 0;
  reply_text update (broadcast_report sent_count failed_count) None;;
  mret (Some END).

(** ** The dispatcher *)

(** The command a message starts with: the letters, digits and underscores
    after a leading slash, in lower case.  ([@name] after the command is
    taken to name this bot.) *)
Definition is_command_char (a : ascii) : bool :=
  let n := nat_of_ascii a in
  (bool_decide (48 ≤ n)%nat && bool_decide (n ≤ 57)%nat)
  || (bool_decide (65 ≤ n)%nat && bool_decide (n ≤ 90)%nat)
  || (bool_decide (97 ≤ n)%nat && bool_decide (n ≤ 122)%nat)
  || bool_decide (n = 95%nat).

Fixpoint command_chars (s : string) : string :=
  match s with
  | String a s' =>
      if is_command_char a then String (Py.lower_char a) (command_chars s')
      else EmptyString
  | EmptyString => EmptyString
  end.

Definition command_of (m : Message) : option string :=
  match text m with
  | Some (String "/" s) =>
      match command_chars s with
      | EmptyString => None
      | c => Some c
      end
  | _ => None
  end.

(** The filters used in [main]. *)
Module filters.
Definition TEXT (m : Message) : bool := bool_decide (is_Some (Py.truthy (text m))).
Definition PHOTO (m : Message) : bool := bool_decide (photo m ≠ []).
Definition COMMAND (m : Message) : bool := bool_decide (is_Some (command_of m)).

Fixpoint strip_prefix (p s : string) : option string :=
  match p, s with
  | EmptyString, _ => Some s
  | String a p', String b s' =>
      if bool_decide (a = b) then strip_prefix p' s' else None
  | String _ _, EmptyString => None
  end.

(** One or more decimal digits up to the end; the end is also found
    before a last newline. *)
Fixpoint digits_to_end (seen : bool) (cps : list N) : bool :=
  match cps with
  | [] => seen
  | c :: cps' =>
      if bool_decide (is_Some (Py.decimal c)) then digits_to_end true cps'
      else seen && bool_decide (c = 10%N) && bool_decide (cps' = [])
  end.

(** [Regex(r'^\/view_\d+$')]. *)
Definition view_regex (m : Message) : bool :=
  match text m ≫= strip_prefix "/view_" with
  | Some rest =>
      match Py.code_points (list_ascii_of_string rest) with
      | Some cps => digits_to_end false cps
      | None => false
      end
  | None => false
  end.
End filters.

(** The patterns of the callback query handlers, matched at the start of
    the data as [re.match] does. *)
Definition starts_with (p : string) (data : string) : bool := String.prefix p data.

Definition is_exactly (p : string) (data : string) : bool :=
  bool_decide (data = p) || bool_decide (data = p +:+ nl).

Inductive Handler :=
  | CommandHandler (command : string) (callback : Callback)
  | MessageHandler (filter : Message → bool) (callback : Callback)
  | CallbackQueryHandler (pattern : string → bool) (callback : Callback).

Definition check_update (h : Handler) (u : Update) : bool :=
  match h, content u with
  | CommandHandler c _, OfMessage m => bool_decide (command_of m = Some c)
  | MessageHandler f _, OfMessage m => f m
  | CallbackQueryHandler p _, OfCallbackQuery q => p (data q)
  | _, _ => false
  end.

Definition callback_of (h : Handler) : Callback :=
  match h with
  | CommandHandler _ c | MessageHandler _ c | CallbackQueryHandler _ c => c
  end.

Definition first_match (hs : list Handler) (u : Update) : option Handler :=
  head (filter (λ h, check_update h u = true) hs).

Record ConversationHandler := {
  entry_points : list Handler;
  states : gmap Z (list Handler);
  fallbacks : list Handler
}.

(** The handler a conversation in state [state] picks for an update: an
    entry point when there is no conversation; otherwise a handler of the
    state and, only when none of them takes the update, a fallback. *)
Definition conversation_check (c : ConversationHandler) (state : option Z)
    (u : Update) : option Handler :=
  match state with
  | None => first_match (entry_points c) u
  | Some s =>
      match first_match (default [] (states c !! s)) u with
      | Some h => Some h
      | None => first_match (fallbacks c) u
      end
  end.

(** The new state a callback returns: [None] keeps the state, [END] ends
    the conversation. *)
Definition update_state (key : Z * Z) (new_state : option Z)
    (t : gmap (Z * Z) Z) : gmap (Z * Z) Z :=
  match new_state with
  | None => t
  | Some s => if bool_decide (s = END) then delete key t else <[key := s]> t
  end.

Inductive BaseHandler :=
  | Plain (h : Handler)
  | Conversation (c : ConversationHandler)
      (table : World → gmap (Z * Z) Z)
      (set_table : gmap (Z * Z) Z → World → World).

Definition conversation_key (u : Update) : Z * Z :=
  (chat_id u, id (effective_user u)).

(** One update goes to the first handler of the list that takes it.  An
    exception of the callback is logged by the application; what the
    callback did before it stays, and a conversation keeps its state. *)
Fixpoint dispatch (env : Env) (hs : list BaseHandler) (u : Update)
    (w : World) : option exn * World :=
  match hs with
  | [] => (None, w)
  | Plain h :: rest =>
      if check_update h u
      then match callback_of h env u w with
           | (Ret _, w') => (None, w')
           | (Raise e, w') => (Some e, w')
           end
      else dispatch env rest u w
  | Conversation c table set_table :: rest =>
      let key := conversation_key u in
      match conversation_check c (table w !! key) u with
      | Some h =>
          match callback_of h env u w with
          | (Ret new_state, w') =>
              (None, set_table (update_state key new_state (table w')) w')
          | (Raise e, w') => (Some e, w')
          end
      | None => dispatch env rest u w
      end
  end.

Definition set_feedback_conv (t : gmap (Z * Z) Z) (w : World) : World :=
  {| admin_config_file := admin_config_file w; db := db w; user_data := user_data w;
     feedback_conv := t; admin_reply_conv := admin_reply_conv w;
     admin_broadcast_conv := admin_broadcast_conv w; outbox := outbox w |}.

Definition set_admin_reply_conv (t : gmap (Z * Z) Z) (w : World) : World :=
  {| admin_config_file := admin_config_file w; db := db w; user_data := user_data w;
     feedback_conv := feedback_conv w; admin_reply_conv := t;
     admin_broadcast_conv := admin_broadcast_conv w; outbox := outbox w |}.

Definition set_admin_broadcast_conv (t : gmap (Z * Z) Z) (w : World) : World :=
  {| admin_config_file := admin_config_file w; db := db w; user_data := user_data w;
     feedback_conv := feedback_conv w; admin_reply_conv := admin_reply_conv w;
     admin_broadcast_conv := t; outbox := outbox w |}.

(** ** [main]: the handlers, in the order they are added *)

Definition text_not_command (m : Message) : bool :=
  filters.TEXT m && negb (filters.COMMAND m).

Definition feedback_conv_handler : ConversationHandler :=
  {| entry_points :=
       [CallbackQueryHandler (is_exactly "start_feedback") start_user_flow];
     states :=
       <[SELECT_CATEGORY :=
           [CallbackQueryHandler (starts_with "category_") select_category_callback]]>
       (<[GET_FEEDBACK_CONTENT :=
           [MessageHandler (λ m, filters.TEXT m || filters.PHOTO m)
              get_feedback_content_handler]]>
       (<[GET_RATING :=
           [CallbackQueryHandler (starts_with "rating_") get_rating_callback]]>
       (<[CONFIRM_SUBMISSION :=
           [CallbackQueryHandler (starts_with "confirm_") confirm_submission_callback]]>
        ∅)));
     fallbacks := [CommandHandler "cancel" cancel_handler] |}.

Definition admin_reply_conv_handler : ConversationHandler :=
  {| entry_points :=
       [CallbackQueryHandler (starts_with "admin_reply_")
          admin_feedback_action_callback];
     states :=
       <[ADMIN_REPLY := [MessageHandler text_not_command admin_reply_handler]]> ∅;
     fallbacks := [CommandHandler "cancel" cancel_handler] |}.

Definition admin_broadcast_conv_handler : ConversationHandler :=
  {| entry_points := [CommandHandler "broadcast" broadcast_command];
     states :=
       <[ADMIN_BROADCAST := [MessageHandler text_not_command broadcast_handler]]> ∅;
     fallbacks := [CommandHandler "cancel" cancel_handler] |}.

Definition handlers : list BaseHandler :=
  [ Plain (CommandHandler "start" start_command);
    Conversation feedback_conv_handler feedback_conv set_feedback_conv;
    Conversation admin_reply_conv_handler admin_reply_conv set_admin_reply_conv;
    Conversation admin_broadcast_conv_handler admin_broadcast_conv
      set_admin_broadcast_conv;
    Plain (CommandHandler "registeradmin" register_admin_command);
    Plain (CommandHandler "listfb" list_feedback_command);
    Plain (CommandHandler "stats" stats_command);
    Plain (CommandHandler "help" help_admin_command);
    Plain (MessageHandler filters.view_regex admin_view_command);
    Plain (CallbackQueryHandler (starts_with "admin_list_") admin_list_callback);
    Plain (CallbackQueryHandler (starts_with "admin_view_") admin_view_callback);
    Plain (CallbackQueryHandler
             (λ d, starts_with "admin_resolve_" d || starts_with "admin_delete_" d)
             admin_feedback_action_callback) ].

Definition process_update (env : Env) (u : Update) (w : World) : option exn * World :=
  dispatch env handlers u w.

(** One delivery of a broadcast, and whether the gateway makes it. *)
Definition attempt (payload : string) (user : Z) : Call :=
  send_message user payload None.

Definition reached (env : Env) (payload : string) (user : Z) : Prop :=
  gateway env (attempt payload user) = true.

#[global] Instance reached_dec env payload user :
  Decision (reached env payload user).
Proof. unfold reached. apply _. Defined.

(** ** Runs and the worlds of the examples *)

(** The updates [us] handled one after the other. *)
Definition run (env : Env) (us : list Update) (w : World) : World :=
  foldl (λ w u, (process_update env u w).2) w us.

Definition button_press (user : User) (d : string) : Update :=
  {| effective_user := user; chat_id := id user;
     content := OfCallbackQuery {| data := d; message_photo := false |} |}.

Definition text_message (user : User) (t : string) : Update :=
  {| effective_user := user; chat_id := id user;
     content := OfMessage {| text := Some t; photo := []; caption := None |} |}.

Definition photo_message (user : User) (file_id : string)
    (c : option string) : Update :=
  {| effective_user := user; chat_id := id user;
     content := OfMessage {| text := None; photo := [file_id]; caption := c |} |}.

Definition noon : datetime :=
  {| year := 2024; month := 3; day := 5; hour := 12; minute := 0;
     second := 0; microsecond := 0 |}.

(** Surroundings in which every call and every commit succeeds. *)
Definition fair_weather : Env :=
  {| utcnow := noon; gateway := λ _, true;
     gateway_error := λ _, OtherError "error"; commit_ok := true;
     config_write := written; avg_rating_text := "0.00" |}.

(** Surroundings in which the gateway reaches nobody whose id is in [l]. *)
Definition unreachable (l : list Z) : Env :=
  {| utcnow := noon;
     gateway := λ c,
       match c with
       | send_message (chat_int n) _ _ => bool_decide (n ∉ l)
       | _ => true
       end;
     gateway_error := λ _, OtherError "unreachable"; commit_ok := true;
     config_write := written; avg_rating_text := "0.00" |}.

Definition alice : User :=
  {| id := 42; user_name := Some "alice"; full_name := "Alice A" |}.
Definition bob : User :=
  {| id := 43; user_name := None; full_name := "Bob B" |}.
Definition mallory : User :=
  {| id := 666; user_name := Some "mallory"; full_name := "Mallory M" |}.
Definition root : User :=
  {| id := 7; user_name := Some "root"; full_name := "The Admin" |}.

(** Nothing stored, nobody registered. *)
Definition fresh_world : World :=
  {| admin_config_file := None; db := ∅; user_data := ∅; feedback_conv := ∅;
     admin_reply_conv := ∅; admin_broadcast_conv := ∅; outbox := [] |}.

(** The configuration file as [register_admin_command] writes it for
    [root] in their private chat. *)
Definition root_config : gmap string string :=
  <["admin_id" := "7"]>
    (<["admin_chat_id" := "7"]> (<["admin_username" := "root"]> ∅)).

Definition admin_world : World :=
  set_admin_config_file (Some root_config) fresh_world.

(** A complete feedback dialogue with text content. *)
Definition text_dialogue (user : User) (c t : string) (r : string) : list Update :=
  [ button_press user "start_feedback";
    button_press user ("category_" +:+ c);
    text_message user t;
    button_press user ("rating_" +:+ r);
    button_press user "confirm_yes" ].

(** [alice] has submitted one item to the bot of [root]. *)
Definition one_item_world : World :=
  run fair_weather (text_dialogue alice "🐛 Bug Report" "crashes on save" "4")
    admin_world.

(** [bob] has submitted an item as well. *)
Definition two_item_world : World :=
  run fair_weather (text_dialogue bob "⭐ Other" "nice" "5") one_item_world.

(** A session that holds a complete draft. *)
Definition draft_world : World :=
  set_user_data
    {[ 42 := with_rating 5 (with_message "thanks" (with_category "⭐ Other" no_user_data)) ]}
    fresh_world.

(** ** Notions used in the statements *)

(** What the dispatcher makes of the result of a callback of the feedback
    conversation. *)
Definition feedback_conv_result (u : Update)
    (r : outcome (option Z) * World) : option exn * World :=
  match r with
  | (Ret new_state, w') =>
      (None,
       set_feedback_conv
         (update_state (conversation_key u) new_state (feedback_conv w')) w')
  | (Raise e, w') => (Some e, w')
  end.

(** Updates handled one after the other, each in its own surroundings. *)
Definition run_each (l : list (Env * Update)) (w : World) : World :=
  foldl (λ w eu, (process_update eu.1 eu.2 w).2) w l.

(** A message the content step takes as feedback: it has a photo or a
    text, and it is not the [/start] command. *)
Definition feedback_content (m : Message) : Prop :=
  (photo m ≠ [] ∨ is_Some (Py.truthy (text m)))
  ∧ command_of m ≠ Some "start".

(** The message text and the image reference the content step puts in the
    draft; a text message leaves the image reference of the session as it
    is. *)
Definition draft_message (m : Message) : string :=
  match last (photo m) with
  | Some _ => Py.or_else (caption m) no_description_photo
  | None => default EmptyString (text m)
  end.

Definition draft_photo_id (m : Message) (before : UserData) : option string :=
  match last (photo m) with
  | Some file_id => Some file_id
  | None => feedback_photo_id before
  end.

(** The five updates of a feedback dialogue of [user] in [chat]: the start
    button, a category button, the content, a rating button, the confirm
    button. *)
Definition press (user : User) (chat : Z) (q : CallbackQuery) : Update :=
  {| effective_user := user; chat_id := chat; content := OfCallbackQuery q |}.

Definition say (user : User) (chat : Z) (m : Message) : Update :=
  {| effective_user := user; chat_id := chat; content := OfMessage m |}.

(** The session after the content step. *)
Definition with_content (m : Message) (d : UserData) : UserData :=
  match last (photo m) with
  | Some file_id =>
      with_message (Py.or_else (caption m) no_description_photo)
        (with_photo_id file_id d)
  | None => with_message (default EmptyString (text m)) d
  end.

(** The updates of one feedback dialogue of [user] in [chat], each in its
    own surroundings: the start button, a category button, the content, a
    rating button and the confirm button. *)
Definition dialogue (e0 e1 e2 e3 e4 : Env) (user : User) (chat : Z)
    (q0 q1 : CallbackQuery) (m : Message) (q3 q4 : CallbackQuery)
    : list (Env * Update) :=
  [ (e0, press user chat q0); (e1, press user chat q1); (e2, say user chat m);
    (e3, press user chat q3); (e4, press user chat q4) ].


(** An integer the store can hold: SQLite keeps an integer in 64 bits. *)
Definition storable (n : Z) : Prop := - 2 ^ 63 ≤ n < 2 ^ 63.



(** ** Relations on worlds, for the proofs *)

(** [steps R m]: running [m] takes every world to one related to it by [R],
    whether [m] returns or raises. *)
Definition steps {A} (R : relation World) (m : M A) : Prop :=
  ∀ w, R w (m w).2.

(** [keeps f m]: [m] leaves the part [f] of the world as it is. *)
Definition keeps {A B} (f : World → B) (m : M A) : Prop :=
  steps (λ w w', f w' = f w) m.

(** The relation [S] on the part [f] of two worlds. *)
Definition via {B} (f : World → B) (S : relation B) : relation World :=
  λ w w', S (f w) (f w').

(** What one handler call can do to the table: nothing, mark a row
    resolved, mark a row replied, delete a row, or add a new row under a
    new id. *)
Inductive db_step (d : gmap Z Feedback) : gmap Z Feedback → Prop :=
  | db_same : db_step d d
  | db_resolve i : db_step d (alter (set_status "resolved") i d)
  | db_reply i fb :
      d !! i = Some fb → db_step d (<[i := set_status "replied" fb]> d)
  | db_delete i : db_step d (delete i d)
  | db_add fb :
      status fb = "new" → db_step d (<[next_id d := fb]> d).



Abbreviation steps_db := (steps (via db db_step)).

(** [P] holds of the callback of a handler, of every callback of a
    conversation, of every callback of an entry of the handler table. *)
Definition handler_ok (P : Callback → Prop) (h : Handler) : Prop :=
  P (callback_of h).

Record conversation_ok (P : Callback → Prop) (c : ConversationHandler) : Prop := {
  entry_ok : Forall (handler_ok P) (entry_points c);
  states_ok : map_Forall (λ _ hs, Forall (handler_ok P) hs) (states c);
  fallbacks_ok : Forall (handler_ok P) (fallbacks c)
}.

Inductive base_ok (P : Callback → Prop) (Q : (gmap (Z * Z) Z → World → World) → Prop)
    : BaseHandler → Prop :=
  | plain_ok h : handler_ok P h → base_ok P Q (Plain h)
  | conv_ok c table set_table :
      conversation_ok P c → Q set_table →
      base_ok P Q (Conversation c table set_table).

(** The notice of the admin gate, as the outbox records it. *)
Definition denial (u : Update) : Call * bool :=
  (send_message (chat_id u) access_denied None, true).

(** ** Notions used in the further properties *)

(** A character of a printed integer: a digit. *)
Definition digit_char (a : ascii) : Prop := is_Some (Py.digit_of a).

(** A character that [int] takes as it is. *)
Definition plain (a : ascii) : Prop := (N_of_ascii a < 127)%N.

(** The deletion of the message of a button does not stop the handler: it
    succeeds, or it fails with the [BadRequest] that says that the message
    is not found. *)
Definition delete_passes (env : Env) : Prop :=
  gateway env delete_message = true
  ∨ ∃ e, gateway_error env delete_message = BadRequest e
         ∧ Py.contains "Message to delete not found" e = true.

(** [talks m]: [m] returns, and changes the world by calls to the gateway
    only. *)
Definition talks {A} (m : M A) : Prop :=
  ∀ w, ∃ a calls, m w = (Ret a, set_outbox (outbox w ++ calls) w).

(** Latest first: the row [r] is not older than the row [r']. *)
Definition not_older (r r' : Z * Feedback) : Prop :=
  datetime_key (timestamp r'.2) ≤ datetime_key (timestamp r.2).

(** As [base_ok], with a condition [Q] on the table of a conversation and
    on the way it is written. *)
Inductive slot_ok (P : Callback → Prop)
    (Q : (World → gmap (Z * Z) Z) → (gmap (Z * Z) Z → World → World) → Prop)
    : BaseHandler → Prop :=
  | slot_plain h : handler_ok P h → slot_ok P Q (Plain h)
  | slot_conversation c table set_table :
      conversation_ok P c → Q table set_table →
      slot_ok P Q (Conversation c table set_table).

(** The user id the configuration file names as the admin. *)
Definition registered_admin (w : World) : option string :=
  default ∅ (admin_config_file w) !! "admin_id".


(** [w'] is [w] with further calls in the outbox. *)
Definition adds_calls : relation World :=
  λ w w', ∃ calls, w' = set_outbox (outbox w ++ calls) w.

(** A callback that changes nothing but the outbox, whether it returns or
    raises. *)
Definition reads_only (cb : Callback) : Prop :=
  ∀ env u, steps adds_calls (cb env u).

(** An item as [alice] would submit it. *)
Definition sample_item : Feedback :=
  {| user_id := 42; username := "alice"; category := "🐛 Bug Report";
     message := "crashes on save"; rating := 4; status := "new";
     timestamp := noon; photo_file_id := None |}.

(** Surroundings in which the commit of a new row fails. *)
Definition database_down : Env :=
  {| utcnow := noon; gateway := λ _, true;
     gateway_error := λ _, OtherError "error"; commit_ok := false;
     config_write := written; avg_rating_text := "0.00" |}.

(** [alice] with a complete draft, at the given step of the dialogue. *)
Definition draft_at (state : Z) : World :=
  set_feedback_conv {[ (42, 42) := state ]} draft_world.

(** [root] has pressed the reply button of the one item in the table. *)
Definition reply_world : World :=
  set_user_data {[ 7 := with_reply_to 1 no_user_data ]}
    (set_db {[ 1 := sample_item ]} admin_world).

(** A table of six items, more than a page holds. *)
Definition six_items : gmap Z Feedback :=
  list_to_map ((λ i, (i, sample_item)) <$> [1; 2; 3; 4; 5; 6]).

(** * Properties *)

(** ** Python primitives on examples *)

Example split_category :
  Py.split "category_" "category_x" = [EmptyString; "x"].
Proof. reflexivity. Qed.

Example split_maxsplit :
  Py.split_max "_" 2 "admin_resolve_1_2" = ["admin"; "resolve"; "1_2"].
Proof. reflexivity. Qed.

Example split_trailing : Py.split "_" "a_" = ["a"; EmptyString].
Proof. reflexivity. Qed.

Example int_examples :
  Py.int "12" = Some 12 ∧ Py.int " -7 " = Some (-7) ∧ Py.int "1_0" = Some 10
  ∧ Py.int "x" = None ∧ Py.int EmptyString = None ∧ Py.int "1__0" = None.
Proof. repeat split; reflexivity. Qed.

(** Digits of other digit systems are read, a superscript is not a
    digit, and white space is stripped. *)
Example int_beyond_ascii :
  Py.int "１２" = Some 12 ∧ Py.int "٤٢" = Some 42 ∧ Py.int "²" = None
  ∧ Py.int (" 7" +:+ nl) = Some 7.
Proof. repeat split; vm_compute; reflexivity. Qed.

Example view_regex_examples :
  let m t := {| text := Some t; photo := []; caption := None |} in
  filters.view_regex (m "/view_12") = true
  ∧ filters.view_regex (m "/view_") = false
  ∧ filters.view_regex (m "/view_1a") = false
  ∧ filters.view_regex (m "x/view_1") = false.
Proof. repeat split; reflexivity. Qed.

Example view_regex_beyond_ascii :
  let m t := {| text := Some t; photo := []; caption := None |} in
  filters.view_regex (m "/view_１２") = true
  ∧ filters.view_regex (m ("/view_12" +:+ nl)) = true
  ∧ filters.view_regex (m "/view_12 ") = false
  ∧ filters.view_regex (m "/view_1_2") = false
  ∧ filters.view_regex (m ("/view_12" +:+ nl +:+ nl)) = false.
Proof. repeat split; vm_compute; reflexivity. Qed.

(** ** A small program logic for handlers *)


Section logic.
Context {B : Type} (f : World → B).

Lemma keeps_ret {A} (a : A) : keeps f (mret a).
Proof. by intros w. Qed.

Lemma keeps_raise {A} (e : exn) : keeps f (raise e : M A).
Proof. by intros w. Qed.

Lemma keeps_get {A} (g : World → A) : keeps f (get g).
Proof. by intros w. Qed.

Lemma keeps_pass : keeps f pass.
Proof. by intros w. Qed.

Lemma keeps_bind {A C} (m : M A) (k : A → M C) :
  keeps f m → (∀ a, keeps f (k a)) → keeps f (m ≫= k).
Proof.
  intros Hm Hk w. specialize (Hm w). unfold mbind, M_bind.
  destruct (m w) as [[a|e] w1]; simpl in *; [|done].
  by rewrite (Hk a w1).
Qed.

Lemma keeps_modify (g : World → World) :
  (∀ w, f (g w) = f w) → keeps f (modify g).
Proof. intros Hg w. apply Hg. Qed.

Lemma keeps_expect {A} (o : option A) (e : exn) : keeps f (expect o e).
Proof. destruct o; [apply keeps_ret | apply keeps_raise]. Qed.

Lemma keeps_callback_query u : keeps f (callback_query u).
Proof. unfold callback_query. destruct (content u); by intros w. Qed.

Lemma keeps_message_of u : keeps f (message_of u).
Proof. unfold message_of. destruct (content u); by intros w. Qed.

Lemma keeps_load_admin_config : keeps f load_admin_config.
Proof. apply keeps_get. Qed.

(** Gateway calls touch the outbox only. *)
Hypothesis f_outbox : ∀ o w, f (set_outbox o w) = f w.

Lemma keeps_call c : keeps f (call c).
Proof. apply keeps_modify. intros w. apply f_outbox. Qed.

Lemma keeps_try_call env c : keeps f (try_call env c).
Proof.
  apply keeps_bind; [|intros; apply keeps_ret].
  apply keeps_modify. intros w. apply f_outbox.
Qed.

Lemma keeps_reply_text u t k : keeps f (reply_text u t k).
Proof. apply keeps_call. Qed.

Lemma keeps_start_admin u : keeps f (start_admin u).
Proof. apply keeps_call. Qed.
End logic.

(** For a relation [S] on one part [f] of the world, a handler made of a
    part that keeps [f] and a part that steps by [S] steps by [S]. *)
Section one_change.
Context {B : Type} (f : World → B) (S : relation B) `{!Reflexive S}.

Lemma via_keeps {A} (m : M A) : keeps f m → steps (via f S) m.
Proof. intros Hm w. unfold via. by rewrite (Hm w). Qed.

Lemma via_bind_after {A C} (m : M A) (k : A → M C) :
  keeps f m → (∀ a, steps (via f S) (k a)) → steps (via f S) (m ≫= k).
Proof.
  intros Hm Hk w. specialize (Hm w). unfold via, mbind, M_bind in *.
  destruct (m w) as [[a|e] w1]; simpl in *.
  - rewrite <- Hm. apply Hk.
  - by rewrite Hm.
Qed.

Lemma via_bind_before {A C} (m : M A) (k : A → M C) :
  steps (via f S) m → (∀ a, keeps f (k a)) → steps (via f S) (m ≫= k).
Proof.
  intros Hm Hk w. specialize (Hm w). unfold via, mbind, M_bind in *.
  destruct (m w) as [[a|e] w1]; simpl in *; [|done].
  by rewrite (Hk a w1).
Qed.
End one_change.

(** One step of the proof that a handler keeps [f]: a primitive, a bind, or
    a case distinction the handler makes. *)
Create HintDb keeps discriminated.

Ltac keeps_step :=
  first
    [ solve [auto 1 with keeps nocore]
    | apply keeps_ret | apply keeps_raise | apply keeps_get | apply keeps_pass
    | apply keeps_expect | apply keeps_callback_query | apply keeps_message_of
    | apply keeps_load_admin_config
    | apply keeps_call; solve [intros; reflexivity]
    | apply keeps_try_call; solve [intros; reflexivity]
    | apply keeps_reply_text; solve [intros; reflexivity]
    | apply keeps_start_admin; solve [intros; reflexivity]
    | apply keeps_modify; solve [intros; reflexivity]
    | apply keeps_bind; [|intros ?]
    | match goal with
      | |- keeps _ (match ?x with _ => _ end) => destruct x
      | |- keeps _ (if ?x then _ else _) => destruct x
      | |- keeps _ ((if ?x then _ else _) ≫= _) => destruct x
      | |- keeps _ ((match ?x with _ => _ end) ≫= _) => destruct x
      | |- keeps _ (let '(_, _) := ?p in _) => destruct p
      | |- keeps _ (let _ := _ in _) => lazy zeta
      end ].

Ltac keeps_auto := repeat keeps_step.

(** ** What each handler leaves alone *)

Lemma keeps_admin_only {B} (f : World → B) (func : Callback) env u :
  (∀ o w, f (set_outbox o w) = f w) →
  keeps f (func env u) → keeps f (admin_only func env u).
Proof. intros Hf Hfunc. unfold admin_only. keeps_auto; try done. by apply keeps_reply_text. Qed.

Lemma keeps_db_update_user_data u g : keeps db (update_user_data u g).
Proof. unfold update_user_data, get_user_data, put_user_data. keeps_auto. Qed.

Lemma keeps_db_clear_user_data u : keeps db (clear_user_data u).
Proof. unfold clear_user_data, put_user_data. keeps_auto. Qed.

Lemma keeps_db_save_admin_config env c : keeps db (save_admin_config env c).
Proof. unfold save_admin_config. keeps_auto. Qed.

Lemma keeps_db_notify env i : keeps db (notify_admin_new_feedback env i).
Proof. unfold notify_admin_new_feedback. keeps_auto. Qed.

Lemma keeps_db_display_feedback_page u p : keeps db (display_feedback_page u p).
Proof. unfold display_feedback_page. keeps_auto. Qed.

Lemma keeps_db_display_single_feedback env u i :
  keeps db (display_single_feedback env u i).
Proof.
  unfold display_single_feedback, delete_previous_message, send_attached_photo.
  keeps_auto.
Qed.

Lemma keeps_db_broadcast_loop env t l s k : keeps db (broadcast_loop env t l s k).
Proof. revert s k. induction l as [|x l IH]; intros s k; simpl; keeps_auto; apply IH. Qed.

#[local] Hint Resolve keeps_db_save_admin_config keeps_db_update_user_data keeps_db_clear_user_data
  keeps_db_notify keeps_db_display_feedback_page
  keeps_db_display_single_feedback keeps_db_broadcast_loop : keeps.

(** ** The feedback table *)

Lemma foldr_max_bound (l : list Z) (k : Z) : k ∈ l → k ≤ foldr Z.max 0 l.
Proof.
  induction l as [|x l IH]; [by intros ?%elem_of_nil|].
  intros [->|Hk]%elem_of_cons; simpl; [lia|]. specialize (IH Hk). lia.
Qed.

(** The id of a new row is not in the table. *)
Lemma next_id_fresh (d : gmap Z Feedback) : d !! next_id d = None.
Proof.
  destruct (d !! next_id d) as [fb|] eqn:Hd; [|done]. exfalso.
  assert (next_id d ∈ (map_to_list d).*1) as Hin.
  { apply list_elem_of_fmap. exists (next_id d, fb).
    split; [done|]. by apply elem_of_map_to_list. }
  apply foldr_max_bound in Hin. unfold next_id in Hin at 1. lia.
Qed.


#[local] Instance db_step_refl : Reflexive db_step.
Proof. intros d. constructor. Qed.

Lemma steps_db_keeps {A} (m : M A) : keeps db m → steps_db m.
Proof. apply via_keeps, _. Qed.

Lemma steps_db_after {A C} (m : M A) (k : A → M C) :
  keeps db m → (∀ a, steps_db (k a)) → steps_db (m ≫= k).
Proof. apply via_bind_after, _. Qed.

Lemma steps_db_before {A C} (m : M A) (k : A → M C) :
  steps_db m → (∀ a, keeps db (k a)) → steps_db (m ≫= k).
Proof. apply via_bind_before. Qed.

Lemma steps_db_confirm env u : steps_db (confirm_submission_callback env u).
Proof.
  unfold confirm_submission_callback.
  apply steps_db_after; [keeps_auto|intros q].
  apply steps_db_after; [keeps_auto|intros _].
  case_bool_decide.
  { apply steps_db_keeps. keeps_auto. }
  apply steps_db_after; [unfold get_user_data; keeps_auto|intros ud].
  apply steps_db_after; [keeps_auto|intros c].
  apply steps_db_after; [keeps_auto|intros r].
  destruct (commit_ok env); [|apply steps_db_keeps; keeps_auto].
  intros w. unfold via.
  do 2 (unfold mbind at 1, M_bind at 1; simpl).
  match goal with
  | |- db_step _ (db (?m ?w1).2) =>
      assert (keeps db m) as Hk by keeps_auto; rewrite (Hk w1)
  end.
  by apply db_add.
Qed.

Lemma steps_db_action env u : steps_db (admin_feedback_action_callback env u).
Proof.
  unfold admin_feedback_action_callback.
  do 3 (apply steps_db_after; [keeps_auto|intros ?]).
  destruct a1 as [action feedback_id_str].
  apply steps_db_after; [keeps_auto|intros feedback_id].
  repeat case_bool_decide.
  - apply steps_db_before; [|intros; keeps_auto].
    intros w. apply db_resolve.
  - apply steps_db_before; [|intros; keeps_auto].
    intros w. apply db_delete.
  - apply steps_db_keeps. keeps_auto.
  - apply steps_db_keeps. keeps_auto.
Qed.

Lemma steps_db_reply env u : steps_db (admin_reply_handler env u).
Proof.
  unfold admin_reply_handler.
  apply steps_db_after; [unfold get_user_data; keeps_auto|intros ud].
  destruct (admin_reply_to_fb_id ud) as [[|i|i]|];
    try solve [apply steps_db_keeps; keeps_auto].
  all: apply steps_db_after; [keeps_auto|intros m].
  all: intros w; unfold via; unfold mbind at 1, M_bind at 1; simpl.
  all: destruct (db w !! _) as [fb|] eqn:Hfb; [|apply db_same].
  all: unfold mbind at 1, M_bind at 1; simpl.
  all: match goal with
       | |- db_step _ (db (?m ?w1).2) =>
           assert (keeps db m) as Hk by keeps_auto; rewrite (Hk w1)
       end.
  all: by apply db_reply.
Qed.

(** ** The dispatcher runs one callback of the table *)

Section dispatch.
Context (P : Callback → Prop).

Lemma first_match_ok hs u h :
  Forall (handler_ok P) hs → first_match hs u = Some h → handler_ok P h.
Proof.
  unfold first_match. intros Hhs Hh%head_Some_elem_of.
  apply list_elem_of_filter in Hh as [_ Hh].
  by eapply Forall_forall in Hhs.
Qed.

Lemma conversation_check_ok c st u h :
  conversation_ok P c → conversation_check c st u = Some h → handler_ok P h.
Proof.
  intros [He Hs Hf]. unfold conversation_check.
  destruct st as [s|]; [|by apply first_match_ok].
  destruct (first_match (default [] (states c !! s)) u) as [h'|] eqn:Hh'.
  - intros [= <-]. revert Hh'. apply first_match_ok.
    destruct (states c !! s) as [hs|] eqn:Hhs; [|constructor].
    by apply (Hs s hs).
  - by apply first_match_ok.
Qed.
End dispatch.


(** If every callback of the table steps by [R] and writing a conversation
    table stays within [R], every update steps by [R]. *)
Lemma dispatch_steps (R : relation World) env u hs :
  Reflexive R →
  Forall (base_ok (λ cb, steps R (cb env u))
            (λ set_table, ∀ t w w', R w w' → R w (set_table t w'))) hs →
  ∀ w, R w (dispatch env hs u w).2.
Proof.
  intros HR Hhs w. induction Hhs as [|b hs Hb _ IH]; simpl; [done|].
  destruct Hb as [h Hh|c table set_table Hc Hset].
  - destruct (check_update h u); [|done].
    specialize (Hh w). by destruct (callback_of h env u w) as [[?|?] ?].
  - destruct (conversation_check c _ u) as [h|] eqn:Hcheck; [|done].
    eapply conversation_check_ok in Hcheck; [|done].
    specialize (Hcheck w).
    destruct (callback_of h env u w) as [[?|?] ?]; simpl in *; [|done].
    by apply Hset.
Qed.

Lemma handlers_step_db env u :
  Forall (base_ok (λ cb, steps_db (cb env u))
            (λ set_table, ∀ t w w',
               via db db_step w w' → via db db_step w (set_table t w')))
    handlers.
Proof.
  assert (∀ func, keeps db (func env u) → steps_db (admin_only func env u)) as Hadmin.
  { intros func Hfunc. by apply steps_db_keeps, keeps_admin_only. }
  unfold handlers.
  repeat first
    [ apply Forall_cons_2 | apply Forall_nil_2
    | apply plain_ok | apply conv_ok | split
    | apply map_Forall_insert_2 | apply map_Forall_empty
    | done ];
  unfold handler_ok; simpl;
  first
    [ apply steps_db_confirm | apply steps_db_action | apply steps_db_reply
    | apply Hadmin; keeps_auto
    | apply steps_db_keeps; keeps_auto ].
Qed.

Lemma process_update_db_step env u w :
  db_step (db w) (db (process_update env u w).2).
Proof.
  apply (dispatch_steps (via db db_step)); [intros ?; apply db_same|].
  apply handlers_step_db.
Qed.

(** ** What a handler of the table leaves alone *)

(** If every callback of the table steps by [R], and storing the new state
    of the acting user's conversation stays within [R], every update steps
    by [R]. *)
Lemma dispatch_steps_own_key (R : relation World) env u hs :
  Reflexive R →
  Forall (slot_ok (λ cb, steps R (cb env u))
            (λ table set_table, ∀ new_state w w',
               R w w' →
               R w (set_table
                      (update_state (conversation_key u) new_state (table w'))
                      w'))) hs →
  ∀ w, R w (dispatch env hs u w).2.
Proof.
  intros HR Hhs w. induction Hhs as [|b hs Hb _ IH]; simpl; [done|].
  destruct Hb as [h Hh|c table set_table Hc Hset].
  - destruct (check_update h u); [|done].
    specialize (Hh w). by destruct (callback_of h env u w) as [[?|?] ?].
  - destruct (conversation_check c _ u) as [h|] eqn:Hcheck; [|done].
    eapply conversation_check_ok in Hcheck; [|done].
    specialize (Hcheck w).
    destruct (callback_of h env u w) as [[?|?] ?]; simpl in *; [|done].
    by apply Hset.
Qed.

Section frame.
Context {B : Type} (f : World → B) (env : Env) (u : Update).
Hypothesis f_outbox : ∀ o w, f (set_outbox o w) = f w.
Hypothesis f_db : ∀ d w, f (set_db d w) = f w.
Hypothesis f_user_data : ∀ d w,
  f (set_user_data (<[id (effective_user u) := d]> (user_data w)) w) = f w.
Hypothesis f_register : keeps f (register_admin_command env u).

Ltac frame_side :=
  solve [ intros; first [ reflexivity | apply f_outbox | apply f_db
                        | apply f_user_data ] ].

Ltac frame_step :=
  first
    [ apply keeps_ret | apply keeps_raise | apply keeps_get | apply keeps_pass
    | apply keeps_expect | apply keeps_callback_query | apply keeps_message_of
    | apply keeps_load_admin_config
    | apply keeps_call; frame_side
    | apply keeps_try_call; frame_side
    | apply keeps_modify; frame_side
    | apply keeps_admin_only; [frame_side|]
    | apply keeps_bind; [|intros ?]
    | match goal with
      | |- keeps _ (match ?x with _ => _ end) => destruct x
      | |- keeps _ (if ?x then _ else _) => destruct x
      | |- keeps _ ((if ?x then _ else _) ≫= _) => destruct x
      | |- keeps _ ((match ?x with _ => _ end) ≫= _) => destruct x
      | |- keeps _ (let '(_, _) := ?p in _) => destruct p
      | |- keeps _ (let _ := _ in _) => lazy zeta
      end
    | progress unfold send_attached_photo, delete_previous_message ].

Lemma frame_broadcast_loop t l s k : keeps f (broadcast_loop env t l s k).
Proof.
  revert s k. induction l as [|x l IH]; intros s k; simpl;
    repeat frame_step; apply IH.
Qed.


(** The same for a part [f] that the register command may change: the
    register command is set apart. *)
Lemma frame_handlers_apart Q :
  (∀ table set_table,
     (table = feedback_conv ∧ set_table = set_feedback_conv)
     ∨ (table = admin_reply_conv ∧ set_table = set_admin_reply_conv)
     ∨ (table = admin_broadcast_conv ∧ set_table = set_admin_broadcast_conv)
     → Q table set_table) →
  Forall (slot_ok (λ cb, cb = register_admin_command ∨ keeps f (cb env u)) Q)
    handlers.
Proof.
  intros HQ. unfold handlers.
  repeat first
    [ apply Forall_cons_2 | apply Forall_nil_2
    | apply slot_plain | apply slot_conversation | split
    | apply map_Forall_insert_2 | apply map_Forall_empty
    | done
    | apply HQ; by auto ];
  unfold handler_ok; cbn [callback_of];
  first
    [ right; apply frame_broadcast_loop
    | right; unfold broadcast_handler; repeat frame_step;
      apply frame_broadcast_loop
    | solve [right; repeat frame_step]
    | left; reflexivity ].
Qed.
End frame.

(** The conditions of [slot_ok] can be weakened. *)
Lemma slot_ok_impl (P P' : Callback → Prop)
    (Q Q' : (World → gmap (Z * Z) Z) → (gmap (Z * Z) Z → World → World) → Prop)
    (b : BaseHandler) :
  (∀ cb, P cb → P' cb) → (∀ table set_table, Q table set_table → Q' table set_table) →
  slot_ok P Q b → slot_ok P' Q' b.
Proof.
  intros HP HQ [h Hh|c table set_table [He Hs Hf] Hset].
  - apply slot_plain. by apply HP.
  - apply slot_conversation; [|by apply HQ]. split.
    + eapply Forall_impl; [exact He|]. intros h. apply HP.
    + eapply map_Forall_impl; [exact Hs|]. intros s hs Hhs.
      eapply Forall_impl; [exact Hhs|]. intros h. apply HP.
    + eapply Forall_impl; [exact Hf|]. intros h. apply HP.
Qed.



(** ** The admin gate *)


(** The gate turns away whoever is not the registered admin, and everybody
    when no admin is registered; nothing but the outbox changes. *)
Lemma admin_only_denies func env u w :
  default ∅ (admin_config_file w) !! "admin_id"
    ≠ Some (Py.str (id (effective_user u))) →
  admin_only func env u w = (Ret None, set_outbox (outbox w ++ [denial u]) w).
Proof.
  intros Hne. unfold admin_only, load_admin_config, get, mbind, M_bind. simpl.
  rewrite (bool_decide_true (Some _ ≠ _)) by congruence.
  by rewrite orb_true_r.
Qed.

(** The gate lets the registered admin through. *)
Lemma admin_only_admits func env u w :
  default ∅ (admin_config_file w) !! "admin_id"
    = Some (Py.str (id (effective_user u))) →
  admin_only func env u w = func env u w.
Proof.
  intros He. unfold admin_only, load_admin_config, get, mbind, M_bind. simpl.
  rewrite (bool_decide_false (Some _ ≠ _)) by (intros Hne; by apply Hne).
  rewrite bool_decide_false; [done|].
  intros Hempty. by rewrite Hempty, lookup_empty in He.
Qed.

(** Once an admin is registered, another user's registration is turned
    away and the configuration file stays as it is. *)
Lemma register_admin_rejects_other env u w admin :
  default ∅ (admin_config_file w) !! "admin_id" = Some (Py.str admin) →
  id (effective_user u) ≠ admin →
  register_admin_command env u w
    = (Ret None, set_outbox (outbox w ++ [denial u]) w).
Proof.
  intros Hadmin Hne. apply admin_only_denies. rewrite Hadmin.
  intros [= Heq]. by apply (inj pretty) in Heq.
Qed.

(** C2: when no admin is registered, [register_admin_command] does not make
    the caller the admin: the gate in front of it turns the caller away, and
    the configuration file and every other store stay as they are. *)
Theorem register_admin_denied_without_admin env u w :
  default ∅ (admin_config_file w) !! "admin_id" = None →
  register_admin_command env u w
    = (Ret None, set_outbox (outbox w ++ [denial u]) w).
Proof. intros Hnone. apply admin_only_denies. by rewrite Hnone. Qed.

Lemma register_admin_denied_without_admin_witness :
  let u := text_message alice "/registeradmin" in
  register_admin_command fair_weather u fresh_world
  = (Ret None, set_outbox (outbox fresh_world ++ [denial u]) fresh_world).
Proof.
  apply (register_admin_denied_without_admin fair_weather
           (text_message alice "/registeradmin") fresh_world).
  reflexivity.
Defined.

(** The same through the dispatcher: the first user to send
    [/registeradmin] to a bot without admin is turned away. *)
Example first_registration_denied :
  let u := text_message alice "/registeradmin" in
  process_update fair_weather u fresh_world
  = (None, set_outbox [denial u] fresh_world).
Proof. vm_compute. reflexivity. Qed.

(** C1: the buttons and the view command of the moderation menu are not
    behind the gate.  [mallory], who is not the admin, presses the delete
    button of item 1: the item is deleted and nobody is turned away. *)
Theorem delete_open_to_non_admin :
  let u := button_press mallory "admin_delete_1" in
  let w' := (process_update fair_weather u one_item_world).2 in
  default ∅ (admin_config_file one_item_world) !! "admin_id" = Some "7"
  ∧ id mallory ≠ 7
  ∧ is_Some (db one_item_world !! 1)
  ∧ db w' !! 1 = None
  ∧ outbox w'
    = outbox one_item_world
        ++ [(answer, true);
            (edit_message_text "🗑️ Feedback #1 has been deleted." None, true)].
Proof. repeat split; try done; vm_compute; eauto. Qed.

(** The view command is open in the same way: [mallory] reads item 1 and
    is handed the keyboard with the reply, resolve and delete buttons. *)
Example view_open_to_non_admin :
  let u := text_message mallory "/view_1" in
  let w' := (process_update fair_weather u one_item_world).2 in
  ∃ t, drop (length (outbox one_item_world)) (outbox w')
       = [(send_message 666 t
             (Some (get_admin_feedback_actions_keyboard 1 "new")), true)].
Proof. eexists. vm_compute. reflexivity. Qed.

(** The same user is turned away at the gated command [/listfb]. *)
Example listfb_denied :
  let u := text_message mallory "/listfb" in
  process_update fair_weather u one_item_world
  = (None, set_outbox (outbox one_item_world ++ [denial u]) one_item_world).
Proof. vm_compute. reflexivity. Qed.

(** ** Status changes *)

(** C3 (amended): an update leaves the status of an item as it is, or sets
    it to replied, or sets it to resolved, whatever the status was; the
    other columns stay.  In particular no update sets a status back to new. *)
Theorem status_only_to_replied_or_resolved env u w i fb fb' :
  db w !! i = Some fb →
  db (process_update env u w).2 !! i = Some fb' →
  (fb' = fb ∨ fb' = set_status "replied" fb ∨ fb' = set_status "resolved" fb)
  ∧ (status fb' = "new" → status fb = "new").
Proof.
  intros Hfb Hfb'.
  assert (fb' = fb ∨ fb' = set_status "replied" fb
          ∨ fb' = set_status "resolved" fb) as Hcases.
  { destruct (process_update_db_step env u w) as [|j|j fbj Hj|j|new Hnew].
    - left. congruence.
    - rewrite lookup_alter in Hfb'. case_decide; subst.
      + rewrite Hfb in Hfb'. right; right. by injection Hfb'.
      + left. congruence.
    - rewrite lookup_insert in Hfb'. case_decide; subst.
      + right; left. congruence.
      + left. congruence.
    - rewrite lookup_delete in Hfb'. case_decide; [done|]. left. congruence.
    - rewrite lookup_insert in Hfb'. case_decide; subst.
      + by rewrite next_id_fresh in Hfb.
      + left. congruence. }
  split; [done|].
  destruct Hcases as [->|[->| ->]]; [done|discriminate|discriminate].
Qed.

Lemma status_only_to_replied_or_resolved_witness :
  ∃ fb fb',
    db one_item_world !! 1 = Some fb
    ∧ db (process_update fair_weather (button_press root "admin_resolve_1")
            one_item_world).2 !! 1 = Some fb'
    ∧ (fb' = fb ∨ fb' = set_status "replied" fb
       ∨ fb' = set_status "resolved" fb)
    ∧ (status fb' = "new" → status fb = "new").
Proof.
  eexists _, _. split; [vm_compute; reflexivity|].
  split; [vm_compute; reflexivity|].
  eapply (status_only_to_replied_or_resolved fair_weather
            (button_press root "admin_resolve_1") one_item_world 1);
    vm_compute; reflexivity.
Defined.

(** C3 as stated fails: the admin resolves item 1 and then replies to it;
    the reply takes the status from resolved back to replied. *)
Lemma reply_reopens_resolved :
  let w := run fair_weather
             [button_press root "admin_resolve_1";
              button_press root "admin_reply_1"] one_item_world in
  let w' := (process_update fair_weather (text_message root "thanks") w).2 in
  status <$> db w !! 1 = Some "resolved"
  ∧ status <$> db w' !! 1 = Some "replied".
Proof. split; vm_compute; reflexivity. Qed.

(** ** Submission *)

(** Run the first bind of the goal. *)
Ltac run_bind := unfold mbind at 1, M_bind at 1; simpl.

(** The admin notification returns, and adds to the outbox only. *)
Lemma notify_admin_returns env i w :
  ∃ calls,
    notify_admin_new_feedback env i w
    = (Ret (), set_outbox (outbox w ++ calls) w).
Proof.
  assert (∀ w : World, set_outbox (outbox w ++ []) w = w) as Hnil.
  { intros [??????]. unfold set_outbox. simpl. by rewrite app_nil_r. }
  unfold notify_admin_new_feedback, load_admin_config, get, mbind, M_bind.
  simpl.
  destruct (Py.truthy _) as [chat|]; [|by exists []; rewrite Hnil].
  destruct (db w !! i) as [fb|]; [|by exists []; rewrite Hnil].
  destruct (Py.truthy (photo_file_id fb)); eexists [_]; reflexivity.
Qed.




(** On a session without draft the confirmation fails and the table stays
    empty. *)
Example confirm_on_empty_session :
  process_update fair_weather (button_press alice "confirm_yes")
    (set_feedback_conv {[ (42, 42) := CONFIRM_SUBMISSION ]} fresh_world)
  = (Some (KeyError "feedback_category"),
     set_outbox [(answer, true)]
       (set_feedback_conv {[ (42, 42) := CONFIRM_SUBMISSION ]} fresh_world)).
Proof. vm_compute. reflexivity. Qed.

(** ** Replies *)



(** ** Broadcast *)

Section broadcast.
Context (env : Env) (payload : string).

(** The loop tries every recipient in turn, whatever happened to the ones
    before, and counts each of them once. *)
Lemma broadcast_loop_run (l : list Z) (sent failed : Z) (w : World) :
  broadcast_loop env payload l sent failed w
  = (Ret (sent + Z.of_nat (length (filter (reached env payload) l)),
          failed
          + Z.of_nat (length (filter (λ x, ¬ reached env payload x) l))),
     set_outbox
       (outbox w
          ++ ((λ x, (attempt payload x, gateway env (attempt payload x)))
                <$> l)) w).
Proof.
  revert sent failed w. induction l as [|x l IH]; intros sent failed w.
  { simpl. rewrite !Z.add_0_r, app_nil_r. by destruct w. }
  simpl. unfold try_call. run_bind. fold (attempt payload x).
  rewrite !filter_cons.
  destruct (decide (reached env payload x)) as [Hx|Hx].
  - rewrite decide_False by naive_solver. rewrite Hx.
    rewrite IH. simpl. rewrite <- app_assoc. simpl.
    do 2 f_equal. f_equal; lia.
  - rewrite decide_True by done.
    apply not_true_is_false in Hx. rewrite Hx.
    rewrite IH. simpl. rewrite <- app_assoc. simpl.
    do 2 f_equal. f_equal; lia.
Qed.

Lemma filter_reached_length (l : list Z) :
  Z.of_nat (length (filter (reached env payload) l))
  = Z.of_nat (length l)
    - Z.of_nat (length (filter (λ x, ¬ reached env payload x) l)).
Proof.
  induction l as [|x l IH]; [done|].
  rewrite !filter_cons. destruct (decide (reached env payload x)).
  - rewrite decide_False by naive_solver. simpl length. lia.
  - rewrite decide_True by done. simpl length. lia.
Qed.
End broadcast.

(** Sorting rearranges. *)
Lemma insert_by_perm {A} (before : A → A → bool) (x : A) (l : list A) :
  insert_by before x l ≡ₚ x :: l.
Proof.
  induction l as [|y l IH]; [done|]. simpl. destruct (before x y); [done|].
  rewrite IH. apply Permutation_swap.
Qed.

Lemma sort_by_perm {A} (before : A → A → bool) (l : list A) :
  sort_by before l ≡ₚ l.
Proof.
  induction l as [|x l IH]; [done|]. unfold sort_by in *. simpl.
  by rewrite insert_by_perm, IH.
Qed.

(** The recipients are the users who have an item in the table, each once. *)
Lemma distinct_user_ids_spec (d : gmap Z Feedback) :
  NoDup (distinct_user_ids d)
  ∧ ∀ user, user ∈ distinct_user_ids d
            ↔ ∃ i fb, d !! i = Some fb ∧ user_id fb = user.
Proof.
  unfold distinct_user_ids. rewrite sort_by_perm.
  split; [apply NoDup_remove_dups|].
  intros user. rewrite sort_by_perm, elem_of_remove_dups, list_elem_of_fmap.
  split.
  - intros (fb & -> & Hfb). apply list_elem_of_fmap in Hfb as ([i fb'] & -> & Hin).
    exists i, fb'. split; [|done]. by apply elem_of_map_to_list.
  - intros (i & fb & Hfb & <-). exists fb. split; [done|].
    apply list_elem_of_fmap. exists (i, fb). split; [done|].
    by apply elem_of_map_to_list.
Qed.

(** C5 (amended): a broadcast goes to the [N] distinct users who have an
    item in the table when it is sent; the gateway does not reach [K] of
    them.  After the notice to the admin the handler tries every recipient
    once, in order, with the text the admin sent; a failure does not stop
    the loop; the report to the admin gives [N - K] as sent and [K] as
    failed. *)
Theorem broadcast_reaches_all_and_counts env u m payload w :
  content u = OfMessage m →
  text m = Some payload →
  let recipients := distinct_user_ids (db w) in
  let N := Z.of_nat (length recipients) in
  let K := Z.of_nat (length (filter (λ x, ¬ reached env payload x) recipients)) in
  NoDup recipients
  ∧ (∀ user, user ∈ recipients ↔ ∃ i fb, db w !! i = Some fb ∧ user_id fb = user)
  ∧ broadcast_handler env u w
    = (Ret (Some END),
       set_outbox
         (outbox w
            ++ [(send_message (chat_id u) broadcast_notice None, true)]
            ++ ((λ x, (attempt payload x, gateway env (attempt payload x)))
                  <$> recipients)
            ++ [(send_message (chat_id u) (broadcast_report (N - K) K) None,
                 true)])
         w).
Proof.
  intros Hm Ht recipients N K.
  destruct (distinct_user_ids_spec (db w)) as [Hnodup Hin].
  split; [done|]. split; [done|].
  unfold broadcast_handler, message_of. rewrite Hm. run_bind. rewrite Ht.
  do 3 run_bind. unfold mbind at 1, M_bind at 1.
  rewrite broadcast_loop_run. simpl. run_bind.
  rewrite filter_reached_length. fold recipients N K.
  rewrite !Z.add_0_l. unfold set_outbox. simpl.
  by rewrite <- !app_assoc.
Qed.

Lemma broadcast_reaches_all_and_counts_witness :
  let env := unreachable [43] in
  let u := text_message root "hello" in
  let w := two_item_world in
  let recipients := distinct_user_ids (db w) in
  let N := Z.of_nat (length recipients) in
  let K := Z.of_nat (length (filter (λ x, ¬ reached env "hello" x) recipients)) in
  NoDup recipients
  ∧ (∀ user, user ∈ recipients ↔ ∃ i fb, db w !! i = Some fb ∧ user_id fb = user)
  ∧ broadcast_handler env u w
    = (Ret (Some END),
       set_outbox
         (outbox w
            ++ [(send_message (chat_id u) broadcast_notice None, true)]
            ++ ((λ x, (attempt "hello" x, gateway env (attempt "hello" x)))
                  <$> recipients)
            ++ [(send_message (chat_id u) (broadcast_report (N - K) K) None,
                 true)])
         w).
Proof.
  apply (broadcast_reaches_all_and_counts (unreachable [43])
           (text_message root "hello")
           {| text := Some "hello"; photo := []; caption := None |}
           "hello" two_item_world); reflexivity.
Defined.

(** C5 as stated fails for a submitter whose item has been deleted:
    [alice] has submitted item 1, the admin deletes it and broadcasts; the
    broadcast does not try [alice] and reports nothing sent, nothing
    failed. *)
Lemma broadcast_skips_deleted_submitter :
  let w := run fair_weather
             [button_press root "admin_delete_1"; text_message root "/broadcast"]
             one_item_world in
  let w' := (process_update fair_weather (text_message root "hello") w).2 in
  (user_id <$> db one_item_world !! 1) = Some 42
  ∧ admin_broadcast_conv w !! (7, 7) = Some ADMIN_BROADCAST
  ∧ drop (length (outbox w)) (outbox w')
    = [(send_message 7 broadcast_notice None, true);
       (send_message 7 (broadcast_report 0 0) None, true)].
Proof. repeat split; vm_compute; reflexivity. Qed.

(** Two submitters, one of them out of reach: both are tried, one message
    is sent and one has failed. *)
Example broadcast_one_of_two :
  drop (length (outbox two_item_world))
    (outbox (broadcast_handler (unreachable [43]) (text_message root "hello")
               two_item_world).2)
  = [(send_message 7 broadcast_notice None, true);
     (send_message 42 "hello" None, true);
     (send_message 43 "hello" None, false);
     (send_message 7 (broadcast_report 1 1) None, true)].
Proof. vm_compute. reflexivity. Qed.

(** ** The list view *)

Lemma order_by_timestamp_desc_length l :
  length (order_by_timestamp_desc l) = length l.
Proof. unfold order_by_timestamp_desc. by rewrite sort_by_perm. Qed.

(** A page is empty exactly when its offset is at or past the count. *)
Lemma page_rows_nil (d : gmap Z Feedback) (p : Z) :
  0 ≤ p → page_rows d p = [] ↔ Z.of_nat (size d) ≤ p * FEEDBACK_PER_PAGE.
Proof.
  intros Hp. unfold page_rows.
  rewrite <- length_zero_iff_nil, length_take, length_drop.
  rewrite order_by_timestamp_desc_length, length_map_to_list.
  unfold FEEDBACK_PER_PAGE. lia.
Qed.

Lemma prev_next_differ p q : prev_button p ≠ next_button q.
Proof. discriminate. Qed.

(** The data of two list buttons agree only when their pages do. *)
Lemma list_data_inj (p q : Z) :
  "admin_list_" +:+ Py.str p = "admin_list_" +:+ Py.str q → p = q.
Proof.
  intros H. cbv [String.append] in H. injection H as H.
  by apply (inj pretty) in H.
Qed.

(** C6 (amended): on page [p ≥ 0] of the list, the next control is absent
    exactly when [(p+1)*5 ≥ totalCount]; the previous control is absent
    exactly when [p = 0] or the page has no item ([p*5 ≥ totalCount]).  A
    page [p > 0] without item says that the end of the list is reached and
    shows one control only, back to the start, which leads to page 0; so a
    control with the data of page [p - 1] is absent exactly when [p = 0],
    or [p ≥ 2] and the page has no item. *)
Theorem page_navigation (d : gmap Z Feedback) (p : Z) :
  0 ≤ p →
  let total := Z.of_nat (size d) in
  let markup := (feedback_page d p).2 in
  (prev_button p ∉ buttons_of markup
     ↔ p = 0 ∨ total ≤ p * FEEDBACK_PER_PAGE)
  ∧ (next_button p ∉ buttons_of markup
     ↔ total ≤ (p + 1) * FEEDBACK_PER_PAGE)
  ∧ (0 < p → total ≤ p * FEEDBACK_PER_PAGE →
     feedback_page d p
     = ("You've reached the end of the feedback list.",
        Some [[ {| label := "« Back to Start";
                   callback_data := "admin_list_0" |} ]]))
  ∧ ("admin_list_" +:+ Py.str (p - 1) ∉ callback_data <$> buttons_of markup
     ↔ p = 0 ∨ (2 ≤ p ∧ total ≤ p * FEEDBACK_PER_PAGE)).
Proof.
  intros Hp total markup. subst markup. unfold feedback_page.
  pose proof (page_rows_nil d p Hp) as [Hnil1 Hnil2]. fold total in Hnil1, Hnil2 |- *.
  pose proof (prev_next_differ p p) as Hdiff.
  assert (Hzero : "admin_list_" +:+ Py.str (p - 1) = "admin_list_0" ↔ p = 1).
  { split; [|by intros ->]. intros H%(list_data_inj (p - 1) 0). lia. }
  assert (Hnext : "admin_list_" +:+ Py.str (p - 1)
                  ≠ "admin_list_" +:+ Py.str (p + 1)).
  { intros H%list_data_inj. lia. }
  unfold FEEDBACK_PER_PAGE in *.
  destruct (page_rows d p) as [|r rows].
  - specialize (Hnil1 eq_refl). clear Hnil2.
    case_bool_decide; simpl; unfold buttons_of; simpl.
    + repeat split; try lia; intros; try apply not_elem_of_nil; by auto.
    + split; [|split; [|split]].
      * split; [lia|intros _]. rewrite not_elem_of_cons.
        split; [discriminate|apply not_elem_of_nil].
      * split; [lia|intros _]. rewrite not_elem_of_cons.
        split; [discriminate|apply not_elem_of_nil].
      * done.
      * rewrite not_elem_of_cons, Hzero. split.
        -- intros [Hne _]. right. split; [lia|done].
        -- intros [?|[? _]]; [lia|]. split; [lia|apply not_elem_of_nil].
  - assert (¬ total ≤ p * 5) as Hgt by (intros Hle; by specialize (Hnil2 Hle)).
    clear Hnil1 Hnil2. unfold buttons_of. simpl. rewrite app_nil_r.
    assert (next_button p ≠ prev_button p) as Hdiff' by congruence.
    split; [|split; [|split]].
    + repeat case_bool_decide; simpl;
        (split; [intros Hout|intros Hcase]);
        first
          [ lia
          | exfalso; apply Hout; rewrite ?elem_of_cons; by auto
          | rewrite ?not_elem_of_cons;
            repeat split; solve [done | apply not_elem_of_nil] ].
    + repeat case_bool_decide; simpl;
        (split; [intros Hout|intros Hcase]);
        first
          [ lia
          | exfalso; apply Hout; rewrite ?elem_of_cons; by auto
          | rewrite ?not_elem_of_cons;
            repeat split; solve [done | apply not_elem_of_nil] ].
    + lia.
    + repeat case_bool_decide; simpl;
        (split; [intros Hout|intros Hcase]);
        first
          [ lia
          | exfalso; apply Hout; rewrite ?elem_of_cons; by auto
          | rewrite ?not_elem_of_cons;
            repeat split; solve [done | apply not_elem_of_nil] ].
Qed.

Lemma page_navigation_witness :
  let total := Z.of_nat (size six_items) in
  let markup := (feedback_page six_items 1).2 in
  (prev_button 1 ∉ buttons_of markup
     ↔ 1 = 0 ∨ total ≤ 1 * FEEDBACK_PER_PAGE)
  ∧ (next_button 1 ∉ buttons_of markup
     ↔ total ≤ (1 + 1) * FEEDBACK_PER_PAGE)
  ∧ (0 < 1 → total ≤ 1 * FEEDBACK_PER_PAGE →
     feedback_page six_items 1
     = ("You've reached the end of the feedback list.",
        Some [[ {| label := "« Back to Start";
                   callback_data := "admin_list_0" |} ]]))
  ∧ ("admin_list_" +:+ Py.str (1 - 1) ∉ callback_data <$> buttons_of markup
     ↔ 1 = 0 ∨ (2 ≤ 1 ∧ total ≤ 1 * FEEDBACK_PER_PAGE)).
Proof. apply (page_navigation six_items 1). lia. Defined.

(** With six items, page 0 shows the next control only and page 1 the
    previous control only. *)
Example six_items_navigation :
  (feedback_page six_items 0).2
  = Some [[ {| label := "Next »"; callback_data := "admin_list_1" |} ]]
  ∧ (feedback_page six_items 1).2
    = Some [[ {| label := "« Prev"; callback_data := "admin_list_0" |} ]].
Proof. split; vm_compute; reflexivity. Qed.

(** C6 as stated fails on a page past the end: with one item in the table,
    page 2 has no item; it shows the way back to the start and neither the
    previous control nor any control with the data of page 1, although the
    page is not page 0. *)
Lemma no_previous_past_the_end :
  let shown := buttons_of (feedback_page (db one_item_world) 2).2 in
  shown = [ {| label := "« Back to Start"; callback_data := "admin_list_0" |} ]
  ∧ prev_button 2 = {| label := "« Prev"; callback_data := "admin_list_1" |}
  ∧ (prev_button 2 ∉ shown)
  ∧ ("admin_list_1" ∉ callback_data <$> shown)
  ∧ ¬ (prev_button 2 ∉ shown ↔ (2 : Z) = 0).
Proof.
  intros shown.
  assert (shown = [ {| label := "« Back to Start";
                       callback_data := "admin_list_0" |} ]) as ->
    by (vm_compute; reflexivity).
  assert (prev_button 2 ∉ [ {| label := "« Back to Start";
                                callback_data := "admin_list_0" |} ]) as Hout.
  { rewrite not_elem_of_cons. split; [discriminate|apply not_elem_of_nil]. }
  split; [done|]. split; [reflexivity|]. split; [done|]. split.
  - simpl. rewrite not_elem_of_cons. split; [discriminate|apply not_elem_of_nil].
  - intros [Habs _]. by specialize (Habs Hout).
Qed.

(** The admin reaches such a page with a button of an older list. *)
Example list_page_past_the_end :
  process_update fair_weather (button_press root "admin_list_1") one_item_world
  = (None,
     set_outbox
       (outbox one_item_world
          ++ [(answer, true);
              (edit_message_text "You've reached the end of the feedback list."
                 (Some [[button "« Back to Start" "admin_list_0"]]), true)])
       one_item_world).
Proof. vm_compute. reflexivity. Qed.

(** ** The feedback dialogue through the dispatcher *)

#[local] Arguments Py.int : simpl never.
#[local] Arguments Py.split : simpl never.
#[local] Arguments session : simpl never.

Lemma session_set_user_data i d m w :
  session (set_user_data (<[i := d]> m) w) i = d.
Proof. unfold session. simpl. by rewrite lookup_insert_eq. Qed.

Lemma session_set_outbox o w i : session (set_outbox o w) i = session w i.
Proof. done. Qed.

(** An update that is not the [/start] command and that the feedback
    conversation takes goes to the callback the conversation picks. *)
Lemma feedback_conv_routes env u w h :
  check_update (CommandHandler "start" start_command) u = false →
  conversation_check feedback_conv_handler
    (feedback_conv w !! conversation_key u) u = Some h →
  process_update env u w = feedback_conv_result u (callback_of h env u w).
Proof.
  intros Hstart Hcheck. unfold process_update, handlers. cbn [dispatch].
  rewrite Hstart. cbv zeta. by rewrite Hcheck.
Qed.

Lemma first_match_cons h hs u :
  first_match (h :: hs) u
  = if check_update h u then Some h else first_match hs u.
Proof.
  unfold first_match. rewrite filter_cons.
  destruct (check_update h u); [by rewrite decide_True|by rewrite decide_False].
Qed.

Lemma press_not_command user chat q c cb :
  check_update (CommandHandler c cb) (press user chat q) = false.
Proof. done. Qed.

(** The callback query handlers of the four steps. *)
Lemma start_feedback_run env user chat q w :
  feedback_conv w !! (chat, id user) = None →
  data q = "start_feedback" →
  process_update env (press user chat q) w
  = (None,
     set_feedback_conv (<[(chat, id user) := SELECT_CATEGORY]> (feedback_conv w))
       (set_outbox
          (outbox w
             ++ [(answer, true);
                 (edit_message_text
                    ("<b>Welcome to the Feedback Center!</b>" +:+ nl +:+ nl +:+
                     "Your insights help us improve. Please select a category to begin.")
                    (Some get_category_keyboard), true)]) w)).
Proof.
  intros Hconv Hdata.
  erewrite feedback_conv_routes; [|done|].
  2:{ unfold conversation_key. simpl. rewrite Hconv. simpl.
      rewrite first_match_cons. simpl. rewrite Hdata. reflexivity. }
  simpl. unfold set_feedback_conv, set_outbox. simpl.
  by rewrite <- app_assoc.
Qed.

Lemma feedback_states_lookup :
  states feedback_conv_handler !! SELECT_CATEGORY
  = Some [CallbackQueryHandler (starts_with "category_") select_category_callback]
  ∧ states feedback_conv_handler !! GET_FEEDBACK_CONTENT
    = Some [MessageHandler (λ m, filters.TEXT m || filters.PHOTO m)
              get_feedback_content_handler]
  ∧ states feedback_conv_handler !! GET_RATING
    = Some [CallbackQueryHandler (starts_with "rating_") get_rating_callback]
  ∧ states feedback_conv_handler !! CONFIRM_SUBMISSION
    = Some [CallbackQueryHandler (starts_with "confirm_")
              confirm_submission_callback].
Proof. repeat split; reflexivity. Qed.

Lemma select_category_run env user chat q c w :
  feedback_conv w !! (chat, id user) = Some SELECT_CATEGORY →
  starts_with "category_" (data q) = true →
  Py.split "category_" (data q) !! 1%nat = Some c →
  ∃ calls,
    process_update env (press user chat q) w
    = (None,
       set_feedback_conv
         (<[(chat, id user) := GET_FEEDBACK_CONTENT]> (feedback_conv w))
         (set_outbox (outbox w ++ calls)
            (set_user_data
               (<[id user := with_category c (session w (id user))]>
                  (user_data w)) w))).
Proof.
  intros Hconv Hstarts Hsplit.
  destruct feedback_states_lookup as (Hs & _).
  erewrite feedback_conv_routes; [|done|].
  2:{ change (conversation_key (press user chat q)) with (chat, id user).
      rewrite Hconv. unfold conversation_check. rewrite Hs. cbn [default]. unfold Datatypes.id.
      rewrite first_match_cons. simpl. rewrite Hstarts. reflexivity. }
  simpl. unfold select_category_callback. simpl.
  run_bind. rewrite Hsplit. repeat run_bind.
  eexists [_; _]. unfold set_feedback_conv, set_outbox, set_user_data. simpl.
  by rewrite <- app_assoc.
Qed.

Lemma content_run env user chat m w :
  feedback_conv w !! (chat, id user) = Some GET_FEEDBACK_CONTENT →
  feedback_content m →
  ∃ calls,
    process_update env (say user chat m) w
    = (None,
       set_feedback_conv (<[(chat, id user) := GET_RATING]> (feedback_conv w))
         (set_outbox (outbox w ++ calls)
            (set_user_data
               (<[id user := with_content m (session w (id user))]>
                  (user_data w)) w))).
Proof.
  intros Hconv [Hcontent Hstart].
  destruct feedback_states_lookup as (_ & Hs & _).
  assert (filters.TEXT m || filters.PHOTO m = true) as Hfilter.
  { unfold filters.TEXT, filters.PHOTO. destruct Hcontent.
    - rewrite (bool_decide_true (photo m ≠ [])) by done. apply orb_true_r.
    - by rewrite bool_decide_true. }
  erewrite feedback_conv_routes.
  2:{ simpl. by apply bool_decide_false. }
  2:{ change (conversation_key (say user chat m)) with (chat, id user).
      rewrite Hconv. unfold conversation_check. rewrite Hs. cbn [default]. unfold Datatypes.id.
      rewrite first_match_cons. simpl. rewrite Hfilter. reflexivity. }
  simpl. unfold get_feedback_content_handler, with_content. simpl.
  run_bind.
  destruct (last (photo m)) as [file_id|] eqn:Hlast.
  - repeat run_bind. eexists [_].
    unfold set_feedback_conv, set_outbox, set_user_data, session. simpl.
    rewrite lookup_insert_eq, insert_insert_eq. reflexivity.
  - destruct Hcontent as [Hphoto|[t Ht]].
    { by apply last_None in Hlast. }
    rewrite Ht.
    assert (text m = Some t) as ->.
    { destruct (text m) as [[|??]|]; simpl in Ht; congruence. }
    repeat run_bind. eexists [_]. reflexivity.
Qed.

Lemma rating_run env user chat q s r c w :
  feedback_conv w !! (chat, id user) = Some GET_RATING →
  starts_with "rating_" (data q) = true →
  Py.split "rating_" (data q) !! 1%nat = Some s →
  Py.int s = Some r →
  feedback_category (session w (id user)) = Some c →
  ∃ calls,
    process_update env (press user chat q) w
    = (None,
       set_feedback_conv
         (<[(chat, id user) := CONFIRM_SUBMISSION]> (feedback_conv w))
         (set_outbox (outbox w ++ calls)
            (set_user_data
               (<[id user := with_rating r (session w (id user))]>
                  (user_data w)) w))).
Proof.
  intros Hconv Hstarts Hsplit Hint Hcat.
  destruct feedback_states_lookup as (_ & _ & Hs & _).
  erewrite feedback_conv_routes; [|done|].
  2:{ change (conversation_key (press user chat q)) with (chat, id user).
      rewrite Hconv. unfold conversation_check. rewrite Hs. cbn [default].
      unfold Datatypes.id.
      rewrite first_match_cons. simpl. rewrite Hstarts. reflexivity. }
  simpl. unfold get_rating_callback. simpl.
  run_bind. rewrite Hsplit. do 2 run_bind. rewrite Hint. do 3 run_bind.
  rewrite !session_set_user_data, !session_set_outbox.
  cbn [feedback_category feedback_photo_id with_rating]. rewrite Hcat.
  repeat run_bind.
  destruct (Py.truthy (feedback_photo_id _)); repeat run_bind;
    eexists [_; _; _];
    unfold set_feedback_conv, set_outbox, set_user_data; simpl;
    by rewrite <- !app_assoc.
Qed.

Lemma confirm_run env user chat q c r w :
  feedback_conv w !! (chat, id user) = Some CONFIRM_SUBMISSION →
  starts_with "confirm_" (data q) = true →
  data q ≠ "confirm_no" →
  commit_ok env = true →
  feedback_category (session w (id user)) = Some c →
  feedback_rating (session w (id user)) = Some r →
  ∃ calls,
    process_update env (press user chat q) w
    = (None,
       set_feedback_conv (delete (chat, id user) (feedback_conv w))
         (set_outbox (outbox w ++ calls)
            (set_user_data (<[id user := no_user_data]> (user_data w))
               (set_db
                  (<[next_id (db w) :=
                       new_feedback env user c (session w (id user)) r]>
                     (db w)) w)))).
Proof.
  intros Hconv Hstarts Hdata Hcommit Hcat Hrating.
  destruct feedback_states_lookup as (_ & _ & _ & Hs).
  erewrite feedback_conv_routes; [|done|].
  2:{ change (conversation_key (press user chat q)) with (chat, id user).
      rewrite Hconv. unfold conversation_check. rewrite Hs. cbn [default].
      unfold Datatypes.id.
      rewrite first_match_cons. simpl. rewrite Hstarts. reflexivity. }
  cbn [callback_of].
  unfold confirm_submission_callback. cbn [callback_query press content].
  do 2 run_bind. rewrite bool_decide_false by done. rewrite Hcommit.
  run_bind. change (session (set_outbox _ w) _) with (session w (id user)).
  rewrite Hcat. run_bind. rewrite Hrating. do 3 run_bind.
  set (w1 := set_db _ _). unfold mbind at 1, M_bind at 1.
  assert (∃ calls, ((if message_photo q
            then call (edit_message_caption thank_you None)
            else call (edit_message_text thank_you None)) w1)
          = (Ret (), set_outbox (outbox w1 ++ calls) w1))
    as [calls ->].
  { destruct (message_photo q); eexists [_]; reflexivity. }
  cbn iota. unfold mbind at 1, M_bind at 1.
  destruct (notify_admin_returns env (next_id (db w))
              (set_outbox (outbox w1 ++ calls) w1)) as [calls' ->].
  simpl. exists ((answer, true) :: calls ++ calls').
  unfold set_feedback_conv, set_outbox, set_user_data, set_db. simpl.
  rewrite <- !app_assoc. reflexivity.
Qed.

(** The five updates of a dialogue, one after the other.  The category is
    what follows [category_] in the data of the second update, the rating
    the integer that follows [rating_] in the data of the fourth. *)
Lemma feedback_dialogue_run e0 e1 e2 e3 e4 user chat q0 q1 m q3 q4 c s r w :
  feedback_conv w !! (chat, id user) = None →
  data q0 = "start_feedback" →
  starts_with "category_" (data q1) = true →
  Py.split "category_" (data q1) !! 1%nat = Some c →
  feedback_content m →
  starts_with "rating_" (data q3) = true →
  Py.split "rating_" (data q3) !! 1%nat = Some s →
  Py.int s = Some r →
  starts_with "confirm_" (data q4) = true →
  data q4 ≠ "confirm_no" →
  commit_ok e4 = true →
  let w' := run_each (dialogue e0 e1 e2 e3 e4 user chat q0 q1 m q3 q4) w in
  db w'
  = <[next_id (db w) :=
        {| user_id := id user;
           username := Py.or_else (user_name user) (full_name user);
           category := c;
           message := draft_message m;
           rating := r;
           status := "new";
           timestamp := utcnow e4;
           photo_file_id := draft_photo_id m (session w (id user)) |}]> (db w)
  ∧ session w' (id user) = no_user_data
  ∧ feedback_conv w' !! (chat, id user) = None.
Proof.
  intros Hconv H0 H1 Hc Hm H3 Hs Hr H4 Hyes Hcommit.
  unfold run_each, dialogue. cbn [foldl fst snd].
  rewrite (start_feedback_run e0 user chat q0 w Hconv H0). cbn [snd].
  set (w1 := set_feedback_conv _ _).
  destruct (select_category_run e1 user chat q1 c w1) as [calls1 ->];
    [apply lookup_insert_eq|done|done|]. cbn [snd].
  set (w2 := set_feedback_conv _ _).
  destruct (content_run e2 user chat m w2) as [calls2 ->];
    [apply lookup_insert_eq|done|]. cbn [snd].
  set (w3 := set_feedback_conv _ _).
  assert (session w3 (id user)
          = with_content m (with_category c (session w (id user)))) as Hw3.
  { subst w3 w2 w1. unfold session. simpl. by rewrite !lookup_insert_eq. }
  destruct (rating_run e3 user chat q3 s r c w3) as [calls3 ->];
    [apply lookup_insert_eq|done|done|done| |].
  { rewrite Hw3. unfold with_content. by destruct (last (photo m)). }
  cbn [snd]. set (w4 := set_feedback_conv _ _).
  assert (session w4 (id user) = with_rating r (session w3 (id user))) as Hw4.
  { unfold w4, session at 1. simpl. by rewrite lookup_insert_eq. }
  destruct (confirm_run e4 user chat q4 c r w4) as [calls4 ->];
    [apply lookup_insert_eq|done|done|done| | |].
  { rewrite Hw4, Hw3. unfold with_content. by destruct (last (photo m)). }
  { by rewrite Hw4. }
  cbn [snd]. split; [|split].
  - simpl. rewrite Hw4, Hw3. f_equal.
    unfold new_feedback, with_content, draft_message, draft_photo_id.
    destruct (last (photo m)) as [file_id|] eqn:Hlast; simpl; [done|].
    destruct Hm as [[Hphoto|[t Ht]] _]; [by apply last_None in Hlast|].
    by destruct (text m).
  - unfold session. simpl. by rewrite lookup_insert_eq.
  - simpl. apply lookup_delete_eq.
Qed.

(** The data of the category and rating buttons read back as the category
    and the rating they stand for. *)
Lemma category_button_data c :
  c ∈ FEEDBACK_CATEGORIES →
  starts_with "category_" ("category_" +:+ c) = true
  ∧ Py.split "category_" ("category_" +:+ c) !! 1%nat = Some c.
Proof.
  unfold FEEDBACK_CATEGORIES. rewrite !elem_of_cons, elem_of_nil.
  intros [->|[->|[->|[->|[]]]]]; split; reflexivity.
Qed.

Lemma rating_button_data r :
  1 ≤ r ≤ 5 →
  starts_with "rating_" ("rating_" +:+ Py.str r) = true
  ∧ Py.split "rating_" ("rating_" +:+ Py.str r) !! 1%nat = Some (Py.str r)
  ∧ Py.int (Py.str r) = Some r.
Proof.
  intros Hr.
  assert (r = 1 ∨ r = 2 ∨ r = 3 ∨ r = 4 ∨ r = 5) as [->|[->|[->|[->| ->]]]]
    by lia; repeat split; reflexivity.
Qed.

(** A dialogue in which the user presses the start button, a category
    button, sends a text or a photo, presses a rating button and the submit
    button, with a store that takes the commit.  Exactly one row is added,
    under a new id; it has the category and the rating of the buttons, the
    text sent (for a photo its caption, or the placeholder when there is no
    caption), the image reference the session holds at the end, and status
    new. *)
Lemma dialogue_persists_draft
    e0 e1 e2 e3 e4 user chat q0 q1 m q3 q4 c r w :
  feedback_conv w !! (chat, id user) = None →
  data q0 = "start_feedback" →
  c ∈ FEEDBACK_CATEGORIES →
  data q1 = "category_" +:+ c →
  feedback_content m →
  1 ≤ r ≤ 5 →
  data q3 = "rating_" +:+ Py.str r →
  data q4 = "confirm_yes" →
  commit_ok e4 = true →
  let w' := run_each (dialogue e0 e1 e2 e3 e4 user chat q0 q1 m q3 q4) w in
  let fb :=
    {| user_id := id user;
       username := Py.or_else (user_name user) (full_name user);
       category := c;
       message := draft_message m;
       rating := r;
       status := "new";
       timestamp := utcnow e4;
       photo_file_id := draft_photo_id m (session w (id user)) |} in
  db w' = <[next_id (db w) := fb]> (db w)
  ∧ db w !! next_id (db w) = None
  ∧ size (db w') = S (size (db w))
  ∧ (photo m ≠ [] → Py.truthy (caption m) = None →
     message fb = no_description_photo)
  ∧ (photo m ≠ [] → photo_file_id fb = last (photo m))
  ∧ (photo m = [] → text m = Some (message fb)
                    ∧ photo_file_id fb = feedback_photo_id (session w (id user))).
Proof.
  intros Hconv H0 Hc H1 Hm Hr H3 H4 Hcommit w' fb.
  destruct (category_button_data c Hc) as [Hc1 Hc2].
  destruct (rating_button_data r Hr) as (Hr1 & Hr2 & Hr3).
  destruct (feedback_dialogue_run e0 e1 e2 e3 e4 user chat q0 q1 m q3 q4
              c (Py.str r) r w) as (Hdb & _ & _);
    rewrite ?H1, ?H3, ?H4; try done.
  fold w' in Hdb. fold fb in Hdb.
  split; [done|]. split; [apply next_id_fresh|].
  split; [rewrite Hdb; apply map_size_insert_None, next_id_fresh|].
  subst fb. cbn [message photo_file_id]. unfold draft_message, draft_photo_id.
  destruct (last (photo m)) as [file_id|] eqn:Hlast.
  - assert (photo m ≠ []) as Hphoto by (intros Hnil; by rewrite Hnil in Hlast).
    split; [intros _ Hcap; unfold Py.or_else; by rewrite Hcap|].
    by split.
  - apply last_None in Hlast.
    split; [done|]. split; [done|]. intros _. split; [|done].
    destruct Hm as [[?|[t Ht]] _]; [done|]. by destruct (text m).
Qed.

(** The example of the specification: a bug report with text, rating 4 and
    no image. *)
Example bug_report_stored :
  db one_item_world
  = {[ 1 := {| user_id := 42; username := "alice";
               category := "🐛 Bug Report"; message := "crashes on save";
               rating := 4; status := "new"; timestamp := noon;
               photo_file_id := None |} ]}.
Proof. vm_compute. reflexivity. Qed.

(** A photo without caption is stored with the placeholder as its
    message. *)
Example photo_without_caption_stored :
  let q d := {| data := d; message_photo := false |} in
  let m := {| text := None; photo := ["small"; "large"]; caption := None |} in
  db (run_each
        (dialogue fair_weather fair_weather fair_weather fair_weather
           fair_weather alice 42 (q "start_feedback") (q "category_⭐ Other")
           m (q "rating_4") {| data := "confirm_yes"; message_photo := true |})
        fresh_world)
  = {[ 1 := {| user_id := 42; username := "alice"; category := "⭐ Other";
               message := "(No description provided with photo)";
               rating := 4; status := "new"; timestamp := noon;
               photo_file_id := Some "large" |} ]}.
Proof. vm_compute. reflexivity. Qed.

(** C4: the image reference of a persisted item is not always the one the
    dialogue collected.  [alice] sends a photo as feedback and confirms,
    and the commit fails: nothing is stored, the dialogue ends, and the
    draft stays in the session ([confirm_submission_callback] clears the
    session on every other way out).  [alice] starts again and sends a text
    without any image: the item that is now persisted carries the image of
    the first attempt. *)
Theorem text_feedback_carries_earlier_photo :
  let q d := {| data := d; message_photo := false |} in
  let picture :=
    {| text := None; photo := ["small"; "large"];
       caption := Some "see the picture" |} in
  let words :=
    {| text := Some "no picture this time"; photo := []; caption := None |} in
  let first :=
    dialogue fair_weather fair_weather fair_weather fair_weather database_down
      alice 42 (q "start_feedback") (q "category_🐛 Bug Report") picture
      (q "rating_2") {| data := "confirm_yes"; message_photo := true |} in
  let second :=
    dialogue fair_weather fair_weather fair_weather fair_weather fair_weather
      alice 42 (q "start_feedback") (q "category_⭐ Other") words
      (q "rating_5") (q "confirm_yes") in
  let w1 := run_each first fresh_world in
  let w2 := run_each second w1 in
  db w1 = ∅
  ∧ feedback_conv w1 !! (42, 42) = None
  ∧ feedback_photo_id (session w1 42) = Some "large"
  ∧ photo words = []
  ∧ db w2
    = {[ 1 := {| user_id := 42; username := "alice"; category := "⭐ Other";
                 message := "no picture this time"; rating := 5;
                 status := "new"; timestamp := noon;
                 photo_file_id := Some "large" |} ]}.
Proof.
  split; [vm_compute; reflexivity|]. split; [vm_compute; reflexivity|].
  split; [vm_compute; reflexivity|]. split; [reflexivity|].
  vm_compute. reflexivity.
Qed.

(** ** The dialogue among the updates of other users *)








(** The draft is one per user, not one per dialogue.  [alice] picks a
    category from the keyboard in one chat and, before going on there,
    opens the dialogue in another chat and sends other data; the item
    persisted in the first chat has the category of the second. *)
Example draft_shared_between_chats :
  let q d := {| data := d; message_photo := false |} in
  let w :=
    run fair_weather
      [ button_press alice "start_feedback";
        button_press alice "category_🐛 Bug Report";
        press alice 100 (q "start_feedback");
        press alice 100 (q "category_Spam");
        text_message alice "hello";
        button_press alice "rating_4";
        button_press alice "confirm_yes" ] fresh_world in
  category <$> db w !! 1 = Some "Spam".
Proof. vm_compute. reflexivity. Qed.

(** ** Cancelling *)

(** Answering the confirmation with [confirm_no] ends the dialogue, clears
    the session and leaves the table as it is. *)
Lemma confirm_no_clears env user chat q w :
  feedback_conv w !! (chat, id user) = Some CONFIRM_SUBMISSION →
  data q = "confirm_no" →
  process_update env (press user chat q) w
  = (None,
     set_feedback_conv (delete (chat, id user) (feedback_conv w))
       (set_outbox
          (outbox w
             ++ [(answer, true); (delete_message, true);
                 (send_message chat "Feedback submission cancelled." None, true)])
          (set_user_data (<[id user := no_user_data]> (user_data w)) w))).
Proof.
  intros Hconv Hdata.
  destruct feedback_states_lookup as (_ & _ & _ & Hs).
  erewrite feedback_conv_routes; [|done|].
  2:{ change (conversation_key (press user chat q)) with (chat, id user).
      rewrite Hconv. unfold conversation_check. rewrite Hs. cbn [default].
      unfold Datatypes.id.
      rewrite first_match_cons. simpl. rewrite Hdata. reflexivity. }
  cbn [callback_of].
  unfold confirm_submission_callback. cbn [callback_query press content].
  do 2 run_bind. rewrite bool_decide_true by done. repeat run_bind.
  unfold set_feedback_conv, set_outbox, set_user_data. simpl.
  by rewrite <- !app_assoc.
Qed.

(** In the states that wait for a button, [/cancel] reaches the fallback:
    the dialogue ends, the session is cleared, the table stays. *)
Lemma cancel_clears env user chat m s w :
  command_of m = Some "cancel" →
  s ∈ [SELECT_CATEGORY; GET_RATING; CONFIRM_SUBMISSION] →
  feedback_conv w !! (chat, id user) = Some s →
  process_update env (say user chat m) w
  = (None,
     set_feedback_conv (delete (chat, id user) (feedback_conv w))
       (set_outbox
          (outbox w ++ [(send_message chat "Operation cancelled." None, true)])
          (set_user_data (<[id user := no_user_data]> (user_data w)) w))).
Proof.
  intros Hcmd Hs Hconv.
  destruct feedback_states_lookup as (Hs0 & _ & Hs2 & Hs3).
  erewrite (feedback_conv_routes _ _ _ (CommandHandler "cancel" cancel_handler)).
  - reflexivity.
  - simpl. rewrite Hcmd. reflexivity.
  - change (conversation_key (say user chat m)) with (chat, id user).
    rewrite Hconv. unfold conversation_check.
    rewrite !elem_of_cons, elem_of_nil in Hs.
    destruct Hs as [->|[->|[->|[]]]]; rewrite ?Hs0, ?Hs2, ?Hs3;
      cbn [default]; unfold Datatypes.id; rewrite first_match_cons;
      cbn [check_update say content]; cbn [fallbacks feedback_conv_handler];
      rewrite first_match_cons; cbn [check_update say content];
      by rewrite Hcmd.
Qed.

(** C9: in the state that waits for the content, [/cancel] does not cancel.
    The content handler is registered for every text, commands included, and
    is asked before the fallback: the dialogue goes on to the rating step
    with [/cancel] as the message of the draft, and the session is not
    cleared.  The table stays as it is. *)
Theorem cancel_taken_as_content env user chat m w :
  text m = Some "/cancel" →
  photo m = [] →
  feedback_conv w !! (chat, id user) = Some GET_FEEDBACK_CONTENT →
  let w' := (process_update env (say user chat m) w).2 in
  command_of m = Some "cancel"
  ∧ feedback_conv w' !! (chat, id user) = Some GET_RATING
  ∧ session w' (id user) = with_message "/cancel" (session w (id user))
  ∧ session w' (id user) ≠ no_user_data
  ∧ db w' = db w.
Proof.
  intros Ht Hphoto Hconv w'.
  assert (command_of m = Some "cancel") as Hcmd.
  { unfold command_of. by rewrite Ht. }
  destruct (content_run env user chat m w Hconv) as [calls Hrun].
  { split; [right; rewrite Ht; by eexists|by rewrite Hcmd]. }
  subst w'. rewrite Hrun. cbn [snd].
  assert (with_content m (session w (id user))
          = with_message "/cancel" (session w (id user))) as Hdraft.
  { unfold with_content. by rewrite Hphoto, Ht. }
  split; [done|]. split; [apply lookup_insert_eq|].
  split; [|split].
  - unfold session at 1. simpl. by rewrite lookup_insert_eq.
  - unfold session at 1. simpl. rewrite lookup_insert_eq. simpl.
    rewrite Hdraft. discriminate.
  - done.
Qed.

Lemma cancel_taken_as_content_witness :
  let m := {| text := Some "/cancel"; photo := []; caption := None |} in
  let w := run fair_weather
             (take 2 (text_dialogue alice "⭐ Other" "thanks" "5"))
             fresh_world in
  let w' := (process_update fair_weather (say alice 42 m) w).2 in
  command_of m = Some "cancel"
  ∧ feedback_conv w' !! (42, 42) = Some GET_RATING
  ∧ session w' 42 = with_message "/cancel" (session w 42)
  ∧ session w' 42 ≠ no_user_data
  ∧ db w' = db w.
Proof.
  apply (cancel_taken_as_content fair_weather alice 42
           {| text := Some "/cancel"; photo := []; caption := None |}
           (run fair_weather
              (take 2 (text_dialogue alice "⭐ Other" "thanks" "5"))
              fresh_world)).
  - reflexivity.
  - reflexivity.
  - vm_compute. reflexivity.
Defined.
(** * Further properties *)

(** ** Integers in callback data: [int(str(n))] *)

Lemma list_ascii_of_string_app (s t : string) :
  list_ascii_of_string (s +:+ t)
  = list_ascii_of_string s ++ list_ascii_of_string t.
Proof.
  induction s as [|a s IH]; [done|].
  change (String a s +:+ t) with (String a (s +:+ t)).
  cbn [list_ascii_of_string]. by rewrite IH.
Qed.

Lemma string_app_assoc (s t u : string) : (s +:+ t) +:+ u = s +:+ t +:+ u.
Proof.
  induction s as [|a s IH]; [done|].
  change ((String a s +:+ t) +:+ u) with (String a ((s +:+ t) +:+ u)).
  by rewrite IH.
Qed.

Lemma pretty_N_go_app (x : N) (s : string) :
  pretty_N_go x s = pretty_N_go x EmptyString +:+ s.
Proof.
  revert s. induction (N.lt_wf_0 x) as [x _ IH]; intros s.
  assert (x = 0 ∨ 0 < x)%N as [->|Hx] by lia; [done|].
  assert (x `div` 10 < x)%N as Hlt by (by apply N.div_lt).
  rewrite (pretty_N_go_step x s), (pretty_N_go_step x EmptyString) by done.
  rewrite (IH _ Hlt (String _ s)), (IH _ Hlt (String _ EmptyString)).
  by rewrite string_app_assoc.
Qed.

(** The digits of a positive number end in its last digit. *)
Lemma pretty_N_go_snoc (x : N) :
  (0 < x)%N →
  list_ascii_of_string (pretty_N_go x EmptyString)
  = list_ascii_of_string (pretty_N_go (x `div` 10) EmptyString)
    ++ [pretty_N_char (x `mod` 10)].
Proof.
  intros Hx. rewrite pretty_N_go_step by done.
  by rewrite pretty_N_go_app, list_ascii_of_string_app.
Qed.

Lemma digit_of_pretty_N_char (d : N) :
  (d < 10)%N → Py.digit_of (pretty_N_char d) = Some (Z.of_N d).
Proof.
  intros Hd.
  assert (d = 0 ∨ d = 1 ∨ d = 2 ∨ d = 3 ∨ d = 4 ∨ d = 5 ∨ d = 6 ∨ d = 7
          ∨ d = 8 ∨ d = 9)%N as Hcases by lia.
  repeat destruct Hcases as [->|Hcases]; try subst d; reflexivity.
Qed.

Lemma digits_go_snoc (l : list ascii) (c : ascii) (acc v d : Z) (b : bool) :
  Py.digits_go acc b l = Some v →
  Py.digit_of c = Some d →
  Py.digits_go acc b (l ++ [c]) = Some (10 * v + d).
Proof.
  revert acc b. induction l as [|a l IH]; intros acc b Hl Hc; simpl in *.
  - destruct b; [|done]. injection Hl as <-. by rewrite Hc.
  - destruct (Py.digit_of a); [by apply IH|].
    destruct (bool_decide (a = "_"%char) && b); [by apply IH|done].
Qed.

(** Reading the digits of a positive number gives the number. *)
Lemma digits_go_pretty_N (x : N) :
  (0 < x)%N →
  Py.digits_go 0 false (list_ascii_of_string (pretty_N_go x EmptyString))
  = Some (Z.of_N x).
Proof.
  induction (N.lt_wf_0 x) as [x _ IH]. intros Hx.
  rewrite pretty_N_go_snoc by done.
  assert (x `mod` 10 < 10)%N as Hmod by (by apply N.mod_lt).
  pose proof (digit_of_pretty_N_char _ Hmod) as Hd.
  pose proof (N.Div0.div_mod x 10) as Hx10.
  destruct (N.eq_0_gt_0_cases (x `div` 10)) as [H0|Hpos].
  - rewrite H0 in Hx10 |- *. rewrite pretty_N_go_0. simpl. rewrite Hd. simpl.
    f_equal. lia.
  - erewrite digits_go_snoc; [|apply IH; [by apply N.div_lt|done]|done].
    f_equal. lia.
Qed.


Lemma digit_char_pretty_N_char (d : N) : (d < 10)%N → digit_char (pretty_N_char d).
Proof. intros Hd. unfold digit_char. by rewrite digit_of_pretty_N_char. Qed.

(** A printed natural number is made of digits. *)
Lemma pretty_N_go_digits (x : N) :
  Forall digit_char (list_ascii_of_string (pretty_N_go x EmptyString)).
Proof.
  induction (N.lt_wf_0 x) as [x _ IH].
  destruct (N.eq_0_gt_0_cases x) as [->|Hx]; [constructor|].
  rewrite pretty_N_go_snoc by done. apply Forall_app. split.
  - apply IH. by apply N.div_lt.
  - repeat constructor. apply digit_char_pretty_N_char. by apply N.mod_lt.
Qed.

Lemma pretty_N_go_nonempty (x : N) :
  (0 < x)%N → list_ascii_of_string (pretty_N_go x EmptyString) ≠ [].
Proof.
  intros Hx. rewrite pretty_N_go_snoc by done. by destruct (list_ascii_of_string _).
Qed.

(** A digit is one of the ten characters. *)
Lemma digit_char_cases (a : ascii) :
  digit_char a →
  a ∈ ["0"; "1"; "2"; "3"; "4"; "5"; "6"; "7"; "8"; "9"]%char.
Proof.
  unfold digit_char.
  destruct a as [[] [] [] [] [] [] [] []]; intros [d Hd];
    try (vm_compute in Hd; discriminate); rewrite !elem_of_cons; auto 11.
Qed.

Lemma digit_not_space (a : ascii) : digit_char a → Py.is_space a = false.
Proof.
  intros Ha%digit_char_cases. rewrite !elem_of_cons, elem_of_nil in Ha.
  repeat destruct Ha as [->|Ha]; try done.
Qed.

Lemma lstrip_digit (a : ascii) (l : list ascii) :
  digit_char a → Py.lstrip (a :: l) = a :: l.
Proof. intros Ha. simpl. by rewrite digit_not_space. Qed.

(** White space is stripped neither from digits nor from signed digits. *)
Lemma strip_digits (p l : list ascii) :
  Forall digit_char l → l ≠ [] → (p = [] ∨ p = ["-"%char]) →
  Py.strip (p ++ l) = p ++ l.
Proof.
  intros Hl Hne Hp. unfold Py.strip.
  assert (Py.lstrip (p ++ l) = p ++ l) as ->.
  { destruct Hp as [-> | ->]; [|reflexivity].
    destruct Hl; [done|]. by apply lstrip_digit. }
  assert (∃ a l', digit_char a ∧ rev (p ++ l) = a :: l') as (a & l' & Ha & Hrev).
  { destruct l as [|a l _] using rev_ind; [done|].
    exists a, (rev (p ++ l)). apply Forall_app in Hl as [_ Ha].
    split; [by inversion Ha|]. by rewrite app_assoc, rev_unit. }
  rewrite Hrev, lstrip_digit, <- Hrev by done.
  apply rev_involutive.
Qed.

Lemma pretty_positive_unfold (p : positive) :
  pretty p = pretty_N_go (N.pos p) EmptyString.
Proof. done. Qed.

(** On plain characters [int] is its parser. *)
Lemma code_points_plain (l : list ascii) :
  Forall plain l → Py.code_points l = Some (N_of_ascii <$> l).
Proof.
  induction 1 as [|a l Ha _ IH]; [done|]. cbn [Py.code_points].
  unfold plain in Ha.
  assert ((N_of_ascii a <? 128)%N = true) as -> by (apply N.ltb_lt; lia).
  by rewrite IH.
Qed.

Lemma to_ascii_plain (l : list ascii) :
  Forall plain l → mapM Py.to_ascii (N_of_ascii <$> l) = Some l.
Proof.
  induction 1 as [|a l Ha _ IH]; [done|]. cbn [fmap list_fmap mapM].
  rewrite IH. unfold Py.to_ascii, plain in *.
  assert ((N_of_ascii a <? 127)%N = true) as -> by (by apply N.ltb_lt).
  by rewrite ascii_N_embedding.
Qed.

Lemma int_plain (s : string) :
  Forall plain (list_ascii_of_string s) →
  Py.int s = Py.int_ascii (list_ascii_of_string s).
Proof.
  intros Hs. unfold Py.int.
  rewrite code_points_plain by done. cbn [mbind option_bind].
  by rewrite to_ascii_plain.
Qed.

Lemma digit_char_plain (a : ascii) : digit_char a → plain a.
Proof.
  intros Ha%digit_char_cases. rewrite !elem_of_cons, elem_of_nil in Ha.
  repeat destruct Ha as [->|Ha]; try done.
Qed.

Lemma str_plain (n : Z) : Forall plain (list_ascii_of_string (Py.str n)).
Proof.
  assert (∀ x, Forall plain (list_ascii_of_string (pretty_N_go x EmptyString)))
    as Hdigits.
  { intros x. eapply Forall_impl; [apply pretty_N_go_digits|].
    apply digit_char_plain. }
  unfold Py.str, pretty, pretty_Z. destruct n as [|p|p].
  - by repeat constructor.
  - apply Hdigits.
  - rewrite list_ascii_of_string_app. apply Forall_app. split; [|apply Hdigits].
    by repeat constructor.
Qed.

(** Reading a printed integer back gives the integer. *)
Lemma int_str (n : Z) : Py.int (Py.str n) = Some n.
Proof.
  rewrite int_plain by apply str_plain.
  unfold Py.str, Py.int_ascii, pretty, pretty_Z.
  destruct n as [|p|p]; [done| |].
  - rewrite pretty_positive_unfold.
    pose proof (pretty_N_go_digits (N.pos p)) as Hdigits.
    pose proof (pretty_N_go_nonempty (N.pos p) eq_refl) as Hne.
    pose proof (digits_go_pretty_N (N.pos p) eq_refl) as Hread.
    pose proof (strip_digits [] _ Hdigits Hne (or_introl eq_refl)) as Hstrip.
    rewrite !app_nil_l in Hstrip. rewrite Hstrip.
    destruct (list_ascii_of_string _) as [|a l]; [done|].
    apply Forall_cons in Hdigits as [Ha%digit_char_cases _].
    rewrite !elem_of_cons, elem_of_nil in Ha.
    repeat destruct Ha as [->|Ha]; try done.
  - rewrite pretty_positive_unfold.
    pose proof (pretty_N_go_digits (N.pos p)) as Hdigits.
    pose proof (pretty_N_go_nonempty (N.pos p) eq_refl) as Hne.
    pose proof (digits_go_pretty_N (N.pos p) eq_refl) as Hread.
    rewrite list_ascii_of_string_app.
    change (list_ascii_of_string "-") with ["-"%char].
    rewrite (strip_digits ["-"%char] _ Hdigits Hne) by auto.
    cbn [app]. by rewrite Hread.
Qed.

(** A printed integer has no underscore, and is all digits when it is not
    negative. *)
Lemma str_no_underscore (n : Z) :
  "_"%char ∉ list_ascii_of_string (Py.str n).
Proof.
  assert (∀ l, Forall digit_char l → "_"%char ∉ l) as Hdigits.
  { intros l Hl Hin. eapply Forall_forall in Hl; [|done]. by destruct Hl. }
  unfold Py.str, pretty, pretty_Z. destruct n as [|p|p].
  - apply Hdigits. simpl. repeat constructor. by eexists.
  - apply Hdigits, pretty_N_go_digits.
  - rewrite list_ascii_of_string_app. apply not_elem_of_app. split.
    + simpl. rewrite not_elem_of_cons. split; [done|apply not_elem_of_nil].
    + apply Hdigits, pretty_N_go_digits.
Qed.

Lemma str_digits (n : Z) :
  0 ≤ n →
  Forall digit_char (list_ascii_of_string (Py.str n))
  ∧ list_ascii_of_string (Py.str n) ≠ [].
Proof.
  intros Hn. unfold Py.str, pretty, pretty_Z. destruct n as [|p|p]; [| |lia].
  - split; [|done]. simpl. repeat constructor. by eexists.
  - split; [apply pretty_N_go_digits|by apply pretty_N_go_nonempty].
Qed.

(** ** Splitting callback data *)

Lemma string_of_rev_app (acc : list ascii) (s : string) :
  string_of_list_ascii (rev acc ++ list_ascii_of_string s)
  = string_of_list_ascii (rev acc) +:+ s.
Proof.
  generalize (rev acc). intros l. induction l as [|a l IH]; simpl.
  - apply string_of_list_ascii_of_string.
  - by rewrite IH.
Qed.

(** With no split left, the rest of the string is the last piece. *)
Lemma split_go_exhausted (sep : string) (acc : list ascii) (s : string) :
  Py.split_go sep (Some O) O acc s
  = [string_of_list_ascii (rev acc) +:+ s].
Proof.
  rewrite <- string_of_rev_app. revert acc.
  induction s as [|a s IH]; intros acc; simpl.
  - by rewrite app_nil_r.
  - rewrite IH. simpl. by rewrite <- app_assoc.
Qed.

Lemma prefix_underscore (a : ascii) (s : string) :
  "_"%char ≠ a → String.prefix "_" (String a s) = false.
Proof. intros Ha. cbn [String.prefix]. by destruct (ascii_dec "_" a). Qed.

Lemma prefix_empty (s : string) : String.prefix EmptyString s = true.
Proof. by destruct s. Qed.

(** A string without underscore is one piece. *)
Lemma split_go_no_underscore (n : option nat) (acc : list ascii) (s : string) :
  "_"%char ∉ list_ascii_of_string s →
  Py.split_go "_" n O acc s = [string_of_list_ascii (rev acc) +:+ s].
Proof.
  rewrite <- string_of_rev_app. revert acc.
  induction s as [|a s IH]; intros acc Hs.
  - simpl. by rewrite app_nil_r.
  - cbn [list_ascii_of_string] in Hs. apply not_elem_of_cons in Hs as [Ha Hs].
    cbn [Py.split_go]. rewrite prefix_underscore, andb_false_r, IH by done.
    simpl. by rewrite <- app_assoc.
Qed.

(** The data of the buttons and the text of the view command, split. *)
Lemma split_action (action t : string) :
  action ∈ ["reply"; "resolve"; "delete"] →
  Py.split_max "_" 2 ("admin_" +:+ action +:+ "_" +:+ t) = ["admin"; action; t].
Proof.
  rewrite !elem_of_cons, elem_of_nil. unfold Py.split_max.
  intros [->|[->|[->|[]]]]; cbv [String.append]; simpl;
    by rewrite prefix_empty, split_go_exhausted.
Qed.


Lemma split_view_button (t : string) :
  "_"%char ∉ list_ascii_of_string t →
  last (Py.split "_" ("admin_view_" +:+ t)) = Some t.
Proof.
  intros Ht. unfold Py.split. cbv [String.append]. simpl.
  by rewrite prefix_empty, split_go_no_underscore.
Qed.

Lemma split_view_command (t : string) :
  "_"%char ∉ list_ascii_of_string t →
  Py.split "_" ("/view_" +:+ t) !! 1%nat = Some t.
Proof.
  intros Ht. unfold Py.split. cbv [String.append]. simpl.
  by rewrite prefix_empty, split_go_no_underscore.
Qed.

(** ** Handlers that only talk *)

Lemma set_outbox_nil (w : World) : set_outbox (outbox w ++ []) w = w.
Proof. destruct w. unfold set_outbox. simpl. by rewrite app_nil_r. Qed.

Lemma set_outbox_app (w : World) (l1 l2 : list (Call * bool)) :
  set_outbox (outbox (set_outbox (outbox w ++ l1) w) ++ l2)
    (set_outbox (outbox w ++ l1) w)
  = set_outbox (outbox w ++ l1 ++ l2) w.
Proof. unfold set_outbox. simpl. by rewrite <- app_assoc. Qed.

Lemma talks_ret {A} (a : A) : talks (mret a : M A).
Proof. intros w. exists a, []. by rewrite set_outbox_nil. Qed.

Lemma talks_pass : talks pass.
Proof. apply talks_ret. Qed.

Lemma talks_get {A} (g : World → A) : talks (get g).
Proof. intros w. exists (g w), []. by rewrite set_outbox_nil. Qed.

Lemma talks_call (c : Call) : talks (call c).
Proof. intros w. by exists (), [(c, true)]. Qed.

Lemma talks_try_call env (c : Call) : talks (try_call env c).
Proof. intros w. by exists (gateway env c), [(c, gateway env c)]. Qed.

Lemma talks_bind {A B} (m : M A) (k : A → M B) :
  talks m → (∀ a, talks (k a)) → talks (m ≫= k).
Proof.
  intros Hm Hk w. destruct (Hm w) as (a & calls & Hw).
  destruct (Hk a (set_outbox (outbox w ++ calls) w)) as (b & calls' & Hw').
  exists b, (calls ++ calls'). unfold mbind, M_bind. rewrite Hw, Hw'.
  by rewrite set_outbox_app.
Qed.

Ltac talks_step :=
  first
    [ apply talks_ret | apply talks_pass | apply talks_get | apply talks_call
    | apply talks_try_call
    | apply talks_bind; [|intros ?]
    | match goal with
      | |- talks (match ?x with _ => _ end) => destruct x
      | |- talks (if ?x then _ else _) => destruct x
      | |- talks (let '(_, _) := ?p in _) => destruct p
      | |- talks (let _ := _ in _) => lazy zeta
      end ].

Lemma talks_display_feedback_page u p : talks (display_feedback_page u p).
Proof. unfold display_feedback_page. repeat talks_step. Qed.

Lemma talks_notify env i : talks (notify_admin_new_feedback env i).
Proof. unfold notify_admin_new_feedback. repeat talks_step. Qed.

Lemma talks_send_attached_photo env chat i fb :
  talks (send_attached_photo env chat i fb).
Proof. unfold send_attached_photo. repeat talks_step. Qed.

(** ** What [display_single_feedback] shows *)

(** When the deletion passes, the handler goes on. *)
Lemma delete_previous_message_passes env w :
  delete_passes env →
  delete_previous_message env w
  = (Ret (),
     set_outbox (outbox w ++ [(delete_message, gateway env delete_message)]) w).
Proof.
  intros Hpass. unfold delete_previous_message, try_call. repeat run_bind.
  destruct Hpass as [-> | (e & He & Hfound)]; [done|].
  destruct (gateway env delete_message); [done|]. by rewrite He, Hfound.
Qed.

(** Any other failure of the deletion stops the handler with the error of
    the gateway. *)
Lemma delete_previous_message_stops env w :
  ¬ delete_passes env →
  delete_previous_message env w
  = (Raise (Gateway (gateway_error env delete_message)),
     set_outbox (outbox w ++ [(delete_message, false)]) w).
Proof.
  intros Hstop. unfold delete_previous_message, try_call. repeat run_bind.
  destruct (gateway env delete_message) eqn:Hok.
  { exfalso. apply Hstop. by left. }
  destruct (gateway_error env delete_message) as [e|e] eqn:He; [|done].
  destruct (Py.contains _ e) eqn:Hfound; [|done].
  exfalso. apply Hstop. right. by exists e.
Qed.

(** For a row of the table, and a deletion that passes when there is one,
    the last message sent is the details of the row with the action
    keyboard of the row.  Before it come the deletion, for a button, and
    what is sent about the picture, for a row that has one. *)
Lemma display_single_feedback_shows env u i fb w :
  db w !! i = Some fb →
  (is_callback_query u = true → delete_passes env) →
  ∃ calls,
    display_single_feedback env u i w
    = (Ret (),
       set_outbox
         (outbox w
            ++ (if is_callback_query u
                then [(delete_message, gateway env delete_message)] else [])
            ++ calls
            ++ [(send_message (chat_id u) (details_text i fb)
                   (Some (get_admin_feedback_actions_keyboard i (status fb))),
                 true)]) w)
    ∧ (Py.truthy (photo_file_id fb) = None → calls = []).
Proof.
  intros Hfb Hpass. unfold display_single_feedback, get. run_bind.
  rewrite Hfb. unfold mbind at 1, M_bind at 1.
  set (calls0 := if is_callback_query u
                 then [(delete_message, gateway env delete_message)] else []).
  assert ((if is_callback_query u then delete_previous_message env else pass) w
          = (Ret (), set_outbox (outbox w ++ calls0) w)) as ->.
  { subst calls0. destruct (is_callback_query u).
    - by rewrite delete_previous_message_passes by auto.
    - by rewrite set_outbox_nil. }
  cbn iota. unfold mbind at 1, M_bind at 1.
  destruct (talks_send_attached_photo env (chat_id u) i fb
              (set_outbox (outbox w ++ calls0) w)) as ([] & calls1 & Hphoto).
  rewrite Hphoto. cbn iota. exists calls1. split.
  - unfold call, modify, set_outbox. simpl. by rewrite <- !app_assoc.
  - intros Hnone.
    unfold send_attached_photo in Hphoto. rewrite Hnone in Hphoto.
    unfold pass in Hphoto. injection Hphoto as Hphoto.
    rewrite <- (app_nil_r (outbox w ++ calls0)) in Hphoto at 1.
    by apply app_inv_head in Hphoto.
Qed.

(** When the deletion stops the handler, nothing is shown. *)
Lemma display_single_feedback_stops env u i fb w :
  db w !! i = Some fb →
  is_callback_query u = true →
  ¬ delete_passes env →
  display_single_feedback env u i w
  = (Raise (Gateway (gateway_error env delete_message)),
     set_outbox (outbox w ++ [(delete_message, false)]) w).
Proof.
  intros Hfb Hu Hstop. unfold display_single_feedback, get. run_bind.
  rewrite Hfb, Hu. unfold mbind at 1, M_bind at 1.
  by rewrite delete_previous_message_stops.
Qed.

(** ** The buttons of the moderation menu lead where they say *)


(** What [admin_feedback_action_callback] reads from the data of an action
    button. *)
Lemma action_data_parsed env user chat photo action i w :
  action ∈ ["reply"; "resolve"; "delete"] →
  let u := press user chat
             {| data := "admin_" +:+ action +:+ "_" +:+ Py.str i;
                message_photo := photo |} in
  admin_feedback_action_callback env u w
  = (if bool_decide (action = "resolve") then
       modify (λ w, set_db (alter (set_status "resolved") i (db w)) w);;
       reply_text u
         ("✅ Feedback #" +:+ Py.str i +:+ " has been marked as resolved.")
         None;;
       display_single_feedback env u i;;
       mret None
     else if bool_decide (action = "delete") then
       modify (λ w, set_db (delete i (db w)) w);;
       call (edit_message_text
               ("🗑️ Feedback #" +:+ Py.str i +:+ " has been deleted.") None);;
       mret None
     else
       update_user_data u (with_reply_to i);;
       reply_text u
         ("✍️ Please send your reply for feedback #" +:+ Py.str i
            +:+ "." +:+ nl +:+ nl +:+
          "The user will receive this message directly. To cancel, type /cancel.")
         None;;
       mret (Some ADMIN_REPLY))
      (set_outbox (outbox w ++ [(answer, true)]) w).
Proof.
  intros Haction u. unfold admin_feedback_action_callback.
  unfold callback_query. cbn [content u press]. do 2 run_bind.
  cbn [data]. rewrite split_action by done. cbn [drop].
  do 2 run_bind. rewrite int_str. run_bind.
  rewrite !elem_of_cons, elem_of_nil in Haction.
  destruct Haction as [->|[->|[->|[]]]]; reflexivity.
Qed.


(** The ten ASCII digits are decimal digits. *)
Lemma decimal_digit_char (a : ascii) :
  digit_char a → is_Some (Py.decimal (N_of_ascii a)).
Proof.
  intros Ha%digit_char_cases. rewrite !elem_of_cons, elem_of_nil in Ha.
  repeat destruct Ha as [->|Ha]; try done; by eexists.
Qed.

Lemma digits_to_end_digits (b : bool) (l : list ascii) :
  Forall digit_char l →
  filters.digits_to_end b (N_of_ascii <$> l) = b || bool_decide (l ≠ []).
Proof.
  intros Hl. revert b. induction Hl as [|a l Ha _ IH]; intros b.
  - simpl. by rewrite orb_false_r.
  - cbn [fmap list_fmap filters.digits_to_end].
    rewrite bool_decide_true by by apply decimal_digit_char.
    rewrite IH. simpl. by rewrite orb_true_r.
Qed.

(** The text of a view link passes the filter of the command. *)
Lemma view_regex_str (i : Z) :
  0 ≤ i →
  filters.view_regex {| text := Some ("/view_" +:+ Py.str i); photo := [];
                        caption := None |} = true.
Proof.
  intros Hi. destruct (str_digits i Hi) as [Hdigits Hne].
  unfold filters.view_regex. cbn [text mbind option_bind].
  assert (filters.strip_prefix "/view_" ("/view_" +:+ Py.str i)
          = Some (Py.str i)) as -> by done.
  rewrite code_points_plain by apply str_plain.
  rewrite digits_to_end_digits by done. by apply bool_decide_true.
Qed.

(** X2: the view links open the item they name.  For a row [i] of the
    table, the text [/view_i] that the list prints passes the filter of the
    view command, and the command sends the details of row [i] with the
    action keyboard of row [i] last, after what it sends about the picture
    when the row has one.  The button of the notification for row [i]
    answers the query, deletes the message of the button and sends the same;
    when that deletion fails with anything but the request that is passed
    over, the handler stops with that error and the details are not sent. *)
Theorem view_links_open_their_item env user chat photo i fb w :
  0 ≤ i →
  db w !! i = Some fb →
  let m := {| text := Some ("/view_" +:+ Py.str i); photo := [];
              caption := None |} in
  let typed := say user chat m in
  let pressed := press user chat {| data := "admin_view_" +:+ Py.str i;
                                    message_photo := photo |} in
  let details :=
    (send_message chat (details_text i fb)
       (Some (get_admin_feedback_actions_keyboard i (status fb))), true) in
  filters.view_regex m = true
  ∧ (∃ calls,
       admin_view_command env typed w
       = (Ret None, set_outbox (outbox w ++ calls ++ [details]) w)
       ∧ (Py.truthy (photo_file_id fb) = None → calls = []))
  ∧ (delete_passes env →
     ∃ calls,
       admin_view_callback env pressed w
       = (Ret None,
          set_outbox
            (outbox w
               ++ [(answer, true);
                   (delete_message, gateway env delete_message)]
               ++ calls ++ [details]) w)
       ∧ (Py.truthy (photo_file_id fb) = None → calls = []))
  ∧ (¬ delete_passes env →
     admin_view_callback env pressed w
     = (Raise (Gateway (gateway_error env delete_message)),
        set_outbox (outbox w ++ [(answer, true); (delete_message, false)]) w)).
Proof.
  intros Hi Hfb m typed pressed details.
  pose proof (str_no_underscore i) as Hno.
  split; [by apply view_regex_str|]. split; [|split].
  - unfold admin_view_command, message_of. cbn [content typed say].
    do 2 run_bind. cbn [text m].
    rewrite split_view_command by done.
    change (Some (Py.str i) ≫= Py.int) with (Py.int (Py.str i)).
    rewrite int_str.
    destruct (display_single_feedback_shows env typed i fb w Hfb)
      as (calls & Hshown & Hcalls); [done|].
    exists calls. split; [|done].
    unfold mbind at 1, M_bind at 1. by rewrite Hshown.
  - intros Hpass.
    unfold admin_view_callback, callback_query. cbn [content pressed press].
    do 2 run_bind. cbn [data]. rewrite split_view_button by done.
    cbn [mbind option_bind]. rewrite int_str. run_bind.
    unfold mbind at 1, M_bind at 1.
    match goal with
    | |- context [display_single_feedback ?e ?u ?j ?w1] =>
        destruct (display_single_feedback_shows e u j fb w1 Hfb (λ _, Hpass))
          as (calls & Hshown & Hcalls)
    end.
    exists calls. split; [|done]. rewrite Hshown.
    unfold set_outbox. simpl. by rewrite <- !app_assoc.
  - intros Hstop.
    unfold admin_view_callback, callback_query. cbn [content pressed press].
    do 2 run_bind. cbn [data]. rewrite split_view_button by done.
    cbn [mbind option_bind]. rewrite int_str. run_bind.
    unfold mbind at 1, M_bind at 1.
    rewrite (display_single_feedback_stops _ _ _ fb) by done.
    unfold set_outbox. simpl. by rewrite <- !app_assoc.
Qed.

(** ** The list: order and pages *)

(** The order of the list as a relation: [r] is later than [r'], or of the
    same time with an id that is not larger. *)
Lemma comes_before_true (r r' : Z * Feedback) :
  comes_before r r' = true →
  not_older r r'
  ∧ (datetime_key (timestamp r.2) = datetime_key (timestamp r'.2) →
     r.1 ≤ r'.1).
Proof.
  unfold comes_before, not_older.
  repeat case_bool_decide; simpl; intros; try done; lia.
Qed.

Lemma comes_before_false (r r' : Z * Feedback) :
  comes_before r r' = false →
  not_older r' r
  ∧ (datetime_key (timestamp r'.2) = datetime_key (timestamp r.2) →
     r'.1 ≤ r.1).
Proof.
  unfold comes_before, not_older.
  repeat case_bool_decide; simpl; intros; try done; lia.
Qed.

Lemma insert_by_sorted r l :
  StronglySorted
    (λ r r', not_older r r'
             ∧ (datetime_key (timestamp r.2) = datetime_key (timestamp r'.2) →
                r.1 ≤ r'.1)) l →
  StronglySorted
    (λ r r', not_older r r'
             ∧ (datetime_key (timestamp r.2) = datetime_key (timestamp r'.2) →
                r.1 ≤ r'.1)) (insert_by comes_before r l).
Proof.
  induction 1 as [|r' l Hl IH Hr']; simpl; [by repeat constructor|].
  destruct (comes_before r r') eqn:Hbefore.
  - apply comes_before_true in Hbefore as [Hnot Htie].
    constructor; [by constructor|]. constructor; [done|].
    eapply Forall_impl; [done|]. unfold not_older in *. simpl.
    intros r'' [? ?]. split; [lia|]. intros. lia.
  - apply comes_before_false in Hbefore.
    constructor; [done|]. rewrite insert_by_perm. by constructor.
Qed.

Lemma order_by_timestamp_desc_sorted l :
  StronglySorted
    (λ r r', not_older r r'
             ∧ (datetime_key (timestamp r.2) = datetime_key (timestamp r'.2) →
                r.1 ≤ r'.1)) (order_by_timestamp_desc l).
Proof.
  unfold order_by_timestamp_desc, sort_by.
  induction l as [|r l IH]; simpl; [constructor|by apply insert_by_sorted].
Qed.

Lemma order_by_timestamp_desc_perm l : order_by_timestamp_desc l ≡ₚ l.
Proof. apply sort_by_perm. Qed.

(** The rows of page [p] are the rows at the positions [5p .. 5p+4] of the
    ordered list. *)
Lemma elem_of_page_rows d p r :
  0 ≤ p →
  r ∈ page_rows d p
  ↔ ∃ j : nat,
      order_by_timestamp_desc (map_to_list d) !! j = Some r
      ∧ 5 * p ≤ Z.of_nat j < 5 * p + 5.
Proof.
  intros Hp. unfold page_rows, FEEDBACK_PER_PAGE.
  rewrite list_elem_of_lookup. split.
  - intros [k Hk]. apply lookup_take_Some in Hk as [Hk Hlt].
    rewrite lookup_drop in Hk. eexists. split; [done|]. lia.
  - intros (j & Hj & Hrange). exists (j - Z.to_nat (p * 5))%nat.
    apply lookup_take_Some. split; [|lia]. rewrite lookup_drop.
    rewrite <- Hj. f_equal. lia.
Qed.

Lemma sorted_lookup {A} (R : relation A) (l : list A) (j k : nat) (x y : A) :
  StronglySorted R l → (j < k)%nat → l !! j = Some x → l !! k = Some y →
  R x y.
Proof.
  intros Hl. revert j k. induction Hl as [|a l Hl IH Ha]; intros j k Hjk Hj Hk.
  - by rewrite lookup_nil in Hj.
  - destruct k as [|k]; [lia|]. destruct j as [|j]; simpl in *.
    + injection Hj as <-. eapply Forall_forall in Ha; [done|].
      by eapply list_elem_of_lookup_2.
    + apply (IH j k); done || lia.
Qed.

(** The ordered rows are the rows of the table, each once. *)
Lemma ordered_rows_complete (d : gmap Z Feedback) :
  NoDup (order_by_timestamp_desc (map_to_list d))
  ∧ ∀ i fb, (i, fb) ∈ order_by_timestamp_desc (map_to_list d)
            ↔ d !! i = Some fb.
Proof.
  pose proof (order_by_timestamp_desc_perm (map_to_list d)) as Hperm. split.
  - rewrite Hperm. apply NoDup_map_to_list.
  - intros i fb. rewrite Hperm. apply elem_of_map_to_list.
Qed.

(** What [display_feedback_page] sends for a page that has rows: the
    heading with the number of the page, and the entries of its rows. *)
Lemma display_feedback_page_rows u p w :
  page_rows (db w) p ≠ [] →
  ∃ markup,
    display_feedback_page u p w
    = (Ret (),
       set_outbox
         (outbox w
            ++ [(let text :=
                   "📬 <b>Feedback List</b> (Page " +:+ Py.str (p + 1) +:+ ")"
                     +:+ nl +:+ nl +:+
                   foldr (λ r t, list_entry r +:+ t) EmptyString
                     (page_rows (db w) p) in
                 if is_callback_query u then edit_message_text text markup
                 else send_message (chat_id u) text markup, true)]) w).
Proof.
  intros Hrows. unfold display_feedback_page, get. run_bind.
  unfold feedback_page. destruct (page_rows (db w) p) as [|r rows]; [done|].
  eexists. by destruct (is_callback_query u).
Qed.

(** X3: the list shows every stored item once, latest first.  There is one
    listing of the rows of the table, each row once, in which no row comes
    before a later one and rows of one time come by their ids, such that
    every page that is not empty is sent as the heading with the number of
    the page followed by the entries of its five rows of that listing: page
    0 has the rows 0 to 4, page 1 the rows 5 to 9, and so on. *)
Theorem list_order_is_complete_and_latest_first (u : Update) (w : World) :
  ∃ listing,
    listing ≡ₚ map_to_list (db w)
    ∧ (∀ j k r r', (j < k)%nat →
         listing !! j = Some r → listing !! k = Some r' →
         not_older r r'
         ∧ (datetime_key (timestamp r.2) = datetime_key (timestamp r'.2) →
            r.1 < r'.1))
    ∧ ∀ p, 0 ≤ p →
        let rows := take 5 (drop (Z.to_nat (5 * p)) listing) in
        let text :=
          "📬 <b>Feedback List</b> (Page " +:+ Py.str (p + 1) +:+ ")"
            +:+ nl +:+ nl +:+
          foldr (λ r t, list_entry r +:+ t) EmptyString rows in
        rows ≠ [] →
        ∃ markup,
          display_feedback_page u p w
          = (Ret (),
             set_outbox
               (outbox w
                  ++ [(if is_callback_query u
                       then edit_message_text text markup
                       else send_message (chat_id u) text markup, true)]) w).
Proof.
  exists (order_by_timestamp_desc (map_to_list (db w))).
  pose proof (order_by_timestamp_desc_perm (map_to_list (db w))) as Hperm.
  split; [done|]. split.
  - intros j k r r' Hjk Hj Hk.
    destruct (sorted_lookup _ _ j k r r'
                (order_by_timestamp_desc_sorted (map_to_list (db w)))
                Hjk Hj Hk) as [Hnot Htie].
    split; [done|]. intros Hsame. specialize (Htie Hsame).
    assert (r.1 ≠ r'.1); [|lia]. intros Hid.
    assert (NoDup (order_by_timestamp_desc (map_to_list (db w))).*1) as Hnodup.
    { rewrite Hperm. apply NoDup_fst_map_to_list. }
    assert (j = k); [|lia].
    eapply NoDup_lookup; [done| |].
    + rewrite list_lookup_fmap, Hj. done.
    + rewrite list_lookup_fmap, Hk. simpl. by rewrite Hid.
  - intros p Hp rows text Hrows. subst text rows.
    assert (page_rows (db w) p
            = take 5 (drop (Z.to_nat (5 * p))
                        (order_by_timestamp_desc (map_to_list (db w))))) as Hpage.
    { unfold page_rows, FEEDBACK_PER_PAGE. do 2 f_equal. lia. }
    rewrite <- Hpage in *.
    destruct (display_feedback_page_rows u p w Hrows) as [markup Hsent].
    exists markup. rewrite Hsent. by destruct (is_callback_query u).
Qed.

(** X4: every stored item is on exactly one page of the list.  For a row of
    the table there is one page whose rows it is among; that page is sent as
    the heading followed by the entries of its rows, at most five. *)
Theorem every_item_on_one_page (u : Update) (w : World) (i : Z) (fb : Feedback) :
  db w !! i = Some fb →
  ∃ p, 0 ≤ p
       ∧ (i, fb) ∈ page_rows (db w) p
       ∧ (length (page_rows (db w) p) ≤ 5)%nat
       ∧ (∀ q, 0 ≤ q → (i, fb) ∈ page_rows (db w) q → q = p)
       ∧ ∃ markup,
           display_feedback_page u p w
           = (Ret (),
              set_outbox
                (outbox w
                   ++ [(let text :=
                          "📬 <b>Feedback List</b> (Page " +:+ Py.str (p + 1)
                            +:+ ")" +:+ nl +:+ nl +:+
                          foldr (λ r t, list_entry r +:+ t) EmptyString
                            (page_rows (db w) p) in
                        if is_callback_query u
                        then edit_message_text text markup
                        else send_message (chat_id u) text markup, true)]) w).
Proof.
  intros Hfb. destruct (ordered_rows_complete (db w)) as [Hnodup Hin].
  apply Hin in Hfb. apply list_elem_of_lookup in Hfb as [j Hj].
  pose proof (Z.div_mod (Z.of_nat j) 5 ltac:(lia)) as Hdiv.
  pose proof (Z.mod_pos_bound (Z.of_nat j) 5 ltac:(lia)) as Hmod.
  assert (0 ≤ Z.of_nat j `div` 5) as Hpos by (apply Z.div_pos; lia).
  assert ((i, fb) ∈ page_rows (db w) (Z.of_nat j `div` 5)) as Hon.
  { apply elem_of_page_rows; [done|]. exists j. split; [done|]. lia. }
  exists (Z.of_nat j `div` 5). split; [done|]. split; [done|].
  split; [|split].
  - unfold page_rows, FEEDBACK_PER_PAGE. rewrite length_take. lia.
  - intros q Hq (k & Hk & Hrange)%elem_of_page_rows; [|done].
    assert (k = j) as -> by (by eapply NoDup_lookup). lia.
  - apply display_feedback_page_rows. intros Hnil. rewrite Hnil in Hon.
    by apply elem_of_nil in Hon.
Qed.



(** ** What no update does *)

(** Registration passes the gate only for the registered admin, and then
    writes that same id again; a write that fails after the file was opened
    leaves no admin. *)
Lemma register_keeps_admin env u w :
  let w' := (register_admin_command env u w).2 in
  registered_admin w' = registered_admin w
  ∨ (config_write env = truncated
     ∧ registered_admin w = Some (Py.str (id (effective_user u)))
     ∧ admin_config_file w' = None).
Proof.
  unfold registered_admin.
  destruct (decide (default ∅ (admin_config_file w) !! "admin_id"
                    = Some (Py.str (id (effective_user u))))) as [He|Hne].
  - unfold register_admin_command. rewrite admin_only_admits by done.
    unfold message_of. destruct (content u); [|by left].
    unfold load_admin_config, get, mbind, M_bind, mret, M_ret.
    cbn beta iota. rewrite He.
    destruct (Py.truthy _) as [a|]; [destruct (bool_decide _)|];
      unfold save_admin_config; try destruct (config_write env) eqn:Hwrite;
      cbn; rewrite ?lookup_insert_eq; auto.
  - unfold register_admin_command. rewrite admin_only_denies by done. by left.
Qed.

(** X6: no update registers a first admin or hands the role to another
    user.  Whatever the update and whatever the gateway and the file system
    do, the admin id of the configuration file after the update is the one
    before it, with one exception: when the registered admin registers
    again and the write fails after the file was opened, the file is left
    unreadable and no admin is registered any more. *)
Theorem admin_identity_never_changes env u w :
  let w' := (process_update env u w).2 in
  registered_admin w' = registered_admin w
  ∨ (config_write env = truncated
     ∧ registered_admin w = Some (Py.str (id (effective_user u)))
     ∧ admin_config_file w' = None).
Proof.
  apply (dispatch_steps_own_key
           (λ w w', registered_admin w' = registered_admin w
                    ∨ (config_write env = truncated
                       ∧ registered_admin w
                         = Some (Py.str (id (effective_user u)))
                       ∧ admin_config_file w' = None)));
    [by left|].
  eapply Forall_impl.
  { apply (frame_handlers_apart admin_config_file env u); try done.
    intros table set_table Htable. exact Htable. }
  intros b. apply slot_ok_impl.
  - intros cb [-> | Hkeeps] w0.
    + apply register_keeps_admin.
    + left. unfold registered_admin. by rewrite (Hkeeps w0).
  - intros table set_table [[-> ->]|[[-> ->]|[-> ->]]] ns w0 w' Hstep; exact Hstep.
Qed.


(** ** Updates no conversation takes *)

Lemma first_match_none hs u :
  Forall (λ h, check_update h u = false) hs → first_match hs u = None.
Proof.
  induction 1 as [|h hs Hh _ IH]; [done|].
  by rewrite first_match_cons, Hh.
Qed.

Lemma conversation_check_none c st u :
  Forall (λ h, check_update h u = false) (entry_points c) →
  map_Forall (λ _ hs, Forall (λ h, check_update h u = false) hs) (states c) →
  Forall (λ h, check_update h u = false) (fallbacks c) →
  conversation_check c st u = None.
Proof.
  intros He Hs Hf. destruct st as [s|]; simpl; [|by apply first_match_none].
  rewrite (first_match_none (default [] _)), first_match_none; [done..|].
  destruct (states c !! s) as [hs|] eqn:Hlookup; simpl; [|done].
  by apply (Hs s).
Qed.

Lemma command_of_no_text (m : Message) :
  Py.truthy (text m) = None → command_of m = None.
Proof.
  unfold command_of. by destruct (text m) as [[|a s]|].
Qed.

(** X8: [/start] only greets.  The command is taken by the first handler of
    the table, before any conversation sees it: the sender gets one
    message (the admin menu for the registered admin, the welcome with the
    start button for everybody else) and nothing else changes; a dialogue
    the sender is in stays where it is, with its draft, although
    [start_command] returns [ConversationHandler.END]. *)
Theorem start_only_greets env user chat m w :
  command_of m = Some "start" →
  process_update env (say user chat m) w
  = (None,
     set_outbox
       (outbox w
          ++ [(if bool_decide (registered_admin w = Some (Py.str (id user)))
               then send_message chat admin_menu None
               else send_message chat
                      "Welcome! Click the button below to leave feedback."
                      (Some [[button "📝 Start New Feedback" "start_feedback"]]),
               true)]) w).
Proof.
  intros Hcmd. unfold process_update, handlers. cbn [dispatch].
  cbn [check_update say content]. rewrite Hcmd, bool_decide_true by done.
  cbn [callback_of]. unfold start_command, load_admin_config, get.
  run_bind. unfold registered_admin.
  destruct (decide (default ∅ (admin_config_file w) !! "admin_id"
                    = Some (Py.str (id user)))) as [He|Hne].
  - rewrite (bool_decide_true (_ = Some _)) by done.
    rewrite (bool_decide_true (Some _ = _)) by done.
    rewrite bool_decide_true; [done|].
    intros Hempty. by rewrite Hempty, lookup_empty in He.
  - rewrite (bool_decide_false (_ = Some _)) by done.
    rewrite (bool_decide_false (Some _ = _)) by done.
    by rewrite andb_false_r.
Qed.

Ltac handlers_false :=
  match goal with
  | |- map_Forall _ (<[_ := _]> _) => apply map_Forall_insert_2
  | |- map_Forall _ ∅ => apply map_Forall_empty
  | |- Forall _ (_ :: _) => apply Forall_cons_2
  | |- Forall _ [] => apply Forall_nil_2
  end.

(** X9: a message with neither text nor photo (a sticker, a voice note, a
    location, ...) is taken by no handler, whatever dialogue the sender is
    in: nothing is sent and nothing changes.  So no such message gets to
    [get_feedback_content_handler], whose reply to an unsupported message
    is not reached through the dispatcher. *)
Theorem message_without_text_or_photo_is_ignored env user chat m w :
  Py.truthy (text m) = None →
  photo m = [] →
  process_update env (say user chat m) w = (None, w).
Proof.
  intros Htext Hphoto.
  assert (Hcmd : ∀ c cb, check_update (CommandHandler c cb) (say user chat m) = false).
  { intros c cb. cbn [check_update say content]. by rewrite command_of_no_text. }
  assert (HTEXT : filters.TEXT m = false).
  { unfold filters.TEXT. rewrite Htext. apply bool_decide_false. intros [? [=]]. }
  assert (HPHOTO : filters.PHOTO m = false).
  { unfold filters.PHOTO. rewrite Hphoto. apply bool_decide_false. intros H. by apply H. }
  assert (Hview : filters.view_regex m = false).
  { unfold filters.view_regex. destruct (text m) as [[|a s]|]; [reflexivity|discriminate|reflexivity]. }
  unfold process_update, handlers. cbn [dispatch]. rewrite !Hcmd.
  assert (Hmsg : ∀ cb, check_update (MessageHandler text_not_command cb)
                           (say user chat m) = false).
  { intros cb. cbn [check_update say content]. unfold text_not_command.
    by rewrite HTEXT. }
  assert (Hquery : ∀ p cb, check_update (CallbackQueryHandler p cb)
                             (say user chat m) = false) by done.
  rewrite (conversation_check_none feedback_conv_handler).
  2:{ repeat constructor. }
  2:{ cbn [states feedback_conv_handler].
      repeat handlers_false; try apply Hquery.
      cbn [check_update say content]. by rewrite HTEXT, HPHOTO. }
  2:{ cbn [fallbacks feedback_conv_handler]. repeat constructor. apply Hcmd. }
  rewrite (conversation_check_none admin_reply_conv_handler).
  2:{ repeat constructor. }
  2:{ cbn [states admin_reply_conv_handler].
      repeat handlers_false; apply Hmsg. }
  2:{ cbn [fallbacks admin_reply_conv_handler]. repeat constructor. apply Hcmd. }
  rewrite (conversation_check_none admin_broadcast_conv_handler).
  2:{ cbn [entry_points admin_broadcast_conv_handler]. repeat constructor. apply Hcmd. }
  2:{ cbn [states admin_broadcast_conv_handler].
      repeat handlers_false; apply Hmsg. }
  2:{ cbn [fallbacks admin_broadcast_conv_handler]. repeat constructor. apply Hcmd. }
  cbn [check_update say content]. by rewrite Hview.
Qed.

(** ** Error branches of the feedback dialogue *)

(** X10: when the commit of a submission fails nothing is stored, the user is
    told of a database error and the dialogue ends; the draft is not
    cleared and stays in the session of the user. *)
Theorem failed_commit_keeps_draft env user chat q c r w :
  feedback_conv w !! (chat, id user) = Some CONFIRM_SUBMISSION →
  starts_with "confirm_" (data q) = true →
  data q ≠ "confirm_no" →
  feedback_category (session w (id user)) = Some c →
  feedback_rating (session w (id user)) = Some r →
  commit_ok env = false →
  process_update env (press user chat q) w
  = (None,
     set_feedback_conv (delete (chat, id user) (feedback_conv w))
       (set_outbox
          (outbox w
             ++ [(answer, true); (delete_message, true);
                 (send_message chat
                    "❌ A database error occurred. Please try again later."
                    None, true)]) w)).
Proof.
  intros Hconv Hstarts Hdata Hcat Hrating Hcommit.
  destruct feedback_states_lookup as (_ & _ & _ & Hs).
  erewrite feedback_conv_routes; [|done|].
  2:{ change (conversation_key (press user chat q)) with (chat, id user).
      rewrite Hconv. unfold conversation_check. rewrite Hs. cbn [default].
      unfold Datatypes.id.
      rewrite first_match_cons. simpl. rewrite Hstarts. reflexivity. }
  cbn [callback_of].
  unfold confirm_submission_callback. cbn [callback_query press content].
  do 2 run_bind. rewrite bool_decide_false by done. rewrite Hcommit.
  run_bind. change (session (set_outbox _ w) _) with (session w (id user)).
  rewrite Hcat. run_bind. rewrite Hrating. repeat run_bind.
  unfold set_feedback_conv, set_outbox. simpl.
  by rewrite <- !app_assoc.
Qed.

Lemma split_go_not_nil sep n k acc s : Py.split_go sep n k acc s ≠ [].
Proof.
  revert n k acc. induction s as [|a s IH]; intros n k acc; simpl; [done|].
  destruct k; [|apply IH].
  destruct (_ && _); [done|apply IH].
Qed.

(** Data that starts with the separator has a second piece: the index
    [1] is never out of range. *)
Lemma split_prefix_second sep d :
  sep ≠ EmptyString → String.prefix sep d = true →
  is_Some (Py.split sep d !! 1%nat).
Proof.
  intros Hsep Hprefix. unfold Py.split.
  destruct d as [|a d].
  { destruct sep; [done|discriminate]. }
  cbn [Py.split_go]. rewrite Hprefix. cbn [bool_decide andb].
  rewrite bool_decide_true by done. cbn [andb].
  pose proof (split_go_not_nil sep (Nat.pred <$> None)
                (Nat.pred (String.length sep)) [] d) as Hne.
  destruct (Py.split_go _ _ _ _ d); [done|]. by eexists.
Qed.

(** X11: rating data that does not end in a number stops the rating step
    with a [ValueError] after the query is answered: the rating is not
    taken, the draft stays as it is and the dialogue keeps waiting for a
    rating.  The index into the split data is never out of range. *)
Theorem rating_not_a_number env user chat q w :
  feedback_conv w !! (chat, id user) = Some GET_RATING →
  starts_with "rating_" (data q) = true →
  Py.split "rating_" (data q) !! 1%nat ≫= Py.int = None →
  process_update env (press user chat q) w
  = (Some ValueError, set_outbox (outbox w ++ [(answer, true)]) w).
Proof.
  intros Hconv Hstarts Hint.
  destruct feedback_states_lookup as (_ & _ & Hs & _).
  erewrite feedback_conv_routes; [|done|].
  2:{ change (conversation_key (press user chat q)) with (chat, id user).
      rewrite Hconv. unfold conversation_check. rewrite Hs. cbn [default].
      unfold Datatypes.id.
      rewrite first_match_cons. simpl. rewrite Hstarts. reflexivity. }
  cbn [callback_of].
  unfold get_rating_callback. cbn [callback_query press content].
  do 2 run_bind.
  destruct (split_prefix_second "rating_" (data q)) as [s Hs']; [done..|].
  rewrite Hs' in Hint |- *. cbn in Hint. run_bind. rewrite Hint. reflexivity.
Qed.

(** A rating in the digits of another digit system is a number for [int],
    and is taken. *)
Example rating_in_other_digits :
  feedback_rating
    (session
       (process_update fair_weather
          (press alice 42 {| data := "rating_５"; message_photo := false |})
          (draft_at GET_RATING)).2 42)
  = Some 5.
Proof. vm_compute. reflexivity. Qed.

(** ** An item that is not there *)

Lemma set_db_same (w : World) : set_db (db w) w = w.
Proof. by destruct w. Qed.

Lemma alter_missing {A} (f : A → A) (d : gmap Z A) (i : Z) :
  d !! i = None → alter f i d = d.
Proof.
  intros Hi. apply map_eq. intros j.
  destruct (decide (i = j)) as [<-|Hne].
  - by rewrite lookup_alter_eq, Hi.
  - by rewrite lookup_alter_ne.
Qed.

Lemma view_data_parsed env user chat photo i w :
  let u := press user chat
             {| data := "admin_view_" +:+ Py.str i; message_photo := photo |} in
  admin_view_callback env u w
  = (call answer;; display_single_feedback env u i;; mret None) w.
Proof.
  intros u. unfold admin_view_callback, callback_query.
  cbn [content u press]. do 2 run_bind. cbn [data].
  rewrite split_view_button by apply str_no_underscore.
  cbn [mbind option_bind]. rewrite int_str. by run_bind.
Qed.

(** X12: the view, resolve and delete buttons of an item that is not in the
    table (it was deleted meanwhile, say).  Viewing answers that the item
    is not found, with a button back to the list.  Resolving and deleting
    report success although there was nothing to resolve or to delete; the
    table stays as it is. *)
Theorem buttons_of_a_missing_item env user chat photo i w :
  db w !! i = None →
  let u d := press user chat {| data := d; message_photo := photo |} in
  let not_found :=
    edit_message_text ("Feedback with ID #" +:+ Py.str i +:+ " not found.")
      (Some [[button "« Back to List" "admin_list_0"]]) in
  admin_view_callback env (u ("admin_view_" +:+ Py.str i)) w
  = (Ret None, set_outbox (outbox w ++ [(answer, true); (not_found, true)]) w)
  ∧ admin_feedback_action_callback env (u ("admin_resolve_" +:+ Py.str i)) w
    = (Ret None,
       set_outbox
         (outbox w
            ++ [(answer, true);
                (send_message chat
                   ("✅ Feedback #" +:+ Py.str i
                      +:+ " has been marked as resolved.") None, true);
                (not_found, true)]) w)
  ∧ admin_feedback_action_callback env (u ("admin_delete_" +:+ Py.str i)) w
    = (Ret None,
       set_outbox
         (outbox w
            ++ [(answer, true);
                (edit_message_text
                   ("🗑️ Feedback #" +:+ Py.str i +:+ " has been deleted.")
                   None, true)]) w).
Proof.
  intros Hi u not_found. split; [|split].
  - unfold u. rewrite view_data_parsed. unfold display_single_feedback.
    do 3 run_bind. rewrite Hi. repeat run_bind.
    unfold set_outbox. simpl. by rewrite <- app_assoc.
  - unfold u.
    change ("admin_resolve_" +:+ Py.str i)
      with ("admin_" +:+ "resolve" +:+ "_" +:+ Py.str i).
    rewrite (action_data_parsed env user chat photo "resolve" i w)
      by (rewrite !elem_of_cons; auto).
    rewrite bool_decide_true by done. run_bind.
    rewrite alter_missing by done. unfold display_single_feedback.
    repeat run_bind. rewrite Hi. repeat run_bind.
    unfold set_outbox, set_db. simpl. by rewrite <- !app_assoc.
  - unfold u.
    change ("admin_delete_" +:+ Py.str i)
      with ("admin_" +:+ "delete" +:+ "_" +:+ Py.str i).
    rewrite (action_data_parsed env user chat photo "delete" i w)
      by (rewrite !elem_of_cons; auto).
    rewrite bool_decide_false by done. rewrite bool_decide_true by done.
    repeat run_bind. rewrite delete_id by done.
    unfold set_outbox, set_db. simpl. by rewrite <- !app_assoc.
Qed.

(** ** The reply of the admin *)

(** X13: a reply with no item to reply to.  When the session names no item
    (or the id 0), the reply conversation ends without a word.  When it
    names an item that is not in the table any more, the sender gets an
    error message and the conversation ends; the table stays as it is and
    the session is not cleared. *)
Theorem reply_without_target env u m w :
  content u = OfMessage m →
  let target := admin_reply_to_fb_id (session w (id (effective_user u))) in
  (target = None ∨ target = Some 0 →
   admin_reply_handler env u w = (Ret (Some END), w))
  ∧ (∀ i, target = Some i → i ≠ 0 → db w !! i = None →
     admin_reply_handler env u w
     = (Ret (Some END),
        set_outbox
          (outbox w
             ++ [(send_message (chat_id u)
                    "❌ Error: Could not find the original feedback." None,
                  true)]) w)).
Proof.
  intros Hm target. split.
  - intros Htarget. unfold admin_reply_handler, get_user_data, get. run_bind.
    fold target. by destruct Htarget as [->| ->].
  - intros i Htarget Hi Hmissing.
    unfold admin_reply_handler, get_user_data, get. run_bind.
    fold target. rewrite Htarget. destruct i as [|p|p]; [done|..];
      unfold message_of; rewrite Hm; repeat run_bind; rewrite Hmissing;
      by repeat run_bind.
Qed.

(** X14: a reply that is delivered.  The status of the item is set to
    replied and its other columns stay as they are, the user gets the reply,
    the session of the admin is cleared and the conversation ends.  The
    admin is told that the reply was sent; only if that notice itself
    fails, the admin is told that the reply could not be sent, although the
    user has it. *)
Theorem reply_delivered env u m w i fb :
  content u = OfMessage m →
  admin_reply_to_fb_id (session w (id (effective_user u))) = Some i →
  i ≠ 0 →
  db w !! i = Some fb →
  let attempt :=
    send_message (user_id fb)
      ("📣 <b>A reply from the admin regarding your feedback:</b>"
         +:+ nl +:+ nl +:+ "<i>" +:+ default "None" (text m) +:+ "</i>")
      None in
  let notice :=
    send_message (chat_id u)
      ("✅ Your reply has been sent to the user for feedback #"
         +:+ Py.str i +:+ ".")
      None in
  let failure :=
    send_message (chat_id u)
      ("❌ Could not send reply. The user may have blocked the bot. Feedback #"
         +:+ Py.str i +:+ " is now marked as 'replied'.")
      None in
  let replied :=
    {| user_id := user_id fb; username := username fb;
       category := category fb; message := message fb; rating := rating fb;
       status := "replied"; timestamp := timestamp fb;
       photo_file_id := photo_file_id fb |} in
  gateway env attempt = true →
  admin_reply_handler env u w
  = (Ret (Some END),
     set_user_data (<[id (effective_user u) := no_user_data]> (user_data w))
       (set_outbox
          (outbox w
             ++ [(attempt, true); (notice, gateway env notice)]
             ++ (if gateway env notice then [] else [(failure, true)]))
          (set_db (<[i := replied]> (db w)) w))).
Proof.
  intros Hm Htarget Hi Hfb attempt notice failure replied Hok.
  unfold admin_reply_handler, get_user_data, get. run_bind.
  rewrite Htarget. destruct i as [|p|p]; [done|..];
    unfold message_of; rewrite Hm; repeat run_bind; rewrite Hfb;
    repeat run_bind;
    change (send_message (user_id fb) _ None) with attempt; rewrite Hok;
    repeat run_bind;
    destruct (gateway env notice) eqn:Hnotice;
    repeat run_bind; unfold try_call; repeat run_bind;
    change (send_message (chat_id u) (reply_sent_notice _) None) with notice;
    rewrite ?Hnotice; repeat run_bind;
    unfold set_user_data, set_outbox, set_db; simpl;
    by rewrite <- ?app_assoc.
Qed.

(** ** The notification of the admin *)

(** X15: the notification of a new item is best effort.  It never raises,
    whatever the gateway does, changes nothing but the outbox and makes at
    most one call; it makes none when the configuration names no admin
    chat or the item is not in the table. *)
Theorem notification_is_best_effort env i w :
  ∃ calls,
    notify_admin_new_feedback env i w
    = (Ret (), set_outbox (outbox w ++ calls) w)
    ∧ (length calls ≤ 1)%nat
    ∧ (Py.truthy (default ∅ (admin_config_file w) !! "admin_chat_id") = None
       → calls = [])
    ∧ (db w !! i = None → calls = []).
Proof.
  unfold notify_admin_new_feedback, load_admin_config, get. run_bind.
  destruct (Py.truthy _) as [c|] eqn:Hchat.
  2:{ exists []. rewrite set_outbox_nil. simpl. by repeat split; try lia. }
  run_bind. destruct (db w !! i) as [fb|] eqn:Hfb.
  2:{ exists []. rewrite set_outbox_nil. simpl. by repeat split; try lia. }
  lazy zeta. destruct (Py.truthy (photo_file_id fb));
    eexists [_]; (split; [reflexivity|by repeat split]).
Qed.

(** ** Handlers that read only *)

Lemma adds_calls_refl w : adds_calls w w.
Proof. exists []. by rewrite set_outbox_nil. Qed.

Lemma adds_calls_trans w1 w2 w3 :
  adds_calls w1 w2 → adds_calls w2 w3 → adds_calls w1 w3.
Proof.
  intros [l1 ->] [l2 ->]. exists (l1 ++ l2). apply set_outbox_app.
Qed.

Lemma reads_ret {A} (a : A) : steps adds_calls (mret a : M A).
Proof. intros w. apply adds_calls_refl. Qed.

Lemma reads_raise {A} (e : exn) : steps adds_calls (raise e : M A).
Proof. intros w. apply adds_calls_refl. Qed.

Lemma reads_get {A} (g : World → A) : steps adds_calls (get g).
Proof. intros w. apply adds_calls_refl. Qed.

Lemma reads_expect {A} (o : option A) (e : exn) :
  steps adds_calls (expect o e).
Proof. destruct o; [apply reads_ret|apply reads_raise]. Qed.

Lemma reads_talks {A} (m : M A) : talks m → steps adds_calls m.
Proof. intros Hm w. destruct (Hm w) as (a & calls & ->). by exists calls. Qed.

Lemma reads_bind {A B} (m : M A) (k : A → M B) :
  steps adds_calls m → (∀ a, steps adds_calls (k a)) →
  steps adds_calls (m ≫= k).
Proof.
  intros Hm Hk w. unfold mbind, M_bind. specialize (Hm w).
  destruct (m w) as [[a|e] w1]; simpl in *; [|done].
  eapply adds_calls_trans; [done|apply Hk].
Qed.

Ltac reads_step :=
  first
    [ apply reads_ret | apply reads_raise | apply reads_get | apply reads_expect
    | apply reads_talks;
      first [ apply talks_call | apply talks_try_call | apply talks_pass
            | apply talks_send_attached_photo
            | apply talks_display_feedback_page ]
    | apply reads_bind; [|intros ?]
    | match goal with
      | |- steps _ (match ?x with _ => _ end) => destruct x
      | |- steps _ (if ?x then _ else _) => destruct x
      | |- steps _ ((if ?x then _ else _) ≫= _) => destruct x
      | |- steps _ ((match ?x with _ => _ end) ≫= _) => destruct x
      | |- steps _ (let _ := _ in _) => lazy zeta
      end
    | progress unfold reply_text, start_admin, load_admin_config,
        callback_query, message_of, display_single_feedback,
        delete_previous_message ].

Lemma reads_admin_only (func : Callback) :
  reads_only func → reads_only (admin_only func).
Proof.
  intros Hfunc env u. unfold admin_only. repeat reads_step. apply Hfunc.
Qed.

(** X16: looking does not touch.  The greeting, the help, the list, the
    statistics and the view of an item, by command or by button, change
    nothing but the outbox: the table, the sessions, the configuration and
    the conversations are after the call what they were before, whether
    the handler returns or raises. *)
Theorem browsing_reads_only :
  Forall reads_only
    [ start_command; help_admin_command; list_feedback_command;
      stats_command; admin_view_command; admin_list_callback;
      admin_view_callback ].
Proof.
  repeat apply Forall_cons_2; [..|apply Forall_nil_2];
    try apply reads_admin_only; intros env u;
    unfold start_command, admin_view_command, admin_list_callback,
      admin_view_callback;
    repeat reads_step.
Qed.

(** ** The statistics *)

Lemma filter_eq_length_cons (v a : string) (l : list string) :
  length (filter (λ x, x = v) (a :: l))
  = ((if bool_decide (a = v) then 1 else 0)
     + length (filter (λ x, x = v) l))%nat.
Proof.
  rewrite filter_cons. case_bool_decide.
  - by rewrite decide_True.
  - by rewrite decide_False.
Qed.

Lemma count_sum_cons (a : string) (l vs : list string) :
  NoDup vs →
  sum_list ((λ v, length (filter (λ x, x = v) (a :: l))) <$> vs)
  = ((if bool_decide (a ∈ vs) then 1 else 0)
     + sum_list ((λ v, length (filter (λ x, x = v) l)) <$> vs))%nat.
Proof.
  induction 1 as [|v vs Hv _ IH]; [done|].
  cbn [fmap list_fmap sum_list foldr]. simpl sum_list.
  rewrite IH, filter_eq_length_cons.
  destruct (decide (a = v)) as [->|Hne].
  - rewrite (bool_decide_true (v = v)) by done.
    rewrite (bool_decide_false (v ∈ vs)) by done.
    rewrite (bool_decide_true (v ∈ v :: vs)) by (apply elem_of_cons; by left).
    unfold Datatypes.id. lia.
  - rewrite (bool_decide_false (a = v)) by done.
    rewrite (bool_decide_ext (a ∈ v :: vs) (a ∈ vs));
      [unfold Datatypes.id; lia|].
    rewrite elem_of_cons. split; [intros [?|?]; [congruence|done]|by right].
Qed.

Lemma count_sum (l vs : list string) :
  NoDup vs → (∀ x, x ∈ l → x ∈ vs) →
  sum_list ((λ v, length (filter (λ x, x = v) l)) <$> vs) = length l.
Proof.
  intros Hvs. induction l as [|a l IH]; intros Hl.
  - clear Hl. induction vs as [|v vs IHvs]; [done|].
    simpl. apply IHvs. by inversion Hvs.
  - rewrite count_sum_cons by done.
    rewrite bool_decide_true by (apply Hl; left).
    rewrite IH; [done|]. intros x Hx. apply Hl. by right.
Qed.

(** A value occurs in a list exactly when its count is positive. *)
Lemma count_positive (v : string) (l : list string) :
  v ∈ l ↔ (0 < length (filter (λ x, x = v) l))%nat.
Proof.
  split.
  - intros Hv. assert (v ∈ filter (λ x, x = v) l) as Hin.
    { apply list_elem_of_filter. split; [reflexivity|exact Hv]. }
    destruct (filter _ l); [by apply elem_of_nil in Hin|simpl; lia].
  - intros Hcount. destruct (filter (λ x, x = v) l) as [|x xs] eqn:Hf;
      [simpl in Hcount; lia|].
    assert (x ∈ filter (λ x, x = v) l) as Hx by (rewrite Hf; left).
    apply list_elem_of_filter in Hx as [-> Hx]. done.
Qed.

(** Sorting strings by [String.leb] gives them in ascending order. *)
Lemma insert_by_leb_sorted (x : string) (l : list string) :
  StronglySorted (λ s t, String.leb s t = true) l →
  StronglySorted (λ s t, String.leb s t = true) (insert_by String.leb x l).
Proof.
  assert (Htrans : ∀ a b c, String.leb a b = true → String.leb b c = true →
                            String.leb a c = true).
  { intros a b c Hab Hbc. apply Is_true_true.
    change (String.le a c). transitivity b; by apply Is_true_true. }
  induction 1 as [|y l Hl IH Hy]; simpl; [by repeat constructor|].
  destruct (String.leb x y) eqn:Hxy.
  - constructor; [by constructor|]. constructor; [done|].
    eapply Forall_impl; [done|]. intros z Hz. by eapply Htrans.
  - constructor; [done|]. rewrite insert_by_perm. constructor; [|done].
    by destruct (String.leb_total x y) as [Hle|Hle]; [congruence|].
Qed.

Lemma sort_by_leb_sorted (l : list string) :
  StronglySorted (λ s t, String.leb s t = true) (sort_by String.leb l).
Proof.
  unfold sort_by.
  induction l as [|x l IH]; simpl; [constructor|by apply insert_by_leb_sorted].
Qed.

(** The groups of a column: its values in ascending order, each once and
    with the number of its occurrences; the counts sum to the number of
    rows. *)
Lemma group_count_spec (l : list string) :
  (∀ j k p q, (j < k)%nat →
     group_count l !! j = Some p → group_count l !! k = Some q →
     String.leb p.1 q.1 = true ∧ p.1 ≠ q.1)
  ∧ (∀ v n, (v, n) ∈ group_count l
            ↔ (0 < n)%nat ∧ n = length (filter (λ x, x = v) l))
  ∧ sum_list (group_count l).*2 = length l.
Proof.
  unfold group_count.
  set (keys := sort_by String.leb (remove_dups l)).
  assert (Hperm : keys ≡ₚ remove_dups l) by apply sort_by_perm.
  assert (Hnodup : NoDup keys) by (rewrite Hperm; apply NoDup_remove_dups).
  assert (Hin : ∀ v, v ∈ keys ↔ v ∈ l).
  { intros v. by rewrite Hperm, elem_of_remove_dups. }
  split; [|split].
  - intros j k p q Hjk Hj Hk. rewrite list_lookup_fmap in Hj, Hk.
    destruct (keys !! j) as [s|] eqn:Hs; [|done].
    destruct (keys !! k) as [t|] eqn:Ht; [|done].
    injection Hj as <-. injection Hk as <-. simpl. split.
    + exact (sorted_lookup (λ s t, String.leb s t = true) keys j k s t
               (sort_by_leb_sorted _) Hjk Hs Ht).
    + intros ->. assert (j = k); [|lia]. by eapply NoDup_lookup.
  - intros v n. rewrite list_elem_of_fmap. split.
    + intros (v' & [= -> ->] & Hv'). split; [|done].
      by apply count_positive, Hin.
    + intros [Hpos ->]. exists v. split; [done|].
      by apply Hin, count_positive.
  - rewrite <- list_fmap_compose.
    apply (count_sum l keys Hnodup). intros x. apply Hin.
Qed.

(** X17: the numbers of the statistics add up.  For the registered admin
    and a table that is not empty, in which the status of every row is one
    of the three the handlers write, [stats_command] sends one message,
    with the total and the two break-downs, by category and by status.  In
    each break-down the values of the column come in ascending order, each
    once; a value is listed exactly when it occurs in the table, with the
    number of rows that have it; and the counts sum to the total. *)
Theorem stats_counts_add_up env u m w :
  content u = OfMessage m →
  registered_admin w = Some (Py.str (id (effective_user u))) →
  db w ≠ ∅ →
  (∀ i fb, db w !! i = Some fb → status fb ∈ ["new"; "replied"; "resolved"]) →
  ∃ by_category by_status : list (string * nat),
    stats_command env u w
    = (Ret None,
       set_outbox
         (outbox w
            ++ [(send_message (chat_id u)
                   ("📊 <b>Feedback Statistics</b>" +:+ nl +:+ nl +:+
                    "▪️ Total Submissions: <b>" +:+ pretty (size (db w))
                      +:+ "</b>" +:+ nl +:+
                    "▪️ Average Rating: <b>" +:+ avg_rating_text env
                      +:+ " / 5.0</b>" +:+ nl +:+ nl +:+
                    "<b>By Category:</b>" +:+ nl +:+
                    Py.join nl
                      ((λ p, "  - " +:+ p.1 +:+ ": " +:+ pretty p.2)
                         <$> by_category)
                      +:+ nl +:+ nl +:+
                    "<b>By Status:</b>" +:+ nl +:+
                    Py.join nl
                      ((λ p, "  - " +:+ Py.capitalize p.1 +:+ ": "
                               +:+ pretty p.2) <$> by_status))
                   None, true)]) w)
    ∧ ∀ col groups,
        (col = category ∧ groups = by_category)
        ∨ (col = status ∧ groups = by_status) →
        (∀ j k p q, (j < k)%nat →
           groups !! j = Some p → groups !! k = Some q →
           String.leb p.1 q.1 = true ∧ p.1 ≠ q.1)
        ∧ (∀ v n, (v, n) ∈ groups
                  ↔ (0 < n)%nat
                    ∧ n = length (filter (λ fb, col fb = v)
                                    (map_to_list (db w)).*2))
        ∧ sum_list groups.*2 = size (db w).
Proof.
  intros Hm Hadmin Hrows _.
  exists (group_count (category <$> (map_to_list (db w)).*2)),
         (group_count (status <$> (map_to_list (db w)).*2)).
  split.
  - unfold stats_command. rewrite admin_only_admits by done.
    unfold message_of. rewrite Hm. do 2 run_bind.
    rewrite bool_decide_false; [done|].
    intros Hsize. by apply map_size_empty_iff in Hsize.
  - assert (Hcount : ∀ (col : Feedback → string) v l,
              length (filter (λ x, x = v) (col <$> l))
              = length (filter (λ fb, col fb = v) l)).
    { intros col v l. induction l as [|fb l IH]; [done|].
      cbn [fmap list_fmap]. rewrite !filter_cons.
      destruct (decide (col fb = v)); simpl; by rewrite IH. }
    intros col groups Hgroups.
    assert (groups = group_count (col <$> (map_to_list (db w)).*2)) as ->
      by (by destruct Hgroups as [[-> ->]|[-> ->]]).
    destruct (group_count_spec (col <$> (map_to_list (db w)).*2))
      as (Horder & Hin & Hsum).
    split; [done|]. split.
    + intros v n. by rewrite Hin, Hcount.
    + by rewrite Hsum, !length_fmap, length_map_to_list.
Qed.

(** ** The view command *)

Lemma strip_prefix_app (p s t : string) :
  filters.strip_prefix p s = Some t → s = p +:+ t.
Proof.
  revert s. induction p as [|a p IH]; intros s; simpl.
  - by intros [= ->].
  - destruct s as [|b s]; [done|]. case_bool_decide; [|done].
    intros Hs%IH. by subst.
Qed.

(** What [\d+$] accepts: digits, at least one, and maybe a last newline. *)
Lemma digits_to_end_shape (seen : bool) (cps : list N) :
  filters.digits_to_end seen cps = true →
  ∃ ds t, cps = ds ++ t
          ∧ Forall (λ c, is_Some (Py.decimal c)) ds
          ∧ (seen = true ∨ ds ≠ [])
          ∧ (t = [] ∨ t = [10%N]).
Proof.
  revert seen. induction cps as [|c cps IH]; intros seen; simpl.
  - intros ->. exists [], []. by auto.
  - case_bool_decide as Hc.
    + intros (ds & t & Hs & Hds & _ & Ht)%IH. exists (c :: ds), t.
      rewrite Hs. repeat split; [by constructor|by right|done].
    + intros [[-> ->%bool_decide_eq_true]%andb_true_iff
                ->%bool_decide_eq_true]%andb_true_iff.
      exists [], [10%N]. by auto.
Qed.

(** A byte below 128 of a string is one of its code points. *)
Lemma byte_in_code_points (l : list ascii) (cps : list N) (a : ascii) :
  Py.code_points l = Some cps → a ∈ l → (N_of_ascii a < 128)%N →
  N_of_ascii a ∈ cps.
Proof.
  intros Hl Ha Hlow. revert cps Hl Ha.
  induction l as [l IH] using (induction_ltof1 _ length). unfold ltof in IH.
  intros cps Hl Ha. destruct l as [|b l1]; [by apply elem_of_nil in Ha|].
  assert (Hcont : ∀ c x, Py.continuation c = Some x → a ≠ c).
  { intros c x Hc ->. unfold Py.continuation in Hc.
    destruct (N.leb_spec 128 (N_of_ascii c)); simpl in Hc; [lia|done]. }
  cbn [Py.code_points] in Hl. cbv zeta in Hl.
  destruct (N.ltb_spec (N_of_ascii b) 128) as [Hb|Hb].
  { destruct (Py.code_points l1) as [cps1|] eqn:Hl1; [|done].
    injection Hl as <-. apply elem_of_cons in Ha as [->|Ha]; [left|].
    right. apply (IH l1); simpl; done || lia. }
  assert (a ≠ b) as Hab by (intros ->; lia).
  apply elem_of_cons in Ha as [->|Ha]; [done|].
  destruct (N_of_ascii b <? 192)%N; [done|].
  destruct (N_of_ascii b <? 224)%N.
  { destruct l1 as [|c l2]; [done|].
    destruct (Py.continuation c) as [x|] eqn:Hc; [|done].
    cbn [mbind option_bind] in Hl.
    destruct (Py.code_points l2) as [cps2|] eqn:Hl2; [|done].
    injection Hl as <-.
    apply elem_of_cons in Ha as [->|Ha]; [by eapply Hcont in Hc|].
    right. apply (IH l2); simpl; done || lia. }
  destruct (N_of_ascii b <? 240)%N.
  { destruct l1 as [|c [|d l3]]; [done..|].
    destruct (Py.continuation c) as [x|] eqn:Hc; [|done].
    destruct (Py.continuation d) as [y|] eqn:Hd; [|done].
    cbn [mbind option_bind] in Hl.
    destruct (Py.code_points l3) as [cps3|] eqn:Hl3; [|done].
    injection Hl as <-.
    apply elem_of_cons in Ha as [->|Ha]; [by eapply Hcont in Hc|].
    apply elem_of_cons in Ha as [->|Ha]; [by eapply Hcont in Hd|].
    right. apply (IH l3); simpl; done || lia. }
  destruct (N_of_ascii b <? 248)%N; [|done].
  destruct l1 as [|c [|d [|e l4]]]; [done..|].
  destruct (Py.continuation c) as [x|] eqn:Hc; [|done].
  destruct (Py.continuation d) as [y|] eqn:Hd; [|done].
  destruct (Py.continuation e) as [z|] eqn:He; [|done].
  cbn [mbind option_bind] in Hl.
  destruct (Py.code_points l4) as [cps4|] eqn:Hl4; [|done].
  injection Hl as <-.
  apply elem_of_cons in Ha as [->|Ha]; [by eapply Hcont in Hc|].
  apply elem_of_cons in Ha as [->|Ha]; [by eapply Hcont in Hd|].
  apply elem_of_cons in Ha as [->|Ha]; [by eapply Hcont in He|].
  right. apply (IH l4); simpl; done || lia.
Qed.

(** A decimal digit is one of the ten code points of a digit system. *)
Lemma decimal_in_spec (zeros : list N) (c d : N) :
  Py.decimal_in zeros c = Some d →
  ∃ z, z ∈ zeros ∧ (z ≤ c < z + 10)%N ∧ d = (c - z)%N.
Proof.
  induction zeros as [|z zeros IH]; [done|]. simpl.
  destruct (N.leb_spec z c); simpl.
  - destruct (N.ltb_spec c (z + 10)).
    + intros [= <-]. exists z. split; [left|lia].
    + intros (z' & Hz' & Hrange)%IH. exists z'. split; [by right|done].
  - intros (z' & Hz' & Hrange)%IH. exists z'. split; [by right|done].
Qed.

(** The ASCII digits are the only decimal digits below 127, and no decimal
    digit is white space. *)
Lemma decimal_zeros_apart :
  Forall (λ z, (z = 48 ∨ 1632 ≤ z)%N
               ∧ ∀ k, (k < 10)%N → Py.is_unicode_space (z + k) = false)
    Py.decimal_zeros.
Proof.
  apply Forall_forall. intros z Hz.
  assert (forallb
            (λ z, ((z =? 48) || (1632 <=? z))%N
                  && forallb (λ k, negb (Py.is_unicode_space (z + k)))
                       [0; 1; 2; 3; 4; 5; 6; 7; 8; 9]%N)
            Py.decimal_zeros = true) as Hall by (vm_compute; reflexivity).
  rewrite forallb_forall in Hall. apply list_elem_of_In, Hall in Hz.
  apply andb_true_iff in Hz as [Hlow Hspace]. split.
  - apply orb_true_iff in Hlow as [?%N.eqb_eq|?%N.leb_le]; auto.
  - intros k Hk. rewrite forallb_forall in Hspace.
    apply negb_true_iff, Hspace, list_elem_of_In.
    assert (k = 0 ∨ k = 1 ∨ k = 2 ∨ k = 3 ∨ k = 4 ∨ k = 5 ∨ k = 6 ∨ k = 7
            ∨ k = 8 ∨ k = 9)%N as Hcases by lia.
    rewrite !elem_of_cons. tauto.
Qed.

(** [int] reads a decimal digit of any digit system as an ASCII digit. *)
Lemma to_ascii_decimal (c : N) :
  is_Some (Py.decimal c) → ∃ a, Py.to_ascii c = Some a ∧ digit_char a.
Proof.
  intros [d Hd]. pose proof Hd as Hd'. unfold Py.decimal in Hd'.
  apply decimal_in_spec in Hd' as (z & Hz & Hrange & ->).
  pose proof decimal_zeros_apart as Hzeros.
  rewrite Forall_forall in Hzeros. destruct (Hzeros z Hz) as [Hlow Hspace].
  exists (ascii_of_N (48 + (c - z))). split.
  - unfold Py.to_ascii. destruct (N.ltb_spec c 127) as [Hc|Hc].
    + do 2 f_equal. lia.
    + specialize (Hspace (c - z)%N).
      replace (z + (c - z))%N with c in Hspace by lia.
      rewrite Hspace by lia. by rewrite Hd.
  - assert (c - z = 0 ∨ c - z = 1 ∨ c - z = 2 ∨ c - z = 3 ∨ c - z = 4
            ∨ c - z = 5 ∨ c - z = 6 ∨ c - z = 7 ∨ c - z = 8 ∨ c - z = 9)%N
      as Hcases by lia.
    repeat destruct Hcases as [->|Hcases]; try rewrite Hcases; by eexists.
Qed.

Lemma to_ascii_digits (ds t : list N) :
  Forall (λ c, is_Some (Py.decimal c)) ds → (t = [] ∨ t = [10%N]) →
  ∃ l t', mapM Py.to_ascii (ds ++ t) = Some (l ++ t')
          ∧ Forall digit_char l
          ∧ (ds ≠ [] → l ≠ [])
          ∧ (t' = [] ∨ t' = ["010"%char]).
Proof.
  intros Hds Ht. induction Hds as [|c ds Hc _ (l & t' & Hl & Hdigits & _ & Ht')].
  - destruct Ht as [-> | ->].
    + exists [], []. repeat split; auto.
    + exists [], ["010"%char]. repeat split; auto.
  - destruct (to_ascii_decimal c Hc) as (a & Ha & Hdigit).
    exists (a :: l), t'. cbn [app mapM]. rewrite Ha, Hl.
    repeat split; [by constructor|done|done].
Qed.

Lemma digits_go_digits (l : list ascii) (acc : Z) (b : bool) :
  Forall digit_char l → b = true ∨ l ≠ [] → 0 ≤ acc →
  ∃ v, 0 ≤ v ∧ Py.digits_go acc b l = Some v.
Proof.
  intros Hl. revert acc b. induction Hl as [|a l [d Hd] _ IH]; intros acc b Hb Hacc.
  - destruct Hb as [->|?]; [|done]. by exists acc.
  - simpl. rewrite Hd. apply IH; [by left|].
    unfold Py.digit_of in Hd. destruct (_ && _); [|done].
    injection Hd as <-. lia.
Qed.

Lemma strip_digits_newline (l : list ascii) :
  Forall digit_char l → l ≠ [] → Py.strip (l ++ ["010"%char]) = l.
Proof.
  intros Hl Hne. unfold Py.strip.
  assert (Py.lstrip (l ++ ["010"%char]) = l ++ ["010"%char]) as ->.
  { destruct Hl; [done|]. by apply lstrip_digit. }
  rewrite rev_unit. cbn [Py.lstrip]. change (Py.is_space "010") with true.
  cbn iota.
  assert (∃ a l', digit_char a ∧ rev l = a :: l') as (a & l' & Ha & Hrev).
  { destruct l as [|a l _] using rev_ind; [done|].
    exists a, (rev l). apply Forall_app in Hl as [_ Ha].
    split; [by inversion Ha|]. by rewrite rev_unit. }
  rewrite Hrev, lstrip_digit, <- Hrev by done.
  apply rev_involutive.
Qed.

Lemma int_ascii_digits (l t : list ascii) :
  Forall digit_char l → l ≠ [] → (t = [] ∨ t = ["010"%char]) →
  ∃ v, 0 ≤ v ∧ Py.int_ascii (l ++ t) = Some v.
Proof.
  intros Hl Hne Ht. unfold Py.int_ascii.
  assert (Py.strip (l ++ t) = l) as ->.
  { destruct Ht as [-> | ->]; [|by apply strip_digits_newline].
    rewrite app_nil_r. by apply (strip_digits []); auto. }
  destruct (digits_go_digits l 0 false Hl) as (v & Hv & Hread); [by right|done|].
  exists v. split; [done|].
  destruct l as [|a l]; [done|].
  apply Forall_cons in Hl as [Ha%digit_char_cases _].
  rewrite !elem_of_cons, elem_of_nil in Ha.
  repeat destruct Ha as [->|Ha]; try done.
Qed.

(** What the filter lets through is read by [int], and has no underscore. *)
Lemma view_regex_int (rest : string) (cps : list N) :
  Py.code_points (list_ascii_of_string rest) = Some cps →
  filters.digits_to_end false cps = true →
  ("_"%char ∉ list_ascii_of_string rest)
  ∧ ∃ i, 0 ≤ i ∧ Py.int rest = Some i.
Proof.
  intros Hcps (ds & t & -> & Hds & [[=]|Hne] & Ht)%digits_to_end_shape. split.
  - intros Hin. eapply byte_in_code_points in Hin; [|done|done].
    apply elem_of_app in Hin as [Hin|Hin].
    + eapply Forall_forall in Hds; [|done]. by destruct Hds.
    + destruct Ht as [-> | ->]; [by apply elem_of_nil in Hin|].
      by apply list_elem_of_singleton in Hin.
  - destruct (to_ascii_digits ds t Hds Ht) as (l & t' & Hl & Hdigits & Hl' & Ht').
    destruct (int_ascii_digits l t' Hdigits (Hl' Hne) Ht') as (i & Hi & Hint).
    exists i. split; [done|]. unfold Py.int. rewrite Hcps.
    cbn [mbind option_bind]. by rewrite Hl.
Qed.

(** X18: the filter of the view command keeps its promise.  The text of a
    message that [main] lets through to [admin_view_command] (it matches
    [^\/view_\d+$]) is [/view_] and a rest that [int] reads as an id, which
    is not negative.  For an id the store can hold, the command sends the
    details of the row with that id and its action keyboard last, or the
    notice that there is no such row; the reply about an invalid format is
    not reached through the dispatcher. *)
Theorem view_filter_gives_an_id env user chat m w :
  filters.view_regex m = true →
  ∃ rest i,
    text m = Some ("/view_" +:+ rest)
    ∧ Py.int rest = Some i
    ∧ 0 ≤ i
    ∧ (storable i →
       (∀ fb, db w !! i = Some fb →
          ∃ calls,
            admin_view_command env (say user chat m) w
            = (Ret None,
               set_outbox
                 (outbox w ++ calls
                    ++ [(send_message chat (details_text i fb)
                           (Some (get_admin_feedback_actions_keyboard i
                                    (status fb))), true)]) w))
       ∧ (db w !! i = None →
          admin_view_command env (say user chat m) w
          = (Ret None,
             set_outbox
               (outbox w
                  ++ [(send_message chat
                         ("Feedback with ID #" +:+ Py.str i +:+ " not found.")
                         (Some [[{| label := "« Back to List";
                                    callback_data := "admin_list_0" |}]]),
                       true)]) w))).
Proof.
  unfold filters.view_regex. destruct (text m) as [s|] eqn:Htext; [|done].
  cbn [mbind option_bind].
  destruct (filters.strip_prefix "/view_" s) as [rest|] eqn:Hstrip; [|done].
  apply strip_prefix_app in Hstrip as ->.
  destruct (Py.code_points _) as [cps|] eqn:Hcps; [|done].
  intros (Hno & i & Hi & Hint)%(view_regex_int rest); [|done].
  exists rest, i. split; [done|]. split; [done|]. split; [done|].
  intros _.
  assert (admin_view_command env (say user chat m) w
          = (display_single_feedback env (say user chat m) i;; mret None) w)
    as ->.
  { unfold admin_view_command, message_of. cbn [content say].
    do 2 run_bind. rewrite Htext. do 2 run_bind.
    rewrite split_view_command by done.
    cbn [mbind option_bind]. by rewrite Hint. }
  split.
  - intros fb Hfb.
    destruct (display_single_feedback_shows env (say user chat m) i fb w Hfb)
      as (calls & Hshown & _); [done|].
    exists calls. unfold mbind at 1, M_bind at 1. by rewrite Hshown.
  - intros Hmissing. unfold display_single_feedback, get. do 2 run_bind.
    rewrite Hmissing. by repeat run_bind.
Qed.

(** ** Buttons and commands out of turn *)

Lemma prefix_app (p d : string) :
  String.prefix p d = true → ∃ r, d = p +:+ r.
Proof.
  revert d. induction p as [|a p IH]; intros d.
  - intros _. by exists d.
  - destruct d as [|b d]; [done|]. cbn [String.prefix].
    destruct (ascii_dec a b) as [->|]; [|done].
    intros [r ->]%IH. by exists r.
Qed.





Lemma conversation_check_state_none c s u :
  map_Forall (λ _ hs, Forall (λ h, check_update h u = false) hs) (states c) →
  Forall (λ h, check_update h u = false) (fallbacks c) →
  conversation_check c (Some s) u = None.
Proof.
  intros Hs Hf. unfold conversation_check.
  rewrite !first_match_none; [done..|].
  destruct (states c !! s) as [hs|] eqn:Hlookup; simpl; [|done].
  by apply (Hs s).
Qed.

Ltac table_false :=
  cbn [entry_points states fallbacks feedback_conv_handler
       admin_reply_conv_handler admin_broadcast_conv_handler];
  repeat handlers_false.

(** A button press that no conversation takes and that is none of the
    admin buttons is ignored. *)
Lemma press_ignored env user chat q w :
  let u := press user chat q in
  conversation_check feedback_conv_handler
    (feedback_conv w !! (chat, id user)) u = None →
  conversation_check admin_reply_conv_handler
    (admin_reply_conv w !! (chat, id user)) u = None →
  starts_with "admin_list_" (data q) = false →
  starts_with "admin_view_" (data q) = false →
  starts_with "admin_resolve_" (data q) || starts_with "admin_delete_" (data q)
  = false →
  process_update env u w = (None, w).
Proof.
  intros u Hfeedback Hreply Hlist Hview Haction.
  unfold process_update, handlers. cbn [dispatch].
  change (conversation_key u) with (chat, id user).
  rewrite Hfeedback, Hreply.
  rewrite (conversation_check_none admin_broadcast_conv_handler);
    [|table_false; reflexivity..].
  cbn [check_update u press content]. by rewrite Hlist, Hview, Haction.
Qed.

(** Inside the reply conversation a button press is not taken. *)
Lemma reply_conv_skips_press user chat q s :
  conversation_check admin_reply_conv_handler (Some s) (press user chat q) = None.
Proof. apply conversation_check_state_none; table_false; reflexivity. Qed.

(** In a state of the feedback dialogue a press is taken only if its data
    starts with the marker of a step. *)
Lemma feedback_conv_skips_press user chat q s :
  starts_with "category_" (data q) = false →
  starts_with "rating_" (data q) = false →
  starts_with "confirm_" (data q) = false →
  conversation_check feedback_conv_handler (Some s) (press user chat q) = None.
Proof.
  intros Hc Hr Hf. apply conversation_check_state_none; table_false;
    cbn [check_update press content]; done.
Qed.

Lemma is_exactly_prefix (p d : string) :
  is_exactly p d = true → String.prefix p d = true.
Proof.
  unfold is_exactly. intros [->%bool_decide_eq_true| ->%bool_decide_eq_true]%orb_true_iff.
  - induction p as [|a p IH]; [done|]. cbn [String.prefix].
    by destruct (ascii_dec a a).
  - induction p as [|a p IH]; [done|].
    change (String a p +:+ nl) with (String a (p +:+ nl)).
    cbn [String.prefix]. by destruct (ascii_dec a a).
Qed.

(** Two markers that differ somewhere do not both start the data. *)
Lemma prefix_exclusive (p p' d : string) :
  String.prefix p d = true →
  (∀ r, String.prefix p' (p +:+ r) = false) →
  String.prefix p' d = false.
Proof. intros [r ->]%prefix_app Hp'. apply Hp'. Qed.

Ltac each_of H :=
  repeat (apply elem_of_cons in H as [->|H]); [..|by apply elem_of_nil in H].

Ltac other_marker H :=
  apply (prefix_exclusive _ _ _ H); intros ?; reflexivity.

(** X20: the buttons of the feedback dialogue do nothing outside it.  A
    press of a category, rating or confirm button by a user who is not in
    the dialogue (the dialogue has ended, was cancelled or was never
    begun) is taken by no handler: nothing is stored, nothing is sent.  So
    a second press of "confirm" after a submission does not store a second
    item. *)
Theorem dialogue_buttons_are_dead_outside env user chat q w :
  feedback_conv w !! (chat, id user) = None →
  starts_with "category_" (data q) || starts_with "rating_" (data q)
    || starts_with "confirm_" (data q) = true →
  process_update env (press user chat q) w = (None, w).
Proof.
  intros Hconv Hdata.
  assert (∃ p, p ∈ ["category_"; "rating_"; "confirm_"]
               ∧ String.prefix p (data q) = true) as (p & Hp & Hprefix).
  { apply orb_true_iff in Hdata as [[H|H]%orb_true_iff|H];
      eexists; (split; [|exact H]); rewrite !elem_of_cons; auto. }
  assert (is_exactly "start_feedback" (data q) = false) as Hstart.
  { destruct (is_exactly _ _) eqn:He; [|done].
    apply is_exactly_prefix in He.
    assert (String.prefix "start_feedback" (data q) = false); [|congruence].
    each_of Hp; other_marker Hprefix. }
  assert (∀ p', p' ∈ ["admin_reply_"; "admin_list_"; "admin_view_";
                      "admin_resolve_"; "admin_delete_"] →
                starts_with p' (data q) = false) as Hadmin.
  { intros p' Hp'. unfold starts_with.
    each_of Hp; each_of Hp'; other_marker Hprefix. }
  apply press_ignored.
  - rewrite Hconv. unfold conversation_check.
    apply first_match_none. table_false.
    cbn [check_update press content]. exact Hstart.
  - destruct (admin_reply_conv w !! _); [apply reply_conv_skips_press|].
    unfold conversation_check. apply first_match_none. table_false.
    cbn [check_update press content]. apply Hadmin. rewrite !elem_of_cons. auto.
  - apply Hadmin. rewrite !elem_of_cons. auto.
  - apply Hadmin. rewrite !elem_of_cons. auto.
  - rewrite !Hadmin; [done|rewrite !elem_of_cons; auto 10..].
Qed.

(** X21: a button that opens a conversation does nothing inside it.  While a
    user is in the feedback dialogue the start button is not taken, and
    while a user is in the reply conversation a reply button is not taken,
    whichever item it belongs to: nothing is sent and nothing changes, so
    the session still names the item of the first press. *)
Theorem entry_buttons_are_dead_inside env user chat q w :
  (is_Some (feedback_conv w !! (chat, id user))
   ∧ is_exactly "start_feedback" (data q) = true)
  ∨ (is_Some (admin_reply_conv w !! (chat, id user))
     ∧ starts_with "admin_reply_" (data q) = true) →
  process_update env (press user chat q) w = (None, w).
Proof.
  intros [[[s Hs] Hprefix%is_exactly_prefix]|[[s Hs] Hprefix]].
  - assert (∀ p', p' ∈ ["category_"; "rating_"; "confirm_"; "admin_reply_";
                        "admin_list_"; "admin_view_"; "admin_resolve_";
                        "admin_delete_"] →
                  starts_with p' (data q) = false) as Hother.
    { intros p' Hp'. unfold starts_with.
      each_of Hp'; other_marker Hprefix. }
    apply press_ignored.
    + rewrite Hs. apply feedback_conv_skips_press;
        apply Hother; rewrite !elem_of_cons; auto 10.
    + destruct (admin_reply_conv w !! _); [apply reply_conv_skips_press|].
      unfold conversation_check. apply first_match_none. table_false.
      cbn [check_update press content]. apply Hother.
      rewrite !elem_of_cons. auto 10.
    + apply Hother. rewrite !elem_of_cons. auto 10.
    + apply Hother. rewrite !elem_of_cons. auto 10.
    + rewrite !Hother; [done|rewrite !elem_of_cons; auto 10..].
  - assert (∀ p', p' ∈ ["category_"; "rating_"; "confirm_";
                        "admin_list_"; "admin_view_"; "admin_resolve_";
                        "admin_delete_"] →
                  starts_with p' (data q) = false) as Hother.
    { intros p' Hp'. unfold starts_with in *.
      each_of Hp'; other_marker Hprefix. }
    assert (is_exactly "start_feedback" (data q) = false) as Hstart.
    { destruct (is_exactly _ _) eqn:He; [|done].
      apply is_exactly_prefix in He.
      assert (String.prefix "start_feedback" (data q) = false); [|congruence].
      unfold starts_with in Hprefix. other_marker Hprefix. }
    apply press_ignored.
    + destruct (feedback_conv w !! _).
      * apply feedback_conv_skips_press; apply Hother;
          rewrite !elem_of_cons; auto 10.
      * unfold conversation_check. apply first_match_none. table_false.
        cbn [check_update press content]. exact Hstart.
    + rewrite Hs. apply reply_conv_skips_press.
    + apply Hother. rewrite !elem_of_cons. auto 10.
    + apply Hother. rewrite !elem_of_cons. auto 10.
    + rewrite !Hother; [done|rewrite !elem_of_cons; auto 10..].
Qed.

(** ** Instances of the further properties *)


Lemma view_links_open_their_item_witness :
  ∃ calls,
    admin_view_command fair_weather
      (say root 7 {| text := Some "/view_1"; photo := []; caption := None |})
      reply_world
    = (Ret None,
       set_outbox
         (outbox reply_world ++ calls
            ++ [(send_message 7 (details_text 1 sample_item)
                   (Some (get_admin_feedback_actions_keyboard 1 "new")),
                 true)]) reply_world).
Proof.
  destruct (view_links_open_their_item fair_weather root 7 false 1 sample_item
              reply_world) as (_ & (calls & H & _) & _);
    [lia|reflexivity|].
  exists calls. exact H.
Defined.

Lemma every_item_on_one_page_witness :
  ∃ p, 0 ≤ p ∧ (1, sample_item) ∈ page_rows (db reply_world) p.
Proof.
  destruct (every_item_on_one_page (text_message root "/list") reply_world 1
              sample_item) as (p & Hp & Hin & _); [reflexivity|].
  by exists p.
Defined.



Lemma start_only_greets_witness :
  process_update fair_weather (say alice 42
    {| text := Some "/start"; photo := []; caption := None |}) draft_world
  = (None,
     set_outbox
       (outbox draft_world
          ++ [(if bool_decide (registered_admin draft_world
                               = Some (Py.str (id alice)))
               then send_message 42 admin_menu None
               else send_message 42
                      "Welcome! Click the button below to leave feedback."
                      (Some [[button "📝 Start New Feedback" "start_feedback"]]),
               true)]) draft_world).
Proof.
  apply (start_only_greets fair_weather alice 42
           {| text := Some "/start"; photo := []; caption := None |}
           draft_world).
  reflexivity.
Defined.

Lemma message_without_text_or_photo_is_ignored_witness :
  process_update fair_weather
    (say alice 42 {| text := None; photo := []; caption := Some "hello" |})
    draft_world
  = (None, draft_world).
Proof.
  apply (message_without_text_or_photo_is_ignored fair_weather alice 42
           {| text := None; photo := []; caption := Some "hello" |}
           draft_world); reflexivity.
Defined.

Lemma failed_commit_keeps_draft_witness :
  process_update database_down
    (press alice 42 {| data := "confirm_yes"; message_photo := false |})
    (draft_at CONFIRM_SUBMISSION)
  = (None,
     set_feedback_conv
       (delete (42, id alice) (feedback_conv (draft_at CONFIRM_SUBMISSION)))
       (set_outbox
          (outbox (draft_at CONFIRM_SUBMISSION)
             ++ [(answer, true); (delete_message, true);
                 (send_message 42
                    "❌ A database error occurred. Please try again later."
                    None, true)]) (draft_at CONFIRM_SUBMISSION))).
Proof.
  apply (failed_commit_keeps_draft database_down alice 42
           {| data := "confirm_yes"; message_photo := false |}
           "⭐ Other" 5 (draft_at CONFIRM_SUBMISSION)).
  - vm_compute; reflexivity.
  - reflexivity.
  - discriminate.
  - vm_compute; reflexivity.
  - vm_compute; reflexivity.
  - reflexivity.
Defined.

Lemma rating_not_a_number_witness :
  process_update fair_weather
    (press alice 42 {| data := "rating_five"; message_photo := false |})
    (draft_at GET_RATING)
  = (Some ValueError,
     set_outbox (outbox (draft_at GET_RATING) ++ [(answer, true)])
       (draft_at GET_RATING)).
Proof.
  apply (rating_not_a_number fair_weather alice 42
           {| data := "rating_five"; message_photo := false |}
           (draft_at GET_RATING)).
  - vm_compute; reflexivity.
  - reflexivity.
  - vm_compute; reflexivity.
Defined.

Lemma buttons_of_a_missing_item_witness :
  admin_feedback_action_callback fair_weather
    (press root 7 {| data := "admin_delete_" +:+ Py.str 9;
                     message_photo := false |}) admin_world
  = (Ret None,
     set_outbox
       (outbox admin_world
          ++ [(answer, true);
              (edit_message_text
                 ("🗑️ Feedback #" +:+ Py.str 9 +:+ " has been deleted.")
                 None, true)]) admin_world).
Proof.
  destruct (buttons_of_a_missing_item fair_weather root 7 false 9 admin_world)
    as (_ & _ & H); [reflexivity|exact H].
Defined.

Lemma reply_without_target_witness :
  admin_reply_handler fair_weather (text_message root "thanks") admin_world
  = (Ret (Some END), admin_world).
Proof.
  destruct (reply_without_target fair_weather (text_message root "thanks")
              {| text := Some "thanks"; photo := []; caption := None |}
              admin_world) as [H _]; [reflexivity|].
  apply H. left. reflexivity.
Defined.

Lemma reply_delivered_witness :
  ∃ calls,
    admin_reply_handler fair_weather (text_message root "thanks") reply_world
    = (Ret (Some END),
       set_user_data (<[7 := no_user_data]> (user_data reply_world))
         (set_outbox (outbox reply_world ++ calls)
            (set_db (<[1 := set_status "replied" sample_item]> (db reply_world))
               reply_world))).
Proof.
  eexists.
  apply (reply_delivered fair_weather (text_message root "thanks")
           {| text := Some "thanks"; photo := []; caption := None |}
           reply_world 1 sample_item).
  - reflexivity.
  - vm_compute; reflexivity.
  - discriminate.
  - vm_compute; reflexivity.
  - reflexivity.
Defined.

Lemma stats_counts_add_up_witness :
  ∃ by_category by_status : list (string * nat),
    sum_list by_category.*2 = size (db reply_world)
    ∧ sum_list by_status.*2 = size (db reply_world).
Proof.
  destruct (stats_counts_add_up fair_weather (text_message root "/stats")
              {| text := Some "/stats"; photo := []; caption := None |}
              reply_world) as (by_category & by_status & _ & H).
  - reflexivity.
  - vm_compute; reflexivity.
  - intros Hempty. apply (f_equal (λ d, d !! 1)) in Hempty. discriminate Hempty.
  - intros i fb Hfb.
    change (db reply_world) with ({[ 1 := sample_item ]} : gmap Z Feedback)
      in Hfb.
    apply lookup_singleton_Some in Hfb as [_ <-]. by left.
  - exists by_category, by_status. split.
    + apply (H category by_category). by left.
    + apply (H status by_status). by right.
Defined.

Lemma view_filter_gives_an_id_witness :
  ∃ rest i,
    Some "/view_１２" = Some ("/view_" +:+ rest)
    ∧ Py.int rest = Some i ∧ 0 ≤ i.
Proof.
  destruct (view_filter_gives_an_id fair_weather root 7
              {| text := Some "/view_１２"; photo := []; caption := None |}
              admin_world) as (rest & i & Htext & Hint & Hi & _);
    [vm_compute; reflexivity|].
  by exists rest, i.
Defined.


Lemma dialogue_buttons_are_dead_outside_witness :
  process_update fair_weather
    (press alice 42 {| data := "confirm_yes"; message_photo := false |})
    draft_world
  = (None, draft_world).
Proof.
  apply (dialogue_buttons_are_dead_outside fair_weather alice 42
           {| data := "confirm_yes"; message_photo := false |} draft_world);
    reflexivity.
Defined.

Lemma entry_buttons_are_dead_inside_witness :
  process_update fair_weather
    (press alice 42 {| data := "start_feedback"; message_photo := false |})
    (draft_at GET_RATING)
  = (None, draft_at GET_RATING).
Proof.
  apply (entry_buttons_are_dead_inside fair_weather alice 42
           {| data := "start_feedback"; message_photo := false |}
           (draft_at GET_RATING)).
  left. split; [|reflexivity]. exists GET_RATING. vm_compute; reflexivity.
Defined.
